(** * ilusiona_gen_download: code generation, GS1 check digit and PNG fetching

    A shallow embedding of [ilusiona_gen_download.py].

    - Python [str] values are Rocq [string]s; a character stands for the code
      point with the same number (0..255), so [ord] is [N_of_ascii].
    - Python [int] is [Z]; [%] is [Z.modulo] (both take the sign of the
      divisor).
    - [bytes] are lists of [Byte.byte].
    - The process state (file system, network, random source, log of what
      was done) is threaded through a state-and-exception monad [M].
    - The file system is a finite map from paths to contents. Its operations
      raise [OSError] when the file they need is absent. The operations of a
      fetch (creating, writing, reading, renaming and removing a file) can
      also fail for a reason of the system's own (missing directory,
      permissions, full disk), as oracles held in the state say; operations
      on a plain file name of the working directory (where the script has
      written its output file before any fetch) are taken never to fail that
      way, nor are those on the output file of the codes. Text written to
      the output file is taken to reach it at once.
    - The network and [secrets.randbelow] are oracles held in the state: the
      answer to the n-th request and the value of the n-th draw.
    - The prompts ([ask_digits], [ask_int]) are modelled apart, over a
      console of input lines; [main] takes their answers and the timestamp
      as arguments. The clock and the progress messages of [main] are
      outside the embedding. *)

From Stdlib Require Import ZArith Ascii String DecimalString QArith Lia.
From stdpp Require Import gmap strings.

Local Open Scope Z_scope.

(** Let [simpl] compute appends of string literals. *)
#[local] Arguments String.append !s1 s2 : simpl nomatch.

(** ** Python primitives *)

Module Py.

Abbreviation bytes := (list Byte.byte).

(** [ord(ch)] *)
Definition ord (ch : ascii) : Z := Z.of_N (N_of_ascii ch).

(** [chr(n)] for [0 <= n < 256] *)
Definition chr (n : Z) : ascii := ascii_of_N (Z.to_N n).

(** [str(n)] for an [int] *)
Definition str (n : Z) : string := NilZero.string_of_int (Z.to_int n).

(** [reversed(s)], as the list of characters it yields *)
Definition reversed (s : string) : list ascii := rev (list_ascii_of_string s).

(** [range(lo, hi)] *)
Definition range (lo hi : Z) : list Z :=
  map (fun i => lo + Z.of_nat i) (seq 0 (Z.to_nat (hi - lo))).

(** The characters below code point 256 on which [str.isdigit] holds:
    the ASCII digits and the superscripts U+00B2, U+00B3, U+00B9. *)
Definition isdigit_char (ch : ascii) : bool :=
  let n := ord ch in
  ((48 <=? n) && (n <=? 57)) || (n =? 178) || (n =? 179) || (n =? 185).

Fixpoint all_chars (p : ascii -> bool) (s : string) : bool :=
  match s with
  | EmptyString => true
  | String ch s' => p ch && all_chars p s'
  end.

(** [s.isdigit()]: false on the empty string *)
Definition isdigit (s : string) : bool :=
  match s with
  | EmptyString => false
  | _ => all_chars isdigit_char s
  end.

Fixpoint repeat_char (ch : ascii) (n : nat) : string :=
  match n with
  | O => EmptyString
  | S n' => String ch (repeat_char ch n')
  end.

(** [f"{n:0{width}d}"]: the sign, then zeros up to [width] characters in
    all, then the digits. *)
Definition format_0d (width : nat) (n : Z) : string :=
  let sign := if n <? 0 then "-" else "" in
  let digits := str (Z.abs n) in
  let pad := (width - String.length sign - String.length digits)%nat in
  sign +:+ repeat_char "0" pad +:+ digits.

(** [s.encode("utf-8")] for code points below 256 *)
Definition utf8_char (ch : ascii) : bytes :=
  let n := ord ch in
  if n <? 128 then [byte_of_ascii ch]
  else [byte_of_ascii (chr (Z.lor 192 (Z.shiftr n 6)));
        byte_of_ascii (chr (Z.lor 128 (Z.land n 63)))].

Definition utf8 (s : string) : bytes :=
  flat_map utf8_char (list_ascii_of_string s).

(** Non-ASCII letters of the program's messages, by code point. *)
Definition a_acute : ascii := chr 225.
Definition i_acute : ascii := chr 237.
Definition o_acute : ascii := chr 243.
Definition u_acute : ascii := chr 250.
Definition U_acute : ascii := chr 218.

End Py.

(** ** The check digit *)

(** One round of the loop body: the pair is ([total], [weight]). *)
Definition gs1_step (st : Z * Z) (ch : ascii) : Z * Z :=
  let '(total, weight) := st in
  let d := Py.ord ch - Py.ord "0" in
  (total + d * weight, if weight =? 3 then 1 else 3).

Definition gs1_loop (number_str : string) : Z * Z :=
  fold_left gs1_step (Py.reversed number_str) (0, 3).

Definition gs1_mod10_check_digit (number_str : string) : string :=
  let total := fst (gs1_loop number_str) in
  Py.str ((10 - (total mod 10)) mod 10).

(** ** The request sent to the rendering service *)

Module Url.

Definition hex_digit (n : Z) : ascii :=
  if n <? 10 then Py.chr (48 + n) else Py.chr (55 + n).

(** ["%{:02X}".format(b)] *)
Definition percent (b : Byte.byte) : string :=
  let n := Z.of_N (Byte.to_N b) in
  String "%" (String (hex_digit (n / 16)) (String (hex_digit (n mod 16)) "")).

(** Letters, digits and [_.-~] are never quoted. *)
Definition always_safe (ch : ascii) : bool :=
  let n := Py.ord ch in
  ((48 <=? n) && (n <=? 57)) || ((65 <=? n) && (n <=? 90))
  || ((97 <=? n) && (n <=? 122))
  || (n =? 95) || (n =? 46) || (n =? 45) || (n =? 126).

Definition quote_plus_char (ch : ascii) : string :=
  if Py.ord ch =? 32 then "+"
  else if always_safe ch then String ch ""
  else fold_right (fun b acc => percent b +:+ acc) "" (Py.utf8_char ch).

Fixpoint quote_plus (s : string) : string :=
  match s with
  | EmptyString => ""
  | String ch s' => quote_plus_char ch +:+ quote_plus s'
  end.

Fixpoint urlencode (params : list (string * string)) : string :=
  match params with
  | [] => ""
  | [(k, v)] => quote_plus k +:+ "=" +:+ quote_plus v
  | (k, v) :: rest => quote_plus k +:+ "=" +:+ quote_plus v +:+ "&" +:+ urlencode rest
  end.

End Url.

Definition build_barcode_url (code : string) : string :=
  let base_url := "https://free-barcode.com/barcode.asp" in
  let params :=
    [("bc1", code); ("bc2", "17"); ("bc3", "3"); ("bc4", "1.05"); ("bc5", "1");
     ("bc6", "1"); ("bc7", "Arial"); ("bc8", "15"); ("bc9", "1")] in
  base_url +:+ "?" +:+ Url.urlencode params.

(** ** The process state *)

Abbreviation files := (gmap string Py.bytes).

Record request := mkRequest {
  req_url : string;
  req_headers : list (string * string);
  req_method : string;
  req_timeout : Z
}.

(** What [urlopen(...).read()] does for one request: the body, or an
    exception [e] with [str(e) = msg]. *)
Inductive response :=
| Body (data : Py.bytes)
| Failure (msg : string).

Inductive fs_op :=
| OpOpenW (path : string)
| OpWrite (path : string) (data : Py.bytes)
| OpAppend (path : string) (data : Py.bytes)
| OpReplace (src dst : string)
| OpRemove (path : string).

(** The log: every request, every sleep, and every change of the file
    system together with the file system it leaves. *)
Inductive event :=
| EvRequest (r : request)
| EvSleep (d : Q)
| EvFs (op : fs_op) (after : files).

(** The errors of the system's own: [str(e)] of the error a change of the
    file system meets, and of the one met on opening a file for reading;
    and how many bytes of the data a write that fails has put into the
    file. *)
Record faults := mkFaults {
  on_change : fs_op -> option string;
  on_read : string -> option string;
  short_write : string -> Py.bytes -> nat
}.

Definition no_faults : faults :=
  mkFaults (fun _ => None) (fun _ => None) (fun _ _ => 0%nat).

Record world := mkFaultyWorld {
  fs : files;
  net : nat -> request -> response;   (* outcome of the n-th request *)
  nreq : nat;
  rng : nat -> Z -> Z;                (* n-th draw of secrets.randbelow *)
  ndraw : nat;
  trace : list event;
  fault : faults
}.

(** A world whose file operations meet no error of the system's own. *)
Definition mkWorld (fs : files) (net : nat -> request -> response) (nreq : nat)
    (rng : nat -> Z -> Z) (ndraw : nat) (trace : list event) : world :=
  mkFaultyWorld fs net nreq rng ndraw trace no_faults.

Definition log (e : event) (w : world) : world :=
  mkFaultyWorld (fs w) (net w) (nreq w) (rng w) (ndraw w) (trace w ++ [e]) (fault w).

Definition set_fs (op : fs_op) (m : files) (w : world) : world :=
  mkFaultyWorld m (net w) (nreq w) (rng w) (ndraw w) (trace w ++ [EvFs op m]) (fault w).

(** A plain file name of the working directory, with or without a leading
    ["./"]: no further ['/'], no NUL character, and not made of dots only
    (so neither empty nor ["."] nor [".."]). *)
Definition name_char (ch : ascii) : bool :=
  negb (Py.ord ch =? 47) && negb (Py.ord ch =? 0).

Definition is_dot (ch : ascii) : bool := Py.ord ch =? 46.

Definition plain_name (name : string) : bool :=
  Py.all_chars name_char name && negb (Py.all_chars is_dot name).

Definition plain_path (path : string) : bool :=
  match path with
  | String "."%char (String "/"%char name) => plain_name name
  | _ => plain_name path
  end.

Definition plain_op (op : fs_op) : bool :=
  match op with
  | OpOpenW p | OpWrite p _ | OpAppend p _ | OpRemove p => plain_path p
  | OpReplace src dst => plain_path src && plain_path dst
  end.

(** The error an operation of a fetch meets, if any: none on plain names
    of the working directory, else what the oracle says. *)
Definition op_fault (w : world) (op : fs_op) : option string :=
  if plain_op op then None else on_change (fault w) op.

Definition read_fault (w : world) (path : string) : option string :=
  if plain_path path then None else on_read (fault w) path.

(** ** Exceptions and the monad *)

(** [OSError] as the file operations raise it, [TransportError] for
    whatever [urlopen] or [read] raise, and [SystemExit]. *)
Inductive exn_class := OSError | TransportError | SystemExit.

Record exn := mkExn { exn_kind : exn_class; exn_msg : string }.

Inductive result (A : Type) :=
| Ok (a : A)
| Raise (e : exn).
Arguments Ok {A} a.
Arguments Raise {A} e.

Definition M (A : Type) : Type := world -> result A * world.

Definition ret {A} (a : A) : M A := fun w => (Ok a, w).

Definition bind {A B} (c : M A) (k : A -> M B) : M B :=
  fun w => match c w with
           | (Ok a, w') => k a w'
           | (Raise e, w') => (Raise e, w')
           end.

Definition raise {A} (e : exn) : M A := fun w => (Raise e, w).

(** [try: body  except <classes>: handler] *)
Definition try_except {A} (body : M A) (catches : exn_class -> bool)
    (handler : exn -> M A) : M A :=
  fun w => match body w with
           | (Ok a, w') => (Ok a, w')
           | (Raise e, w') =>
               if catches (exn_kind e) then handler e w' else (Raise e, w')
           end.

Notation "'let*' x ':=' c 'in' k" := (bind c (fun x => k))
  (at level 10, x name, c at level 100, k at level 200).

(** [except OSError] *)
Definition is_OSError (c : exn_class) : bool :=
  match c with OSError => true | _ => false end.

(** [except Exception]: everything but [SystemExit]. *)
Definition is_Exception (c : exn_class) : bool :=
  match c with SystemExit => false | _ => true end.

(** ** Operating-system primitives *)

Definition os_path_exists (path : string) : M bool :=
  fun w => (Ok (match fs w !! path with Some _ => true | None => false end), w).

Definition os_path_getsize (path : string) : M Z :=
  fun w => match fs w !! path with
           | Some data => (Ok (Z.of_nat (length data)), w)
           | None => (Raise (mkExn OSError path), w)
           end.

(** [with open(path, "wb") as f: f.write(data)]: the file is created or
    truncated, then filled. Opening can fail, and leaves nothing; writing
    can fail, and leaves the file with some first bytes of the data. The
    exception is raised as an [OSError]; whatever its class, only
    [except Exception] stands around this block. *)
Definition write_file (path : string) (data : Py.bytes) : M unit :=
  fun w =>
    match op_fault w (OpOpenW path) with
    | Some msg => (Raise (mkExn OSError msg), w)
    | None =>
        let w1 := set_fs (OpOpenW path) (<[path := []]> (fs w)) w in
        match op_fault w (OpWrite path data) with
        | Some msg =>
            let part := take (short_write (fault w) path data) data in
            (Raise (mkExn OSError msg),
             set_fs (OpWrite path part) (<[path := part]> (fs w1)) w1)
        | None => (Ok tt, set_fs (OpWrite path data) (<[path := data]> (fs w1)) w1)
        end
    end.

(** [open(path, "w")]: the file is created or truncated. *)
Definition open_w (path : string) : M unit :=
  fun w => (Ok tt, set_fs (OpOpenW path) (<[path := []]> (fs w)) w).

(** [f.write(text)] on a file opened for writing with [encoding="utf-8"];
    the text is taken to reach the file at once. *)
Definition file_write (path text : string) : M unit :=
  fun w =>
    let old := default [] (fs w !! path) in
    (Ok tt, set_fs (OpAppend path (Py.utf8 text))
                   (<[path := old ++ Py.utf8 text]> (fs w)) w).

(** A path that [open] takes: no NUL character in it. *)
Definition not_nul (ch : ascii) : bool := negb (Py.ord ch =? 0).

Definition no_nul (path : string) : bool := Py.all_chars not_nul path.

(** [with open(path, "rb") as f: f.read(n)], for a path without NUL
    character (on which [open] raises [ValueError], not [OSError]): fails
    when the file is absent or the system refuses to open it. *)
Definition read_prefix (path : string) (n : nat) : M Py.bytes :=
  fun w => match fs w !! path with
           | Some data =>
               match read_fault w path with
               | Some msg => (Raise (mkExn OSError msg), w)
               | None => (Ok (take n data), w)
               end
           | None => (Raise (mkExn OSError path), w)
           end.

(** [os.replace(src, dst)]: fails when [src] is absent or the system
    refuses the rename, and then changes nothing. *)
Definition os_replace (src dst : string) : M unit :=
  fun w => match fs w !! src with
           | Some data =>
               match op_fault w (OpReplace src dst) with
               | Some msg => (Raise (mkExn OSError msg), w)
               | None =>
                   (Ok tt,
                    set_fs (OpReplace src dst) (<[dst := data]> (delete src (fs w))) w)
               end
           | None => (Raise (mkExn OSError src), w)
           end.

(** [os.remove(path)]: fails when [path] is absent or the system refuses
    the removal, and then changes nothing. *)
Definition os_remove (path : string) : M unit :=
  fun w => match fs w !! path with
           | Some _ =>
               match op_fault w (OpRemove path) with
               | Some msg => (Raise (mkExn OSError msg), w)
               | None => (Ok tt, set_fs (OpRemove path) (delete path (fs w)) w)
               end
           | None => (Raise (mkExn OSError path), w)
           end.

(** [time.sleep(d)] for a delay [d >= 0]; a negative delay, on which
    [time.sleep] raises [ValueError], is outside the embedding. *)
Definition time_sleep (d : Q) : M unit :=
  fun w => (Ok tt, log (EvSleep d) w).

(** [urlopen(req, timeout=...)] followed by [resp.read()] *)
Definition requested (r : request) (w : world) : world :=
  mkFaultyWorld (fs w) (net w) (S (nreq w)) (rng w) (ndraw w) (trace w ++ [EvRequest r])
    (fault w).

Definition urlopen_read (r : request) : M Py.bytes :=
  fun w =>
    match net w (nreq w) r with
    | Body data => (Ok data, requested r w)
    | Failure msg => (Raise (mkExn TransportError msg), requested r w)
    end.

Definition secrets_randbelow (n : Z) : M Z :=
  fun w => (Ok (rng w (ndraw w) n),
            mkFaultyWorld (fs w) (net w) (nreq w) (rng w) (S (ndraw w)) (trace w)
              (fault w)).

(** ** Fetching one image *)

Definition PNG_SIGNATURE : Py.bytes :=
  [Byte.x89; Byte.x50; Byte.x4e; Byte.x47; Byte.x0d; Byte.x0a; Byte.x1a; Byte.x0a].

Fixpoint bytes_eqb (a b : Py.bytes) : bool :=
  match a, b with
  | [], [] => true
  | x :: a', y :: b' => Byte.eqb x y && bytes_eqb a' b'
  | _, _ => false
  end.

Definition is_png_file (path : string) : M bool :=
  try_except
    (let* sig := read_prefix path 8 in
     ret (bytes_eqb sig PNG_SIGNATURE))
    is_OSError
    (fun _ => ret false).

Definition msg_cached (out_file : string) : string :=
  "OK (ya existe): " +:+ out_file.

Definition msg_ok (out_file : string) : string := "OK: " +:+ out_file.

Definition msg_not_png (code : string) : string :=
  "ERROR: descargado pero no parece PNG (quiz" +:+ String Py.a_acute " HTML). C"
  +:+ String Py.o_acute "digo=" +:+ code.

Definition msg_exhausted (code last_err : string) : string :=
  "ERROR: fallo descargando " +:+ code +:+ ". " +:+ String Py.U_acute "ltimo error: "
  +:+ last_err.

Definition HEADERS : list (string * string) :=
  [("User-Agent", "Mozilla/5.0 (X11; Linux x86_64) ilusiona_gen_download/1.0");
   ("Accept", "image/png,image/*;q=0.9,*/*;q=0.8")].

Section download.

Variables (code out_file : string) (timeout_s retries : Z) (sleep_s : Q).

Definition tmp_file : string := out_file +:+ ".tmp".

(** The [try] block of one attempt; its value is what it returns. *)
Definition the_request : request :=
  mkRequest (build_barcode_url code) HEADERS "GET" timeout_s.

Definition attempt_try : M (bool * string) :=
  let* data := urlopen_read the_request in
  let* _ := write_file tmp_file data in
  let* png := is_png_file tmp_file in
  if png then
    let* _ := os_replace tmp_file out_file in
    ret (true, msg_ok out_file)
  else
    let* _ := try_except (os_remove tmp_file) is_OSError (fun _ => ret tt) in
    ret (false, msg_not_png code).

(** The [except Exception as e] block; its value is the new [last_err],
    and control goes on to the next round. *)
Definition attempt_except (attempt : Z) (e : exn) : M string :=
  let last_err := exn_msg e in
  let* _ := try_except
              (let* there := os_path_exists tmp_file in
               if there then os_remove tmp_file else ret tt)
              is_OSError (fun _ => ret tt) in
  let* _ := if attempt <? retries + 2 then time_sleep sleep_s else ret tt in
  ret last_err.

(** One round: [inl] is a [return] out of the function, [inr] the
    [last_err] carried into the next round. *)
Definition attempt_body (attempt : Z) : M ((bool * string) + string) :=
  try_except
    (let* r := attempt_try in ret (inl r))
    is_Exception
    (fun e => let* last_err := attempt_except attempt e in ret (inr last_err)).

Fixpoint attempt_loop (attempts : list Z) (last_err : string) : M (bool * string) :=
  match attempts with
  | [] => ret (false, msg_exhausted code last_err)
  | attempt :: rest =>
      let* r := attempt_body attempt in
      match r with
      | inl out => ret out
      | inr last_err' => attempt_loop rest last_err'
      end
  end.

Definition download_png : M (bool * string) :=
  let* there := os_path_exists out_file in
  let* cached := if there
                 then let* size := os_path_getsize out_file in ret (size >? 0)
                 else ret false in
  if cached then ret (true, msg_cached out_file)
  else attempt_loop (Py.range 1 (retries + 2)) "".

End download.

(** ** Generating the codes *)

Definition SERIAL_WIDTH : nat := 3.
Definition TICKETS_MIN : Z := 116.
Definition TICKETS_MAX : Z := 951.
Definition TICKETS_WIDTH : nat := 4.

(** The line feed that ends each line of the output file. *)
Definition newline : string := String (Py.chr 10) "".

Definition msg_range (serial_val : Z) : string :=
  "ERROR: la serie se sale de 3 d" +:+ String Py.i_acute "gitos ("
  +:+ String Py.u_acute "ltima=" +:+ Py.str serial_val +:+ ").".

Section generate.

Variables (fixed : string) (start_serial : Z) (out_file : string).

(** The body of the generation loop for index [i]; its value is the code
    appended to [generated]. *)
Definition generate_one (i : Z) : M string :=
  let serial_val := start_serial + i in
  if serial_val >? 999 then raise (mkExn SystemExit (msg_range serial_val))
  else
    let serial := Py.format_0d SERIAL_WIDTH serial_val in
    let* r := secrets_randbelow (TICKETS_MAX - TICKETS_MIN + 1) in
    let tickets_val := r + TICKETS_MIN in
    let tickets := Py.format_0d TICKETS_WIDTH tickets_val in
    let base_13 := fixed +:+ serial +:+ tickets in
    let crc := gs1_mod10_check_digit base_13 in
    let full_14 := base_13 +:+ crc in
    let* _ := file_write out_file (full_14 +:+ newline) in
    ret full_14.

Fixpoint generate_loop (indices : list Z) (generated : list string)
    : M (list string) :=
  match indices with
  | [] => ret generated
  | i :: rest =>
      let* full_14 := generate_one i in
      generate_loop rest (generated ++ [full_14])
  end.

Definition generate (qty : Z) : M (list string) :=
  let* _ := open_w out_file in
  generate_loop (Py.range 0 qty) [].

End generate.

(** ** Downloading the batch *)

Record summary := mkSummary {
  total : Z;   (* Procesados *)
  ok : Z;      (* OK *)
  skip : Z;    (* Ignorados *)
  fail : Z     (* Fallos *)
}.

Definition png_path (code : string) : string := "./" +:+ code +:+ ".png".

(** The default backoff, 0.5 seconds. *)
Definition SLEEP_S : Q := 1 # 2.

Fixpoint batch_loop (codes : list string) (acc : summary) : M summary :=
  match codes with
  | [] => ret acc
  | code :: rest =>
      let total' := total acc + 1 in
      if negb (Py.isdigit code) then
        batch_loop rest (mkSummary total' (ok acc) (skip acc + 1) (fail acc))
      else
        let png_file := png_path code in
        let* r := download_png code png_file 30 2 SLEEP_S in
        if fst r
        then batch_loop rest (mkSummary total' (ok acc + 1) (skip acc) (fail acc))
        else batch_loop rest (mkSummary total' (ok acc) (skip acc) (fail acc + 1))
  end.

(** [main], given the answers to the three prompts and the timestamp. *)
Definition main (fixed : string) (start_serial qty : Z) (ts : string) : M summary :=
  let out_file := "ilusiona_" +:+ ts +:+ ".txt" in
  let* generated := generate fixed start_serial out_file qty in
  batch_loop generated (mkSummary 0 0 0 0).

(** ** The check digit as the specification words it *)

Module Gs1Spec.

(** The ten digit characters, by increasing value. *)
Definition digit_chars : list ascii := list_ascii_of_string "0123456789".

Fixpoint position_from (k : Z) (ch : ascii) (l : list ascii) : option Z :=
  match l with
  | [] => None
  | c :: l' => if Ascii.eqb c ch then Some k else position_from (k + 1) ch l'
  end.

(** The value of a decimal digit character: its rank among the digit
    characters; none for any other character. *)
Definition digit_value (ch : ascii) : option Z := position_from 0 ch digit_chars.

(** The digits of a string of ASCII digits, leftmost first. *)
Fixpoint digits_of (s : string) : option (list Z) :=
  match s with
  | EmptyString => Some []
  | String ch s' =>
      match digit_value ch, digits_of s' with
      | Some d, Some ds => Some (d :: ds)
      | _, _ => None
      end
  end.

(** Weight of the position [i] counted from the right, rightmost = 0:
    3, 1, 3, 1, ... *)
Definition position_weight (i : nat) : Z := if Nat.even i then 3 else 1.

Definition sumZ (l : list Z) : Z := fold_right Z.add 0 l.

(** [Σ digit_j * weight_j], the digit at index [j] from the left sitting
    at position [n - 1 - j] from the right. *)
Definition weighted_sum (ds : list Z) : Z :=
  let n := length ds in
  sumZ (map (fun j => nth j ds 0 * position_weight (n - 1 - j)) (seq 0 n)).

Definition check_digit (ds : list Z) : Z := (10 - weighted_sum ds mod 10) mod 10.

(** What the loop reads off a character, digit or not. *)
Definition raw_values (s : string) : list Z :=
  map (fun ch => Py.ord ch - 48) (list_ascii_of_string s).

End Gs1Spec.

(** ** Auxiliary definitions for the proofs *)

(** Sum of the values met from the right, the first one at position [k]. *)
Fixpoint sum_from (k : nat) (vs : list Z) : Z :=
  match vs with
  | [] => 0
  | v :: vs' => v * Gs1Spec.position_weight k + sum_from (S k) vs'
  end.

(** The characters ['0'..'9']. *)
Definition ascii_digit (ch : ascii) : bool := (48 <=? Py.ord ch) && (Py.ord ch <=? 57).

(** A non-empty string of ASCII digits, the input the check digit is
    meant for. *)
Definition nonempty_ascii_digits (s : string) : bool :=
  match s with
  | EmptyString => false
  | _ => Py.all_chars ascii_digit s
  end.

(** ** Worlds reached by one fetch attempt *)

Section attempt_worlds.

Variables (code out_file : string) (timeout_s retries : Z) (sleep_s : Q).

Let tmp := tmp_file out_file.
Let req := the_request code timeout_s.

(** The temporary file removed, if it is there and the system lets it
    be removed. *)
Definition remove_tmp (w : world) : world :=
  match fs w !! tmp with
  | Some _ =>
      match op_fault w (OpRemove tmp) with
      | None => set_fs (OpRemove tmp) (delete tmp (fs w)) w
      | Some _ => w
      end
  | None => w
  end.

(** After the [except] block, entered in the world [w]. *)
Definition after_handler (attempt : Z) (w : world) : world :=
  let w2 := remove_tmp w in
  if attempt <? retries + 2 then log (EvSleep sleep_s) w2 else w2.

(** After an attempt whose request failed. *)
Definition after_failure (attempt : Z) (w : world) : world :=
  after_handler attempt (requested req w).

(** After the temporary file has been created. *)
Definition after_open (w : world) : world :=
  let w1 := requested req w in
  set_fs (OpOpenW tmp) (<[tmp := []]> (fs w1)) w1.

(** After a write to the temporary file that failed. *)
Definition after_short_write (data : Py.bytes) (w : world) : world :=
  let w2 := after_open w in
  let part := take (short_write (fault w) tmp data) data in
  set_fs (OpWrite tmp part) (<[tmp := part]> (fs w2)) w2.

(** After the body has been written to the temporary file. *)
Definition after_write (data : Py.bytes) (w : world) : world :=
  let w2 := after_open w in
  set_fs (OpWrite tmp data) (<[tmp := data]> (fs w2)) w2.

(** After an attempt that fetched a PNG. *)
Definition after_png (data : Py.bytes) (w : world) : world :=
  let w3 := after_write data w in
  set_fs (OpReplace tmp out_file) (<[out_file := data]> (delete tmp (fs w3))) w3.

(** After an attempt that fetched something else. *)
Definition after_not_png (data : Py.bytes) (w : world) : world :=
  remove_tmp (after_write data w).

End attempt_worlds.

Definition has_png_signature (data : Py.bytes) : bool :=
  bytes_eqb (take 8 data) PNG_SIGNATURE.

(** What [is_png_file] answers for a file that holds [data]: a file that
    cannot be opened for reading is not seen as a PNG. *)
Definition seen_as_png (w : world) (path : string) (data : Py.bytes) : bool :=
  match read_fault w path with
  | Some _ => false
  | None => has_png_signature data
  end.

Section attempt_outcome.

Variables (code out_file : string) (timeout_s retries : Z) (sleep_s : Q).

Let tmp := tmp_file out_file.
Let req := the_request code timeout_s.

(** One round of the loop, case by case: what it yields ([inl] a result
    returned, [inr] the error carried on) and the world it leaves. *)
Definition attempt_outcome (attempt : Z) (w : world)
    : ((bool * string) + string) * world :=
  let handled := after_handler out_file retries sleep_s attempt in
  match net w (nreq w) req with
  | Failure msg => (inr msg, handled (requested req w))
  | Body data =>
      match op_fault w (OpOpenW tmp) with
      | Some msg => (inr msg, handled (requested req w))
      | None =>
          match op_fault w (OpWrite tmp data) with
          | Some msg =>
              (inr msg, handled (after_short_write code out_file timeout_s data w))
          | None =>
              if seen_as_png w tmp data then
                match op_fault w (OpReplace tmp out_file) with
                | Some msg =>
                    (inr msg, handled (after_write code out_file timeout_s data w))
                | None =>
                    (inl (true, msg_ok out_file),
                     after_png code out_file timeout_s data w)
                end
              else
                (inl (false, msg_not_png code),
                 after_not_png code out_file timeout_s data w)
          end
      end
  end.

End attempt_outcome.

(** The requests and sleeps of a log, in order. *)
Definition is_timing (e : event) : bool :=
  match e with EvFs _ _ => false | _ => true end.

Definition timing (tr : list event) : list event := filter is_timing tr.

(** What a call appended to the log. *)
Definition new_events (w w' : world) : list event :=
  drop (length (trace w)) (trace w').

(** The cache check of [download_png] does not hit: no file at the
    destination, or an empty one. *)
Definition not_cached (w : world) (out_file : string) : Prop :=
  fs w !! out_file = None \/ fs w !! out_file = Some [].

(** A transport on which every request raises, the n-th one with
    message [err n]. *)
Definition always_fails (w : world) (err : nat -> string) : Prop :=
  forall n r, net w n r = Failure (err n).

Section fail_all.

Variables (code out_file : string) (timeout_s retries : Z) (sleep_s : Q).

(** The world after the given attempts have all failed in transport. *)
Definition fail_all (attempts : list Z) (w : world) : world :=
  fold_left (fun w a => after_failure code out_file timeout_s retries sleep_s a w)
            attempts w.

End fail_all.

(** A transport that times out on every request. *)
Definition timeout_world : world :=
  mkWorld ∅ (fun _ _ => Failure "timed out") 0 (fun _ _ => 0) 0 [].

(** A destination that exists but is empty, and a transport that answers
    with an HTML page. *)
Definition html_body : Py.bytes :=
  [Byte.x3c; Byte.x68; Byte.x74; Byte.x6d; Byte.x6c; Byte.x3e].

Definition html_world : world :=
  mkWorld (<["./x.png" := []]> ∅) (fun _ _ => Body html_body) 0 (fun _ _ => 0) 0 [].

(** The same page already stored, in a directory of its own. *)
Definition html_dir_world : world :=
  mkWorld (<["pages/x.png" := html_body]> ∅) (fun _ _ => Body html_body) 0
    (fun _ _ => 0) 0 [].

(** ** What may be seen at the destination during a fetch *)

Section staging.

Variables (w0 : world) (out_file : string).

(** The destination is absent, or as it was before the call, or holds
    the whole body of a response that starts with the PNG signature. *)
Definition dest_ok (m : files) : Prop :=
  m !! out_file = None
  \/ m !! out_file = fs w0 !! out_file
  \/ exists data, m !! out_file = Some data
                  /\ has_png_signature data = true
                  /\ exists n r, net w0 n r = Body data.

(** Writes and removals act on the temporary path; the only operation
    that names the destination is the rename of the temporary file. *)
Definition op_staged (op : fs_op) : Prop :=
  match op with
  | OpOpenW p | OpWrite p _ | OpAppend p _ | OpRemove p => p = tmp_file out_file
  | OpReplace src dst => src = tmp_file out_file /\ dst = out_file
  end.

Definition is_replace (op : fs_op) : bool :=
  match op with OpReplace _ _ => true | _ => false end.

Definition event_ok (e : event) : Prop :=
  match e with
  | EvFs op m =>
      op_staged op /\ dest_ok m
      /\ (is_replace op = true ->
          exists data, m !! out_file = Some data /\ has_png_signature data = true)
  | _ => True
  end.

(** Paths other than the destination and its temporary file are as
    before the call. *)
Definition frame_ok (m : files) : Prop :=
  forall p, p <> out_file -> p <> tmp_file out_file -> m !! p = fs w0 !! p.

Definition fetch_inv (w : world) : Prop :=
  net w = net w0 /\ rng w = rng w0 /\ ndraw w = ndraw w0
  /\ (exists new, trace w = trace w0 ++ new /\ Forall event_ok new)
  /\ dest_ok (fs w) /\ frame_ok (fs w).

End staging.

(** ** The codes the generation loop emits *)

(** The canonical form: fixed part, serial on 3 digits, ticket on 4
    digits, check digit over these 13 characters. *)
Definition code_of (fixed : string) (serial_val tickets_val : Z) : string :=
  let base_13 := fixed +:+ Py.format_0d 3 serial_val +:+ Py.format_0d 4 tickets_val in
  base_13 +:+ gs1_mod10_check_digit base_13.

(** The fields of a 14-character code. *)
Definition fixed_part (code : string) : string := substring 0 6 code.
Definition serial_part (code : string) : string := substring 6 3 code.
Definition ticket_part (code : string) : string := substring 9 4 code.
Definition check_part (code : string) : string := substring 13 1 code.

(** The number a string of ASCII digits denotes. *)
Definition int_of_digits (s : string) : Z :=
  fold_left (fun acc ch => 10 * acc + (Py.ord ch - 48)) (list_ascii_of_string s) 0.

(** The contract of [secrets.randbelow]: a draw below [n] lies in [0, n). *)
Definition rng_ok (w : world) : Prop :=
  forall k n, 0 < n -> 0 <= rng w k n < n.

(** The ticket drawn by the next call of the random source. *)
Definition next_ticket (w : world) : Z :=
  rng w (ndraw w) (TICKETS_MAX - TICKETS_MIN + 1) + TICKETS_MIN.

(** The content of the output file after the codes have been written. *)
Definition lines (codes : list string) : Py.bytes :=
  flat_map (fun code => Py.utf8 (code +:+ newline)) codes.

Definition is_append (e : event) : bool :=
  match e with EvFs (OpAppend _ _) _ => true | _ => false end.

Section gen_run.

Variables (fixed : string) (start_serial : Z) (out_file : string).

(** The world after one round of the loop has written [code]. *)
Definition after_code (code : string) (w : world) : world :=
  let w1 := mkFaultyWorld (fs w) (net w) (nreq w) (rng w) (S (ndraw w)) (trace w)
              (fault w) in
  let text := Py.utf8 (code +:+ newline) in
  set_fs (OpAppend out_file text)
         (<[out_file := default [] (fs w1 !! out_file) ++ text]> (fs w1)) w1.

(** [n] rounds of the loop from index [a] on, none of them out of
    range: the codes and the world they leave. *)
Fixpoint gen_run (n a : nat) (w : world) : list string * world :=
  match n with
  | O => ([], w)
  | S n' =>
      let code := code_of fixed (start_serial + Z.of_nat a) (next_ticket w) in
      let '(codes, w') := gen_run n' (S a) (after_code code w) in
      (code :: codes, w')
  end.

End gen_run.

(** Checks on the zero-padded fields, run over their whole ranges. *)
Definition field_ok (width : nat) (n : Z) : bool :=
  let s := Py.format_0d width n in
  (String.length s =? width)%nat && Py.all_chars ascii_digit s
  && (int_of_digits s =? n).

(** A random source that always draws 0, over an empty file system. *)
Definition zero_world : world :=
  mkWorld ∅ (fun _ _ => Failure "unreachable") 0 (fun _ _ => 0) 0 [].

(** ** The batch, code by code *)

(** Whether a call of [download_png] reported success. *)
Definition success (r : result (bool * string)) : bool :=
  match r with
  | Ok (b, _) => b
  | Raise _ => false
  end.

(** One fetch per code, in order, each against ["./<code>.png"] with the
    default timeout, retry budget and backoff; a code that is not made of
    digits gets no fetch. The outcome of a code is [None] when it was
    skipped, else whether its fetch succeeded. *)
Fixpoint batch_outcomes (codes : list string) (w : world)
    : list (option bool) * world :=
  match codes with
  | [] => ([], w)
  | code :: rest =>
      if Py.isdigit code then
        let '(r, w1) := download_png code ("./" +:+ code +:+ ".png") 30 2 SLEEP_S w in
        let '(outcomes, w2) := batch_outcomes rest w1 in
        (Some (success r) :: outcomes, w2)
      else
        let '(outcomes, w2) := batch_outcomes rest w in
        (None :: outcomes, w2)
  end.

Definition same_outcome (a b : option bool) : bool :=
  match a, b with
  | None, None => true
  | Some x, Some y => Bool.eqb x y
  | _, _ => false
  end.

Definition count_outcome (o : option bool) (outcomes : list (option bool)) : Z :=
  Z.of_nat (length (filter (fun x => same_outcome o x = true) outcomes)).

(** A transport that answers every request with a body that starts with
    the PNG signature. *)
Definition all_png (w : world) : Prop :=
  forall n r, exists data, net w n r = Body data /\ has_png_signature data = true.

(** A file of size > 0 is at the path. *)
Definition nonempty_at (w : world) (path : string) : Prop :=
  exists data, fs w !! path = Some data /\ data <> [].

Definition png_body : Py.bytes := PNG_SIGNATURE ++ [Byte.x00].

Definition png_world : world :=
  mkWorld ∅ (fun _ _ => Body png_body) 0 (fun _ _ => 0) 0 [].

(** ** Checking a full code *)

(** The GS1 check of a full code, check digit included: the digits weighted
    1, 3, 1, 3, ... from the rightmost one leftward add up to a multiple
    of 10. *)
Definition full_weighted_sum (ds : list Z) : Z :=
  let n := length ds in
  Gs1Spec.sumZ (map (fun j => nth j ds 0 * Gs1Spec.position_weight (n - j)) (seq 0 n)).

Definition gs1_valid (full : string) : bool :=
  match Gs1Spec.digits_of full with
  | Some ds => full_weighted_sum ds mod 10 =? 0
  | None => false
  end.

(** ** The query string of the request *)

(** The fixed rendering options that follow the code in the query. *)
Definition URL_PREFIX : string := "https://free-barcode.com/barcode.asp?bc1=".
Definition URL_OPTIONS : string :=
  "&bc2=17&bc3=3&bc4=1.05&bc5=1&bc6=1&bc7=Arial&bc8=15&bc9=1".

(** All the characters a string can hold. *)
Definition all_ascii : list ascii := map ascii_of_nat (seq 0 256).

(** No character's quoted form is empty or starts another character's
    quoted form. *)
Definition quoting_prefix_free : bool :=
  forallb (fun a =>
    negb (String.eqb (Url.quote_plus_char a) "")
    && forallb (fun b =>
         Ascii.eqb a b
         || negb (String.prefix (Url.quote_plus_char a) (Url.quote_plus_char b)))
       all_ascii)
    all_ascii.

(** ** Transports that fail a few times, then answer *)

Section fails_then.

Variables (code : string) (timeout_s : Z).


End fails_then.


(** A destination in a directory that does not exist: the temporary file
    cannot be created there. The transport answers with a PNG. *)
Definition no_such_dir (op : fs_op) : option string :=
  match op with
  | OpOpenW p => Some ("[Errno 2] No such file or directory: '" +:+ p +:+ "'")
  | _ => None
  end.

Definition nodir_world : world :=
  mkFaultyWorld ∅ (fun _ _ => Body png_body) 0 (fun _ _ => 0) 0 []
    (mkFaults no_such_dir (fun _ => None) (fun _ _ => 0%nat)).

(** A full disk: a write fails after three bytes, and the file that it
    leaves is busy and cannot be removed. The transport answers with a
    PNG. *)
Definition full_disk (op : fs_op) : option string :=
  match op with
  | OpWrite _ _ => Some "[Errno 28] No space left on device"
  | OpRemove _ => Some "[Errno 16] Device or resource busy"
  | _ => None
  end.

Definition full_disk_world : world :=
  mkFaultyWorld ∅ (fun _ _ => Body png_body) 0 (fun _ _ => 0) 0 []
    (mkFaults full_disk (fun _ => None) (fun _ _ => 3%nat)).

(** ** The console prompts *)

(** The console: the lines still to be read from standard input, and the
    pieces of text written to standard output so far. *)
Record console := mkConsole {
  stdin : list string;
  stdout : list string
}.

(** What a prompt ends with: the answer, [EOFError] when standard input is
    exhausted, or [ValueError] from [int]. *)
Inductive prompted (A : Type) :=
| Answer (a : A)
| EOFError
| ValueError.
Arguments Answer {A} a.
Arguments EOFError {A}.
Arguments ValueError {A}.

(** The characters below code point 256 that [str.strip] removes. *)
Definition is_space (ch : ascii) : bool :=
  let n := Py.ord ch in
  ((9 <=? n) && (n <=? 13)) || ((28 <=? n) && (n <=? 32)) || (n =? 133) || (n =? 160).

Fixpoint lstrip (s : string) : string :=
  match s with
  | EmptyString => EmptyString
  | String ch s' => if is_space ch then lstrip s' else s
  end.

Fixpoint rstrip (s : string) : string :=
  match s with
  | EmptyString => EmptyString
  | String ch s' =>
      match rstrip s' with
      | EmptyString => if is_space ch then EmptyString else String ch EmptyString
      | r => String ch r
      end
  end.

(** [s.strip()] *)
Definition strip (s : string) : string := rstrip (lstrip s).

(** [len(s)] *)
Definition py_len (s : string) : Z := Z.of_nat (String.length s).

(** [int(s)] for a string of characters below code point 256 that
    [str.isdigit] accepts: the number, when all characters are ASCII
    digits; [None], standing for [ValueError], when some character is a
    superscript digit, or when the string has more digits than the
    interpreter's limit on integer strings. The limit is only consulted
    above 640 digits, and 0 means no limit. The decimal digits of other
    scripts, which [int] reads as well, are above code point 255 and so
    outside the strings of this embedding. *)
Definition py_int (max_str_digits : nat) (s : string) : option Z :=
  if nonempty_ascii_digits s then
    let n := String.length s in
    if ((640 <? n) && (0 <? max_str_digits) && (max_str_digits <? n))%nat then None
    else Some (int_of_digits s)
  else None.

Definition msg_digits (length : Z) : string :=
  "ERROR: debe ser un n" +:+ String Py.u_acute "mero de exactamente "
  +:+ Py.str length +:+ " d" +:+ String Py.i_acute "gitos.".

Definition msg_integer : string := "ERROR: introduce un entero.".
Definition msg_min (min_v : Z) : string := "ERROR: debe ser >= " +:+ Py.str min_v +:+ ".".
Definition msg_max (max_v : Z) : string := "ERROR: debe ser <= " +:+ Py.str max_v +:+ ".".

(** What [print(msg)] writes. *)
Definition printed (msg : string) : string := msg +:+ newline.

(** [min_v is not None and v < min_v]: the bound that [v] is under. *)
Definition under (min_v : option Z) (v : Z) : option Z :=
  match min_v with
  | Some m => if v <? m then Some m else None
  | None => None
  end.

(** [max_v is not None and v > max_v]: the bound that [v] is over. *)
Definition over (max_v : option Z) (v : Z) : option Z :=
  match max_v with
  | Some m => if v >? m then Some m else None
  | None => None
  end.

Section prompts.

(** The interpreter's limit on the digits of an integer string. *)
Variable max_str_digits : nat.

(** The loop of [ask_digits] over the lines still to be read; [out] is the
  output so far. Each round writes the prompt and reads one line. *)
Fixpoint ask_digits_from (prompt : string) (length : Z) (lines : list string)
  (out : list string) : prompted string * console :=
match lines with
| [] => (EOFError, mkConsole [] (out ++ [prompt]))
| line :: rest =>
    let s := strip line in
    if (py_len s =? length) && Py.isdigit s
    then (Answer s, mkConsole rest (out ++ [prompt]))
    else ask_digits_from prompt length rest
           (out ++ [prompt; printed (msg_digits length)])
end.

Definition ask_digits (prompt : string) (length : Z) (c : console)
  : prompted string * console :=
ask_digits_from prompt length (stdin c) (stdout c).

Fixpoint ask_int_from (prompt : string) (min_v max_v : option Z) (lines : list string)
  (out : list string) : prompted Z * console :=
match lines with
| [] => (EOFError, mkConsole [] (out ++ [prompt]))
| line :: rest =>
    let s := strip line in
    if negb (Py.isdigit s)
    then ask_int_from prompt min_v max_v rest (out ++ [prompt; printed msg_integer])
    else
      match py_int max_str_digits s with
      | None => (ValueError, mkConsole rest (out ++ [prompt]))
      | Some v =>
          match under min_v v with
          | Some m =>
              ask_int_from prompt min_v max_v rest (out ++ [prompt; printed (msg_min m)])
          | None =>
              match over max_v v with
              | Some m =>
                  ask_int_from prompt min_v max_v rest
                    (out ++ [prompt; printed (msg_max m)])
              | None => (Answer v, mkConsole rest (out ++ [prompt]))
              end
          end
      end
end.

Definition ask_int (prompt : string) (min_v max_v : option Z) (c : console)
  : prompted Z * console :=
ask_int_from prompt min_v max_v (stdin c) (stdout c).

Definition PROMPT_FIXED : string :=
"Parte fija (6 d" +:+ String Py.i_acute "gitos): ".
Definition PROMPT_SERIAL : string :=
"N" +:+ String Py.u_acute "mero de serie inicial (ej. 101): ".
Definition PROMPT_QTY : string :=
"Cantidad de n" +:+ String Py.u_acute "meros a generar: ".

(** The three prompts that open [main]. *)
Definition prompts (c : console) : prompted (string * Z * Z) * console :=
match ask_digits PROMPT_FIXED 6 c with
| (Answer fixed, c1) =>
    match ask_int PROMPT_SERIAL (Some 0) (Some 999) c1 with
    | (Answer start_serial, c2) =>
        match ask_int PROMPT_QTY (Some 1) None c2 with
        | (Answer qty, c3) => (Answer (fixed, start_serial, qty), c3)
        | (EOFError, c3) => (EOFError, c3)
        | (ValueError, c3) => (ValueError, c3)
        end
    | (EOFError, c2) => (EOFError, c2)
    | (ValueError, c2) => (ValueError, c2)
    end
| (EOFError, c1) => (EOFError, c1)
| (ValueError, c1) => (ValueError, c1)
end.

(** A line [ask_digits] takes. *)
Definition digits_line (length : Z) (line : string) : bool :=
(py_len (strip line) =? length) && Py.isdigit (strip line).

End prompts.

(** * Proofs *)

(** ** Strings and decimal text *)

Lemma length_append (a b : string) :
  String.length (a +:+ b) = (String.length a + String.length b)%nat.
Proof. induction a as [|ch a IH]; simpl; [reflexivity | now rewrite IH]. Qed.

Lemma chars_append (a b : string) :
  list_ascii_of_string (a +:+ b) = list_ascii_of_string a ++ list_ascii_of_string b.
Proof. induction a as [|ch a IH]; simpl; [reflexivity | now rewrite IH]. Qed.

Lemma append_assoc (a b c : string) : (a +:+ b) +:+ c = a +:+ (b +:+ c).
Proof. induction a as [|ch a IH]; simpl; [reflexivity | now rewrite IH]. Qed.

Lemma all_chars_append p (a b : string) :
  Py.all_chars p (a +:+ b) = Py.all_chars p a && Py.all_chars p b.
Proof.
  induction a as [|ch a IH]; simpl; [reflexivity|].
  rewrite IH. now destruct (p ch).
Qed.

Lemma str_digit (d : Z) :
  0 <= d <= 9 -> Py.str d = String (Py.chr (48 + d)) "".
Proof.
  intros Hd.
  assert (d = 0 \/ d = 1 \/ d = 2 \/ d = 3 \/ d = 4 \/ d = 5 \/ d = 6
          \/ d = 7 \/ d = 8 \/ d = 9) as Hcases by lia.
  repeat (destruct Hcases as [-> | Hcases]; [reflexivity|]).
  now subst.
Qed.

Lemma ord_chr_digit (d : Z) : 0 <= d <= 9 -> Py.ord (Py.chr (48 + d)) = 48 + d.
Proof.
  intros Hd.
  assert (d = 0 \/ d = 1 \/ d = 2 \/ d = 3 \/ d = 4 \/ d = 5 \/ d = 6
          \/ d = 7 \/ d = 8 \/ d = 9) as Hcases by lia.
  repeat (destruct Hcases as [-> | Hcases]; [reflexivity|]).
  now subst.
Qed.

(** ** The check digit *)

Section gs1.
Import Gs1Spec.

Lemma position_weight_S (i : nat) :
  position_weight (S i) = if position_weight i =? 3 then 1 else 3.
Proof.
  unfold position_weight. rewrite Nat.even_succ, <- Nat.negb_even.
  now destruct (Nat.even i).
Qed.

Lemma sum_from_snoc (vs : list Z) (v : Z) (k : nat) :
  sum_from k (vs ++ [v]) = sum_from k vs + v * position_weight (k + length vs).
Proof.
  revert k. induction vs as [|x vs IH]; intros k; simpl.
  - rewrite Nat.add_0_r. lia.
  - rewrite IH. replace (S k + length vs)%nat with (k + S (length vs))%nat by lia. lia.
Qed.

Lemma gs1_fold (chars : list ascii) (t : Z) (k : nat) :
  fold_left gs1_step chars (t, position_weight k)
  = (t + sum_from k (map (fun ch => Py.ord ch - 48) chars),
     position_weight (k + length chars)).
Proof.
  revert t k. induction chars as [|ch chars IH]; intros t k; simpl.
  - rewrite Nat.add_0_r. f_equal. lia.
  - change (Py.ord "0") with 48.
    rewrite <- position_weight_S, IH.
    replace (S k + length chars)%nat with (k + S (length chars))%nat by lia.
    f_equal. lia.
Qed.

Lemma weighted_sum_cons (d : Z) (ds : list Z) :
  weighted_sum (d :: ds) = d * position_weight (length ds) + weighted_sum ds.
Proof.
  unfold weighted_sum, sumZ. cbn [length seq map fold_right nth].
  replace (S (length ds) - 1 - 0)%nat with (length ds) by lia. f_equal.
  rewrite <- seq_shift, map_map. f_equal.
  apply map_ext. intros j. do 2 f_equal. lia.
Qed.

Lemma weighted_sum_rev (ds : list Z) : weighted_sum ds = sum_from 0 (rev ds).
Proof.
  induction ds as [|d ds IH]; [reflexivity|].
  rewrite weighted_sum_cons. cbn [rev].
  rewrite sum_from_snoc, length_rev, IH. simpl. lia.
Qed.

(** The loop's [total] is the weighted sum of the values it reads. *)
Lemma gs1_loop_total (s : string) :
  fst (gs1_loop s) = weighted_sum (raw_values s).
Proof.
  unfold gs1_loop, Py.reversed, raw_values.
  change 3 with (position_weight 0) at 1.
  rewrite gs1_fold. cbn [fst].
  rewrite weighted_sum_rev, map_rev. lia.
Qed.

Lemma digit_value_ord (ch : ascii) (d : Z) :
  digit_value ch = Some d -> Py.ord ch - 48 = d /\ 0 <= d <= 9.
Proof.
  intros H.
  destruct ch as [[] [] [] [] [] [] [] []]; cbv in H; try discriminate H;
    injection H as <-; (split; [reflexivity | lia]).
Qed.

Lemma digits_of_raw (s : string) (ds : list Z) :
  digits_of s = Some ds -> raw_values s = ds.
Proof.
  revert ds. induction s as [|ch s IH]; intros ds; cbn [digits_of].
  - now intros [= <-].
  - destruct (digit_value ch) as [d|] eqn:Hd; [|discriminate].
    destruct (digits_of s) as [ds'|]; [|discriminate].
    intros [= <-]. unfold raw_values in *. cbn [list_ascii_of_string map].
    f_equal; [now apply digit_value_ord | now apply IH].
Qed.

Lemma check_digit_range (ds : list Z) : 0 <= check_digit ds <= 9.
Proof. unfold check_digit. pose proof (Z.mod_pos_bound (10 - weighted_sum ds mod 10) 10). lia. Qed.

Lemma gs1_is_check_digit (s : string) :
  gs1_mod10_check_digit s = Py.str (check_digit (raw_values s)).
Proof. unfold gs1_mod10_check_digit. now rewrite gs1_loop_total. Qed.

Lemma gs1_single_digit (s : string) :
  exists d, 0 <= d <= 9 /\ gs1_mod10_check_digit s = String (Py.chr (48 + d)) "".
Proof.
  exists (check_digit (raw_values s)). split; [apply check_digit_range|].
  rewrite gs1_is_check_digit. apply str_digit, check_digit_range.
Qed.

End gs1.

(** C1. For every non-empty string of ASCII digits, with digits
    [ds], [gs1_mod10_check_digit] returns the decimal text of
    [(10 - (sum mod 10)) mod 10], where [sum] adds each digit times its
    weight, the weights being 3, 1, 3, 1, ... from the rightmost digit
    leftward. On ["1234561010500"] it returns ["0"], which makes the full
    code ["12345610105000"]. *)
Theorem gs1_mod10_check_digit_correct :
  (forall (s : string) (ds : list Z),
      s <> "" ->
      Gs1Spec.digits_of s = Some ds ->
      gs1_mod10_check_digit s = Py.str (Gs1Spec.check_digit ds)
      /\ 0 <= Gs1Spec.check_digit ds <= 9)
  /\ gs1_mod10_check_digit "1234561010500" = "0"
  /\ "1234561010500" +:+ gs1_mod10_check_digit "1234561010500" = "12345610105000".
Proof.
  split; [|split; reflexivity].
  intros s ds _ Hds.
  rewrite gs1_is_check_digit, (digits_of_raw s ds Hds).
  split; [reflexivity | apply check_digit_range].
Qed.

(** The rule on the twelve data digits of the EAN-13 number 4006381333931. *)
Lemma gs1_mod10_check_digit_correct_witness :
  Gs1Spec.digits_of "400638133393" = Some [4;0;0;6;3;8;1;3;3;3;9;3]
  /\ gs1_mod10_check_digit "400638133393"
     = Py.str (Gs1Spec.check_digit [4;0;0;6;3;8;1;3;3;3;9;3]).
Proof.
  split; [reflexivity|].
  apply (proj1 gs1_mod10_check_digit_correct "400638133393"); [discriminate | reflexivity].
Defined.

(** C10. [gs1_mod10_check_digit] is a total function: on every string,
    the empty one and those with characters that are not digits included,
    it returns a string of exactly one character in ['0'..'9']. The empty
    string gives ["0"]. *)
Theorem gs1_mod10_check_digit_total :
  (forall s : string,
      exists ch, gs1_mod10_check_digit s = String ch ""
                 /\ ascii_digit ch = true
                 /\ String.length (gs1_mod10_check_digit s) = 1%nat)
  /\ gs1_mod10_check_digit "" = "0".
Proof.
  split; [|reflexivity].
  intros s. destruct (gs1_single_digit s) as (d & Hd & ->).
  exists (Py.chr (48 + d)). split; [reflexivity|]. split; [|reflexivity].
  unfold ascii_digit. rewrite ord_chr_digit by assumption.
  apply andb_true_intro. split; apply Z.leb_le; lia.
Qed.

(** C3, as it is worded, fails: the function has no validation and no
    error path. On the empty string and on ["12a"], neither of which is a
    non-empty string of ASCII digits, it returns a digit. *)
Lemma gs1_mod10_check_digit_validates_counterexample :
  ~ (forall s : string,
        nonempty_ascii_digits s = false ->
        forall ch, gs1_mod10_check_digit s <> String ch "")
  /\ nonempty_ascii_digits "" = false /\ gs1_mod10_check_digit "" = "0"
  /\ nonempty_ascii_digits "12a" = false /\ gs1_mod10_check_digit "12a" = "8".
Proof.
  split; [|repeat split].
  intros H. apply (H "" eq_refl "0"%char). reflexivity.
Qed.

(** C3, amended. [gs1_mod10_check_digit] does not check its input. On
    every string it applies the same rule to the values [ord(ch) - 48] of
    the characters, digits or not, and returns the decimal text of
    [(10 - (sum mod 10)) mod 10], a single digit: ["0"] on the empty
    string, ["8"] on ["12a"]. *)
Theorem gs1_mod10_check_digit_unvalidated :
  (forall s : string,
      gs1_mod10_check_digit s = Py.str (Gs1Spec.check_digit (Gs1Spec.raw_values s))
      /\ 0 <= Gs1Spec.check_digit (Gs1Spec.raw_values s) <= 9)
  /\ Gs1Spec.raw_values "12a" = [1; 2; 49]
  /\ gs1_mod10_check_digit "12a" = "8"
  /\ gs1_mod10_check_digit "" = "0".
Proof.
  split; [|repeat split].
  intros s. split; [apply gs1_is_check_digit | apply check_digit_range].
Qed.

(** ** One fetch attempt *)

Lemma tmp_file_ne (out_file : string) : tmp_file out_file <> out_file.
Proof.
  unfold tmp_file. intros H. apply (f_equal String.length) in H.
  rewrite length_append in H. simpl in H. lia.
Qed.

Ltac monad_unfold :=
  repeat (progress unfold attempt_body, attempt_try, attempt_except, is_png_file,
            try_except, bind, ret, raise, urlopen_read, write_file, read_prefix,
            os_replace, os_remove, os_path_exists, os_path_getsize, time_sleep).

Ltac monad_step :=
  cbn -[lookup insert delete bytes_eqb take msg_ok msg_not_png msg_exhausted
        msg_cached tmp_file the_request Z.ltb Z.gtb op_fault read_fault];
  rewrite ?lookup_insert_eq.

Section attempt.

Variables (code out_file : string) (timeout_s retries : Z) (sleep_s : Q).

(** The [except] block does not raise: an error of the removal is
    ignored, and the delay is taken to be one that [time.sleep] takes. *)
Lemma attempt_except_eq (attempt : Z) (e : exn) (w : world) :
  attempt_except out_file retries sleep_s attempt e w
  = (Ok (exn_msg e), after_handler out_file retries sleep_s attempt w).
Proof.
  unfold after_handler, remove_tmp. monad_unfold. monad_step.
  destruct (fs w !! tmp_file out_file) eqn:E; monad_step; rewrite ?E; monad_step.
  - destruct (op_fault w (OpRemove (tmp_file out_file))); monad_step;
      destruct (attempt <? retries + 2); reflexivity.
  - destruct (attempt <? retries + 2); reflexivity.
Qed.

(** So a round of the loop does not raise; [attempt_outcome] tells what
    it does. *)
Lemma attempt_body_eq (attempt : Z) (w : world) :
  attempt_body code out_file timeout_s retries sleep_s attempt w
  = (Ok (fst (attempt_outcome code out_file timeout_s retries sleep_s attempt w)),
     snd (attempt_outcome code out_file timeout_s retries sleep_s attempt w)).
Proof.
  unfold attempt_outcome, attempt_body, try_except.
  assert (Hhandler : forall e w1,
            is_Exception (exn_kind e) = true ->
            (if is_Exception (exn_kind e)
             then (let* last_err := attempt_except out_file retries sleep_s attempt e in
                   ret (inr last_err)) w1
             else (Raise e, w1))
            = (Ok (inr (exn_msg e) : (bool * string) + string),
               after_handler out_file retries sleep_s attempt w1)).
  { intros e w1 ->. unfold bind, ret. now rewrite attempt_except_eq. }
  unfold attempt_try. unfold bind at 1 2. unfold urlopen_read.
  destruct (net w (nreq w) (the_request code timeout_s)) as [data | msg];
    [|now rewrite Hhandler].
  unfold bind at 1. unfold write_file.
  change (op_fault (requested (the_request code timeout_s) w))
    with (op_fault w).
  destruct (op_fault w (OpOpenW (tmp_file out_file))) as [msg|]; [now rewrite Hhandler|].
  fold (after_open code out_file timeout_s w).
  destruct (op_fault w (OpWrite (tmp_file out_file) data)) as [msg|];
    [now rewrite Hhandler|].
  fold (after_write code out_file timeout_s data w).
  set (w3 := after_write code out_file timeout_s data w).
  assert (Htmp : fs w3 !! tmp_file out_file = Some data) by apply lookup_insert_eq.
  assert (Hpng : is_png_file (tmp_file out_file) w3
                 = (Ok (seen_as_png w (tmp_file out_file) data), w3)).
  { unfold is_png_file, try_except, bind, read_prefix, ret, seen_as_png.
    rewrite Htmp. change (read_fault w3) with (read_fault w).
    destruct (read_fault w (tmp_file out_file)); reflexivity. }
  unfold bind at 1. rewrite Hpng.
  destruct (seen_as_png w (tmp_file out_file) data); unfold bind, ret, try_except.
  - unfold os_replace. rewrite Htmp.
    change (op_fault w3) with (op_fault w).
    destruct (op_fault w (OpReplace (tmp_file out_file) out_file)) as [msg|].
    + cbn [is_Exception exn_kind]. unfold attempt_except in *.
      pose proof (Hhandler (mkExn OSError msg) w3 eq_refl) as H. cbn in H.
      cbn. exact H.
    + reflexivity.
  - unfold os_remove, after_not_png, remove_tmp. fold w3. rewrite Htmp.
    destruct (op_fault w3 (OpRemove (tmp_file out_file))); reflexivity.
Qed.

Lemma attempt_body_failure (attempt : Z) (w : world) (msg : string) :
  net w (nreq w) (the_request code timeout_s) = Failure msg ->
  attempt_body code out_file timeout_s retries sleep_s attempt w
  = (Ok (inr msg), after_failure code out_file timeout_s retries sleep_s attempt w).
Proof.
  intros Hnet. rewrite attempt_body_eq. unfold attempt_outcome. now rewrite Hnet.
Qed.

Lemma attempt_body_png (attempt : Z) (w : world) (data : Py.bytes) :
  net w (nreq w) (the_request code timeout_s) = Body data ->
  has_png_signature data = true ->
  op_fault w (OpOpenW (tmp_file out_file)) = None ->
  op_fault w (OpWrite (tmp_file out_file) data) = None ->
  read_fault w (tmp_file out_file) = None ->
  op_fault w (OpReplace (tmp_file out_file) out_file) = None ->
  attempt_body code out_file timeout_s retries sleep_s attempt w
  = (Ok (inl (true, msg_ok out_file)), after_png code out_file timeout_s data w).
Proof.
  intros Hnet Hpng Ho Hw Hrd Hr. rewrite attempt_body_eq.
  unfold attempt_outcome, seen_as_png.
  now rewrite Hnet, Ho, Hw, Hrd, Hpng, Hr.
Qed.

Lemma attempt_body_not_png (attempt : Z) (w : world) (data : Py.bytes) :
  net w (nreq w) (the_request code timeout_s) = Body data ->
  has_png_signature data = false ->
  op_fault w (OpOpenW (tmp_file out_file)) = None ->
  op_fault w (OpWrite (tmp_file out_file) data) = None ->
  attempt_body code out_file timeout_s retries sleep_s attempt w
  = (Ok (inl (false, msg_not_png code)), after_not_png code out_file timeout_s data w).
Proof.
  intros Hnet Hpng Ho Hw. rewrite attempt_body_eq.
  unfold attempt_outcome, seen_as_png.
  rewrite Hnet, Ho, Hw, Hpng.
  now destruct (read_fault w (tmp_file out_file)).
Qed.

End attempt.

(** ** The worlds after an attempt *)

Section after.

Variables (code out_file : string) (timeout_s retries : Z) (sleep_s : Q).

(** The oracle of faults is never changed. *)
Lemma op_fault_same (w w' : world) (op : fs_op) :
  fault w' = fault w -> op_fault w' op = op_fault w op.
Proof. unfold op_fault. now intros ->. Qed.


Lemma remove_tmp_same w :
  net (remove_tmp out_file w) = net w
  /\ nreq (remove_tmp out_file w) = nreq w
  /\ rng (remove_tmp out_file w) = rng w
  /\ ndraw (remove_tmp out_file w) = ndraw w
  /\ fault (remove_tmp out_file w) = fault w
  /\ timing (trace (remove_tmp out_file w)) = timing (trace w).
Proof.
  unfold remove_tmp.
  destruct (fs w !! tmp_file out_file); [|now repeat split].
  destruct (op_fault w (OpRemove (tmp_file out_file))); [now repeat split|].
  repeat split. unfold timing. cbn [trace set_fs].
  rewrite filter_app. cbn. now rewrite app_nil_r.
Qed.

Lemma remove_tmp_other w p :
  p <> tmp_file out_file -> fs (remove_tmp out_file w) !! p = fs w !! p.
Proof.
  intros Hp. unfold remove_tmp.
  destruct (fs w !! tmp_file out_file); [|reflexivity].
  destruct (op_fault w (OpRemove (tmp_file out_file))); [reflexivity|].
  cbn [fs set_fs]. now rewrite lookup_delete_ne.
Qed.

Lemma remove_tmp_gone w :
  op_fault w (OpRemove (tmp_file out_file)) = None ->
  fs (remove_tmp out_file w) !! tmp_file out_file = None.
Proof.
  intros Hf. unfold remove_tmp. rewrite Hf.
  destruct (fs w !! tmp_file out_file) eqn:E; [apply lookup_delete_eq | exact E].
Qed.

Lemma after_handler_same a w :
  net (after_handler out_file retries sleep_s a w) = net w
  /\ nreq (after_handler out_file retries sleep_s a w) = nreq w
  /\ rng (after_handler out_file retries sleep_s a w) = rng w
  /\ ndraw (after_handler out_file retries sleep_s a w) = ndraw w
  /\ fault (after_handler out_file retries sleep_s a w) = fault w
  /\ fs (after_handler out_file retries sleep_s a w) = fs (remove_tmp out_file w).
Proof.
  unfold after_handler.
  destruct (remove_tmp_same w) as (H1 & H2 & H3 & H4 & H5 & _).
  destruct (a <? retries + 2); now repeat split.
Qed.

Lemma timing_after_handler a w :
  timing (trace (after_handler out_file retries sleep_s a w))
  = timing (trace w) ++ (if a <? retries + 2 then [EvSleep sleep_s] else []).
Proof.
  unfold after_handler.
  destruct (remove_tmp_same w) as (_ & _ & _ & _ & _ & Ht).
  destruct (a <? retries + 2).
  - unfold timing in *. cbn [trace log]. rewrite filter_app, Ht. reflexivity.
  - now rewrite app_nil_r.
Qed.

Lemma net_after_failure a w :
  net (after_failure code out_file timeout_s retries sleep_s a w) = net w.
Proof. unfold after_failure. now rewrite (proj1 (after_handler_same _ _)). Qed.

Lemma nreq_after_failure a w :
  nreq (after_failure code out_file timeout_s retries sleep_s a w) = S (nreq w).
Proof.
  unfold after_failure.
  destruct (after_handler_same a (requested (the_request code timeout_s) w))
    as (_ & -> & _). reflexivity.
Qed.


Lemma fs_after_failure_other a w p :
  p <> tmp_file out_file ->
  fs (after_failure code out_file timeout_s retries sleep_s a w) !! p = fs w !! p.
Proof.
  intros Hp. unfold after_failure.
  destruct (after_handler_same a (requested (the_request code timeout_s) w))
    as (_ & _ & _ & _ & _ & ->).
  now rewrite remove_tmp_other.
Qed.

Lemma fs_after_failure_tmp a w :
  op_fault w (OpRemove (tmp_file out_file)) = None ->
  fs (after_failure code out_file timeout_s retries sleep_s a w) !! tmp_file out_file
  = None.
Proof.
  intros Hf. unfold after_failure.
  destruct (after_handler_same a (requested (the_request code timeout_s) w))
    as (_ & _ & _ & _ & _ & ->).
  now apply remove_tmp_gone.
Qed.

Lemma timing_after_failure a w :
  timing (trace (after_failure code out_file timeout_s retries sleep_s a w))
  = timing (trace w)
    ++ EvRequest (the_request code timeout_s)
       :: (if a <? retries + 2 then [EvSleep sleep_s] else []).
Proof.
  unfold after_failure. rewrite timing_after_handler.
  unfold timing. cbn [trace requested]. rewrite filter_app. cbn.
  now rewrite <- app_assoc.
Qed.

End after.

Lemma range_cons (lo hi : Z) : lo < hi -> Py.range lo hi = lo :: Py.range (lo + 1) hi.
Proof.
  intros H. unfold Py.range.
  replace (Z.to_nat (hi - lo)) with (S (Z.to_nat (hi - (lo + 1)))) by lia.
  cbn [seq map]. f_equal; [lia|].
  rewrite <- seq_shift, map_map. apply map_ext. intros i. lia.
Qed.

Lemma download_png_uncached code out_file timeout_s retries sleep_s w :
  not_cached w out_file ->
  download_png code out_file timeout_s retries sleep_s w
  = attempt_loop code out_file timeout_s retries sleep_s (Py.range 1 (retries + 2)) "" w.
Proof.
  intros [H | H]; unfold download_png, bind, os_path_exists, os_path_getsize, ret;
    cbn -[lookup attempt_loop Py.range msg_cached]; rewrite H;
    cbn -[lookup attempt_loop Py.range msg_cached]; rewrite ?H; reflexivity.
Qed.

Lemma download_png_hit code out_file timeout_s retries sleep_s w data :
  fs w !! out_file = Some data ->
  (0 < length data)%nat ->
  download_png code out_file timeout_s retries sleep_s w
  = (Ok (true, msg_cached out_file), w).
Proof.
  intros Hfile Hsize.
  unfold download_png, bind, os_path_exists, os_path_getsize, ret.
  cbn -[lookup attempt_loop Py.range msg_cached]. rewrite Hfile.
  cbn -[lookup attempt_loop Py.range msg_cached]. rewrite Hfile.
  cbn -[lookup attempt_loop Py.range msg_cached].
  replace (Z.of_nat (length data) >? 0) with true
    by (symmetry; apply Z.gtb_lt; lia).
  reflexivity.
Qed.

(** ** Transport failures *)

Section all_fail.

Variables (code out_file : string) (timeout_s retries : Z) (sleep_s : Q).
Variable err : nat -> string.

Lemma always_fails_after a w :
  always_fails w err ->
  always_fails (after_failure code out_file timeout_s retries sleep_s a w) err.
Proof. intros H n r. rewrite net_after_failure. apply H. Qed.

Lemma attempt_loop_all_fail (attempts : list Z) :
  forall (last_err : string) (w : world),
    always_fails w err ->
    attempt_loop code out_file timeout_s retries sleep_s attempts last_err w
    = (Ok (false,
           msg_exhausted code
             (match attempts with
              | [] => last_err
              | _ => err (nreq w + length attempts - 1)%nat
              end)),
       fail_all code out_file timeout_s retries sleep_s attempts w).
Proof.
  induction attempts as [|a rest IH]; intros last_err w Hf; [reflexivity|].
  cbn [attempt_loop fail_all fold_left]. unfold bind.
  rewrite (attempt_body_failure _ _ _ _ _ _ _ (err (nreq w))) by apply Hf.
  rewrite IH by now apply always_fails_after.
  rewrite nreq_after_failure. unfold fail_all.
  destruct rest as [|b rest]; cbn [length].
  - now replace (nreq w + 1 - 1)%nat with (nreq w) by lia.
  - now replace (S (nreq w) + S (length rest) - 1)%nat
      with (nreq w + S (S (length rest)) - 1)%nat by lia.
Qed.

(** Every failed attempt of the loop is followed by a sleep: the guard
    [attempt < retries + 2] holds for every [attempt] the loop takes. *)
Lemma timing_fail_all (attempts : list Z) :
  forall w,
    Forall (fun a => a < retries + 2) attempts ->
    timing (trace (fail_all code out_file timeout_s retries sleep_s attempts w))
    = timing (trace w)
      ++ concat (map (fun _ => [EvRequest (the_request code timeout_s); EvSleep sleep_s])
                     attempts).
Proof.
  induction attempts as [|a rest IH]; intros w Hall.
  - cbn. now rewrite app_nil_r.
  - inversion Hall as [|? ? Ha Hrest]; subst.
    cbn [fail_all fold_left map concat].
    unfold fail_all in IH. rewrite IH by assumption.
    rewrite timing_after_failure.
    replace (a <? retries + 2) with true by (symmetry; apply Z.ltb_lt; lia).
    now rewrite <- app_assoc.
Qed.

Lemma nreq_fail_all (attempts : list Z) :
  forall w,
    nreq (fail_all code out_file timeout_s retries sleep_s attempts w)
    = (nreq w + length attempts)%nat.
Proof.
  induction attempts as [|a rest IH]; intros w; cbn [fail_all fold_left length]; [lia|].
  unfold fail_all in IH. rewrite IH, nreq_after_failure. lia.
Qed.

End all_fail.

Lemma range_bounds (lo hi : Z) : Forall (fun a => lo <= a < hi) (Py.range lo hi).
Proof.
  unfold Py.range. apply Forall_forall. intros a Ha.
  apply list_elem_of_In, in_map_iff in Ha as (i & <- & Hi). apply in_seq in Hi. lia.
Qed.

Lemma range_length (lo hi : Z) : length (Py.range lo hi) = Z.to_nat (hi - lo).
Proof. unfold Py.range. now rewrite length_map, length_seq. Qed.

(** With a transport that always fails, [download_png] makes
    [retries + 1] requests and sleeps after each of them, the last one
    included. *)
Lemma download_png_all_fail code out_file timeout_s retries sleep_s w err :
  0 <= retries ->
  not_cached w out_file ->
  always_fails w err ->
  exists w',
    download_png code out_file timeout_s retries sleep_s w
    = (Ok (false, msg_exhausted code (err (nreq w + Z.to_nat retries)%nat)), w')
    /\ nreq w' = (nreq w + Z.to_nat (retries + 1))%nat
    /\ timing (trace w')
       = timing (trace w)
         ++ concat (replicate (Z.to_nat (retries + 1))
                      [EvRequest (the_request code timeout_s); EvSleep sleep_s]).
Proof.
  intros Hr Hc Hf.
  assert (Hlen : length (Py.range 1 (retries + 2)) = Z.to_nat (retries + 1))
    by (rewrite range_length; f_equal; lia).
  exists (fail_all code out_file timeout_s retries sleep_s (Py.range 1 (retries + 2)) w).
  split; [|split].
  - rewrite download_png_uncached by assumption.
    rewrite (attempt_loop_all_fail _ _ _ _ _ err) by assumption.
    destruct (Py.range 1 (retries + 2)) as [|a l] eqn:E; [cbn in Hlen; lia|].
    assert ((nreq w + length (a :: l) - 1)%nat = (nreq w + Z.to_nat retries)%nat) as ->
      by (rewrite Hlen; lia).
    reflexivity.
  - rewrite nreq_fail_all, Hlen. reflexivity.
  - rewrite timing_fail_all.
    + f_equal. f_equal.
      revert Hlen. generalize (Py.range 1 (retries + 2)) (Z.to_nat (retries + 1)).
      intros l. induction l as [|a l IH]; intros [|n] Hlen; try discriminate; [reflexivity|].
      cbn [map replicate]. f_equal. apply IH. now injection Hlen.
    + eapply Forall_impl; [apply range_bounds|]. cbn. lia.
Qed.

(** C2. With the default budget ([retries = 2], three attempts) and a
    transport that times out on every request, [download_png] makes exactly
    three requests and returns the failure carrying the last error; but it
    sleeps three times, not two: the backoff is also taken after the third
    and last attempt, when no attempt remains. *)
Theorem download_png_sleeps_after_last_attempt :
  let req := the_request "12345610105000" 30 in
  let '(r, w') := download_png "12345610105000" "./12345610105000.png" 30 2 SLEEP_S
                    timeout_world in
  r = Ok (false, msg_exhausted "12345610105000" "timed out")
  /\ nreq w' = 3%nat
  /\ trace w' = [EvRequest req; EvSleep SLEEP_S;
                 EvRequest req; EvSleep SLEEP_S;
                 EvRequest req; EvSleep SLEEP_S].
Proof. vm_compute. repeat split. Qed.

(** C6. If a file of size > 0 is at the destination, [download_png]
    returns the cached success at once and leaves the world as it was: no
    request is made (the request counter and the log are unchanged) and the
    file system, the existing file included, is untouched, whatever the
    file holds. *)
Theorem download_png_cached code out_file timeout_s retries sleep_s w data :
  fs w !! out_file = Some data ->
  (0 < length data)%nat ->
  exists w',
    download_png code out_file timeout_s retries sleep_s w
    = (Ok (true, msg_cached out_file), w')
    /\ w' = w
    /\ nreq w' = nreq w
    /\ new_events w w' = []
    /\ fs w' !! out_file = Some data.
Proof.
  intros Hfile Hsize. exists w.
  split; [|split; [reflexivity | split; [reflexivity | split; [|assumption]]]].
  - now apply (download_png_hit _ _ _ _ _ _ data).
  - unfold new_events. apply drop_all.
Qed.

(** A cache hit on a destination that holds an HTML page, not an image. *)
Lemma download_png_cached_witness :
  exists w',
    download_png "12345610105000" "./x.png" 30 2 SLEEP_S
      (mkWorld (<["./x.png" := html_body]> ∅) (net html_world) 0 (rng html_world) 0 [])
    = (Ok (true, msg_cached "./x.png"), w')
    /\ w' = mkWorld (<["./x.png" := html_body]> ∅) (net html_world) 0 (rng html_world) 0 []
    /\ nreq w' = 0%nat
    /\ new_events
         (mkWorld (<["./x.png" := html_body]> ∅) (net html_world) 0 (rng html_world) 0 [])
         w' = []
    /\ fs w' !! "./x.png" = Some html_body.
Proof.
  apply (download_png_cached "12345610105000" "./x.png" 30 2 SLEEP_S
           (mkWorld (<["./x.png" := html_body]> ∅) (net html_world) 0 (rng html_world) 0 [])
           html_body).
  - reflexivity.
  - simpl. lia.
Defined.

(** ** The staging invariant *)

Section staging_proofs.

Variables (code out_file : string) (timeout_s retries : Z) (sleep_s : Q).
Variable w0 : world.

Let tmp_ne : tmp_file out_file <> out_file := tmp_file_ne out_file.

Lemma dest_ok_same (m m' : files) :
  m' !! out_file = m !! out_file -> dest_ok w0 out_file m -> dest_ok w0 out_file m'.
Proof. unfold dest_ok. intros ->. tauto. Qed.

Lemma fetch_inv_refl : fetch_inv w0 out_file w0.
Proof.
  repeat split; try reflexivity.
  - exists []. split; [now rewrite app_nil_r | constructor].
  - right. now left.
Qed.

(** One more logged event keeps the invariant. *)
Lemma fetch_inv_log (e : event) (w : world) :
  is_timing e = true -> fetch_inv w0 out_file w -> fetch_inv w0 out_file (log e w).
Proof.
  intros He (Hn & Hr & Hd & (new & Ht & Hall) & Hdest & Hframe).
  repeat split; try assumption.
  exists (new ++ [e]). cbn. rewrite Ht, <- app_assoc. split; [reflexivity|].
  apply Forall_app. split; [assumption|]. constructor; [|constructor].
  destruct e; [exact I | exact I | discriminate].
Qed.

Lemma fetch_inv_requested (r : request) (w : world) :
  fetch_inv w0 out_file w -> fetch_inv w0 out_file (requested r w).
Proof. apply (fetch_inv_log (EvRequest r)). reflexivity. Qed.

(** A staged change of the temporary file keeps the invariant. *)
Lemma fetch_inv_tmp (op : fs_op) (m : files) (w : world) :
  op_staged out_file op -> is_replace op = false ->
  (forall p, p <> tmp_file out_file -> m !! p = fs w !! p) ->
  fetch_inv w0 out_file w -> fetch_inv w0 out_file (set_fs op m w).
Proof.
  intros Hop Hrep Hm (Hn & Hr & Hd & (new & Ht & Hall) & Hdest & Hframe).
  assert (Hdest' : dest_ok w0 out_file m).
  { apply (dest_ok_same (fs w)); [|assumption]. apply Hm. congruence. }
  repeat split; try assumption.
  - exists (new ++ [EvFs op m]). cbn. rewrite Ht, <- app_assoc. split; [reflexivity|].
    apply Forall_app. split; [assumption|]. constructor; [|constructor].
    cbn. repeat split; try assumption. congruence.
  - intros p Hp1 Hp2. cbn. rewrite Hm by assumption. now apply Hframe.
Qed.

Lemma fetch_inv_remove_tmp (w : world) :
  fetch_inv w0 out_file w -> fetch_inv w0 out_file (remove_tmp out_file w).
Proof.
  intros Hinv. unfold remove_tmp.
  destruct (fs w !! tmp_file out_file); [|assumption].
  destruct (op_fault w (OpRemove (tmp_file out_file))); [assumption|].
  apply fetch_inv_tmp; [reflexivity | reflexivity | | assumption].
  intros p Hp. now rewrite lookup_delete_ne.
Qed.

Lemma fetch_inv_after_handler (a : Z) (w : world) :
  fetch_inv w0 out_file w ->
  fetch_inv w0 out_file (after_handler out_file retries sleep_s a w).
Proof.
  intros Hinv. unfold after_handler.
  destruct (a <? retries + 2).
  - apply fetch_inv_log; [reflexivity|]. now apply fetch_inv_remove_tmp.
  - now apply fetch_inv_remove_tmp.
Qed.

Lemma fetch_inv_after_failure (a : Z) (w : world) :
  fetch_inv w0 out_file w ->
  fetch_inv w0 out_file (after_failure code out_file timeout_s retries sleep_s a w).
Proof.
  intros Hinv. unfold after_failure.
  now apply fetch_inv_after_handler, fetch_inv_requested.
Qed.

Lemma fetch_inv_after_open (w : world) :
  fetch_inv w0 out_file w ->
  fetch_inv w0 out_file (after_open code out_file timeout_s w).
Proof.
  intros Hinv. unfold after_open.
  apply fetch_inv_tmp; [reflexivity | reflexivity | | now apply fetch_inv_requested].
  intros p Hp. cbn -[lookup insert]. now rewrite lookup_insert_ne.
Qed.

Lemma fetch_inv_after_short_write (data : Py.bytes) (w : world) :
  fetch_inv w0 out_file w ->
  fetch_inv w0 out_file (after_short_write code out_file timeout_s data w).
Proof.
  intros Hinv. unfold after_short_write.
  apply fetch_inv_tmp; [reflexivity | reflexivity | | now apply fetch_inv_after_open].
  intros p Hp. cbn -[lookup insert]. now rewrite !lookup_insert_ne.
Qed.

Lemma fetch_inv_after_write (data : Py.bytes) (w : world) :
  fetch_inv w0 out_file w ->
  fetch_inv w0 out_file (after_write code out_file timeout_s data w).
Proof.
  intros Hinv. unfold after_write.
  apply fetch_inv_tmp; [reflexivity | reflexivity | | now apply fetch_inv_after_open].
  intros p Hp. cbn -[lookup insert]. now rewrite !lookup_insert_ne.
Qed.

Lemma fs_after_write (data : Py.bytes) (w : world) :
  fs (after_write code out_file timeout_s data w)
  = <[tmp_file out_file := data]> (<[tmp_file out_file := []]> (fs w)).
Proof. reflexivity. Qed.

Lemma fetch_inv_after_not_png (data : Py.bytes) (w : world) :
  fetch_inv w0 out_file w ->
  fetch_inv w0 out_file (after_not_png code out_file timeout_s data w).
Proof.
  intros Hinv. unfold after_not_png.
  now apply fetch_inv_remove_tmp, fetch_inv_after_write.
Qed.

Lemma fetch_inv_after_png (data : Py.bytes) (w : world) :
  net w (nreq w) (the_request code timeout_s) = Body data ->
  has_png_signature data = true ->
  fetch_inv w0 out_file w ->
  fetch_inv w0 out_file (after_png code out_file timeout_s data w).
Proof.
  intros Hnet Hpng Hinv. unfold after_png.
  pose proof (fetch_inv_after_write data w Hinv) as Hw.
  destruct Hw as (Hn & Hr & Hd & (new & Ht & Hall) & Hdest & Hframe).
  set (w3 := after_write code out_file timeout_s data w) in *.
  set (m := <[out_file := data]> (delete (tmp_file out_file) (fs w3))).
  assert (Hout : m !! out_file = Some data) by apply lookup_insert_eq.
  assert (Hdest' : dest_ok w0 out_file m).
  { right. right. exists data. repeat split; try assumption.
    exists (nreq w), (the_request code timeout_s).
    destruct Hinv as (Hn0 & _). now rewrite <- Hn0. }
  repeat split; try assumption.
  - exists (new ++ [EvFs (OpReplace (tmp_file out_file) out_file) m]).
    unfold set_fs. cbn [trace]. rewrite Ht, <- app_assoc. split; [reflexivity|].
    apply Forall_app. split; [assumption|]. constructor; [|constructor].
    cbn. repeat split; try assumption. intros _. now exists data.
  - intros p Hp1 Hp2. unfold set_fs. cbn [fs]. subst m.
    rewrite lookup_insert_ne, lookup_delete_ne by congruence. now apply Hframe.
Qed.

(** Whatever the transport answers and wherever the file system fails, a
    round of the loop keeps the invariant. *)
Lemma attempt_outcome_inv (a : Z) (w : world) :
  fetch_inv w0 out_file w ->
  fetch_inv w0 out_file
    (snd (attempt_outcome code out_file timeout_s retries sleep_s a w)).
Proof.
  intros Hinv. unfold attempt_outcome.
  destruct (net w (nreq w) (the_request code timeout_s)) as [data | msg] eqn:Hnet;
    [|now apply fetch_inv_after_handler, fetch_inv_requested].
  destruct (op_fault w (OpOpenW (tmp_file out_file)));
    [now apply fetch_inv_after_handler, fetch_inv_requested|].
  destruct (op_fault w (OpWrite (tmp_file out_file) data));
    [now apply fetch_inv_after_handler, fetch_inv_after_short_write|].
  destruct (seen_as_png w (tmp_file out_file) data) eqn:Hseen;
    [|now apply fetch_inv_after_not_png].
  assert (Hpng : has_png_signature data = true).
  { unfold seen_as_png in Hseen.
    now destruct (read_fault w (tmp_file out_file)). }
  destruct (op_fault w (OpReplace (tmp_file out_file) out_file));
    [now apply fetch_inv_after_handler, fetch_inv_after_write|].
  now apply fetch_inv_after_png.
Qed.

(** A round of the loop ends without an exception and keeps the
    invariant. *)
Lemma attempt_body_inv (a : Z) (w : world) :
  fetch_inv w0 out_file w ->
  exists r w',
    attempt_body code out_file timeout_s retries sleep_s a w = (Ok r, w')
    /\ fetch_inv w0 out_file w'.
Proof.
  intros Hinv. rewrite attempt_body_eq.
  eexists _, _. split; [reflexivity|]. now apply attempt_outcome_inv.
Qed.

Lemma attempt_loop_inv (attempts : list Z) :
  forall (last_err : string) (w : world),
    fetch_inv w0 out_file w ->
    exists r w',
      attempt_loop code out_file timeout_s retries sleep_s attempts last_err w
      = (Ok r, w')
      /\ fetch_inv w0 out_file w'.
Proof.
  induction attempts as [|a rest IH]; intros last_err w Hinv.
  - eexists _, _. split; [reflexivity | assumption].
  - cbn [attempt_loop]. unfold bind.
    destruct (attempt_body_inv a w Hinv) as (r & w1 & -> & Hinv1).
    destruct r as [out | last_err'].
    + eexists _, _. split; [reflexivity | assumption].
    + now apply IH.
Qed.

End staging_proofs.

(** [download_png] always returns, and what it did obeys the staging
    discipline. *)
Lemma download_png_inv code out_file timeout_s retries sleep_s w :
  exists r w',
    download_png code out_file timeout_s retries sleep_s w = (Ok r, w')
    /\ fetch_inv w out_file w'.
Proof.
  destruct (fs w !! out_file) as [data|] eqn:Hfile.
  - destruct data as [|b data].
    + rewrite download_png_uncached by (now right).
      apply attempt_loop_inv, fetch_inv_refl.
    + exists (true, msg_cached out_file), w. split; [|apply fetch_inv_refl].
      apply (download_png_hit _ _ _ _ _ _ (b :: data)); [assumption | cbn; lia].
  - rewrite download_png_uncached by (now left).
    apply attempt_loop_inv, fetch_inv_refl.
Qed.

(** C8. Whatever the transport does and whatever the file system held,
    [download_png] returns, and every change of the file system it makes
    (each one logged with the file system it leaves) is staged: writes and
    removals act on the temporary path [out_file + ".tmp"], never on the
    destination; the only operation naming the destination is the rename of
    the temporary file, and the file it puts there starts with the PNG
    signature. So in every intermediate state, and in the final one, the
    destination is absent, or as it was before the call, or the whole body
    of a response that starts with the PNG signature. *)
Theorem download_png_staged code out_file timeout_s retries sleep_s w :
  exists r w' new,
    download_png code out_file timeout_s retries sleep_s w = (Ok r, w')
    /\ trace w' = trace w ++ new
    /\ (forall op m, In (EvFs op m) new ->
          op_staged out_file op
          /\ dest_ok w out_file m
          /\ (is_replace op = true ->
              exists data, m !! out_file = Some data /\ has_png_signature data = true))
    /\ dest_ok w out_file (fs w').
Proof.
  destruct (download_png_inv code out_file timeout_s retries sleep_s w)
    as (r & w' & Hrun & _ & _ & _ & (new & Ht & Hall) & Hdest & _).
  exists r, w', new. repeat split; try assumption;
    rewrite Forall_forall in Hall; apply list_elem_of_In, Hall in H; apply H.
Qed.

(** ** A response that is not a PNG *)

(** C7, as it is worded, fails: when the destination exists but is empty,
    the cache check does not hit, the HTML answer is rejected after one
    request, and the empty destination file is still there afterwards. *)
Lemma download_png_not_png_counterexample :
  let '(r, w') := download_png "12345610105000" "./x.png" 30 2 SLEEP_S html_world in
  net html_world 0 (the_request "12345610105000" 30) = Body html_body
  /\ has_png_signature html_body = false
  /\ r = Ok (false, msg_not_png "12345610105000")
  /\ nreq w' = 1%nat
  /\ fs w' !! "./x.png.tmp" = None
  /\ fs w' !! "./x.png" <> None.
Proof. vm_compute. repeat split. discriminate. Qed.

(** C7, amended. If the transport of an attempt succeeds, the body is
    written to the temporary file (creating and writing it meet no error)
    and the body does not start with the PNG signature, [download_png]
    removes the temporary file and returns the failure at once: whichever
    round of the loop this is, it is the last one, with one request, no
    sleep and no retry; when it is the first round, the call makes exactly
    one attempt. Afterwards the destination is as it was before (absent if
    it was absent), and the temporary file does not exist, unless the
    system refused its removal: that error is ignored, and the temporary
    file is left with the body in it. *)
Theorem download_png_not_png code out_file timeout_s retries sleep_s w data :
  net w (nreq w) (the_request code timeout_s) = Body data ->
  has_png_signature data = false ->
  op_fault w (OpOpenW (tmp_file out_file)) = None ->
  op_fault w (OpWrite (tmp_file out_file) data) = None ->
  exists w' m1 m2,
    (forall attempt rest last_err,
        attempt_loop code out_file timeout_s retries sleep_s (attempt :: rest) last_err w
        = (Ok (false, msg_not_png code), w'))
    /\ (0 <= retries -> not_cached w out_file ->
        download_png code out_file timeout_s retries sleep_s w
        = (Ok (false, msg_not_png code), w'))
    /\ nreq w' = S (nreq w)
    /\ fs w' !! out_file = fs w !! out_file
    /\ match op_fault w (OpRemove (tmp_file out_file)) with
       | None =>
           new_events w w'
           = [EvRequest (the_request code timeout_s);
              EvFs (OpOpenW (tmp_file out_file)) m1;
              EvFs (OpWrite (tmp_file out_file) data) m2;
              EvFs (OpRemove (tmp_file out_file)) (fs w')]
           /\ fs w' !! tmp_file out_file = None
       | Some _ =>
           new_events w w'
           = [EvRequest (the_request code timeout_s);
              EvFs (OpOpenW (tmp_file out_file)) m1;
              EvFs (OpWrite (tmp_file out_file) data) m2]
           /\ fs w' !! tmp_file out_file = Some data
       end.
Proof.
  intros Hnet Hpng Ho Hw.
  pose proof (tmp_file_ne out_file) as Hne.
  assert (Hloop : forall attempt rest last_err,
             attempt_loop code out_file timeout_s retries sleep_s (attempt :: rest) last_err w
             = (Ok (false, msg_not_png code),
                after_not_png code out_file timeout_s data w)).
  { intros attempt rest last_err. cbn [attempt_loop]. unfold bind.
    now rewrite (attempt_body_not_png _ _ _ _ _ _ _ data). }
  set (w3 := after_write code out_file timeout_s data w).
  assert (Htmp : fs w3 !! tmp_file out_file = Some data) by apply lookup_insert_eq.
  assert (Hout : fs w3 !! out_file = fs w !! out_file).
  { unfold w3. rewrite fs_after_write. now rewrite !lookup_insert_ne. }
  assert (Hev : new_events w w3
                = [EvRequest (the_request code timeout_s);
                   EvFs (OpOpenW (tmp_file out_file))
                        (<[tmp_file out_file := []]> (fs w));
                   EvFs (OpWrite (tmp_file out_file) data) (fs w3)]).
  { unfold new_events, w3, after_write, after_open, set_fs, requested. cbn [trace fs].
    rewrite <- !app_assoc. rewrite drop_app_length. reflexivity. }
  eexists (after_not_png code out_file timeout_s data w), _, _.
  split; [exact Hloop|]. split; [|split; [|split]].
  - intros Hr Hc. rewrite download_png_uncached by assumption.
    rewrite range_cons by lia. apply Hloop.
  - unfold after_not_png. fold w3.
    now rewrite (proj1 (proj2 (remove_tmp_same out_file w3))).
  - unfold after_not_png. fold w3.
    rewrite remove_tmp_other by congruence. exact Hout.
  - unfold after_not_png, remove_tmp. fold w3. rewrite Htmp.
    change (op_fault w3) with (op_fault w).
    destruct (op_fault w (OpRemove (tmp_file out_file))).
    + split; [exact Hev | exact Htmp].
    + split; [|apply lookup_delete_eq].
      unfold new_events in *. unfold set_fs. cbn [trace fs].
      rewrite drop_app_le.
      2:{ unfold w3, after_write, after_open, set_fs, requested. cbn [trace].
          rewrite !length_app. lia. }
      rewrite Hev. reflexivity.
Qed.

(** The HTML answer over an empty destination file. *)
Lemma download_png_not_png_witness :
  exists w' m1 m2,
    (forall attempt rest last_err,
        attempt_loop "12345610105000" "./x.png" 30 2 SLEEP_S (attempt :: rest) last_err
          html_world
        = (Ok (false, msg_not_png "12345610105000"), w'))
    /\ (0 <= 2 -> not_cached html_world "./x.png" ->
        download_png "12345610105000" "./x.png" 30 2 SLEEP_S html_world
        = (Ok (false, msg_not_png "12345610105000"), w'))
    /\ nreq w' = S (nreq html_world)
    /\ fs w' !! "./x.png" = fs html_world !! "./x.png"
    /\ new_events html_world w'
       = [EvRequest (the_request "12345610105000" 30);
          EvFs (OpOpenW (tmp_file "./x.png")) m1;
          EvFs (OpWrite (tmp_file "./x.png") html_body) m2;
          EvFs (OpRemove (tmp_file "./x.png")) (fs w')]
    /\ fs w' !! tmp_file "./x.png" = None.
Proof.
  apply (download_png_not_png "12345610105000" "./x.png" 30 2 SLEEP_S html_world html_body).
  - reflexivity.
  - reflexivity.
  - reflexivity.
  - reflexivity.
Defined.

(** ** The generation loop *)

Lemma forallb_range (p : Z -> bool) (lo hi : Z) :
  forallb p (Py.range lo hi) = true -> forall n, lo <= n < hi -> p n = true.
Proof.
  intros H n Hn. rewrite forallb_forall in H. apply H.
  unfold Py.range. apply in_map_iff. exists (Z.to_nat (n - lo)). split; [lia|].
  apply in_seq. lia.
Qed.

Lemma serial_field_ok (n : Z) : 0 <= n <= 999 -> field_ok 3 n = true.
Proof.
  intros Hn. apply (forallb_range (field_ok 3) 0 1000); [|lia].
  vm_compute. reflexivity.
Qed.

Lemma ticket_field_ok (n : Z) : 116 <= n <= 951 -> field_ok 4 n = true.
Proof.
  intros Hn. apply (forallb_range (field_ok 4) 116 952); [|lia].
  vm_compute. reflexivity.
Qed.

Lemma field_ok_elim (width : nat) (n : Z) :
  field_ok width n = true ->
  String.length (Py.format_0d width n) = width
  /\ Py.all_chars ascii_digit (Py.format_0d width n) = true
  /\ int_of_digits (Py.format_0d width n) = n.
Proof.
  unfold field_ok. intros H.
  apply andb_prop in H as [H H3]. apply andb_prop in H as [H1 H2].
  repeat split; [now apply Nat.eqb_eq | assumption | now apply Z.eqb_eq].
Qed.

Lemma substring_append_l (a b : string) :
  substring 0 (String.length a) (a +:+ b) = a.
Proof.
  induction a as [|ch a IH]; simpl.
  - now destruct b.
  - now rewrite IH.
Qed.

Lemma substring_skip (a b : string) (m : nat) :
  substring (String.length a) m (a +:+ b) = substring 0 m b.
Proof. induction a as [|ch a IH]; simpl; [reflexivity | exact IH]. Qed.

Section code_shape.

Variables (fixed : string) (serial_val tickets_val : Z).
Hypothesis fixed_length : String.length fixed = 6%nat.
Hypothesis fixed_digits : Py.all_chars ascii_digit fixed = true.
Hypothesis serial_range : 0 <= serial_val <= 999.
Hypothesis tickets_range : 116 <= tickets_val <= 951.

Let serial := Py.format_0d 3 serial_val.
Let tickets := Py.format_0d 4 tickets_val.
Let base_13 := fixed +:+ serial +:+ tickets.
Let code := code_of fixed serial_val tickets_val.

Lemma code_of_fields :
  String.length code = 14%nat
  /\ Py.all_chars ascii_digit code = true
  /\ fixed_part code = fixed
  /\ serial_part code = serial
  /\ ticket_part code = tickets
  /\ check_part code = gs1_mod10_check_digit (substring 0 13 code)
  /\ int_of_digits (serial_part code) = serial_val.
Proof.
  destruct (field_ok_elim 3 serial_val (serial_field_ok _ serial_range))
    as (Hs1 & Hs2 & Hs3).
  destruct (field_ok_elim 4 tickets_val (ticket_field_ok _ tickets_range))
    as (Ht1 & Ht2 & Ht3).
  fold serial in Hs1, Hs2, Hs3. fold tickets in Ht1, Ht2, Ht3.
  destruct (gs1_single_digit base_13) as (d & Hd & Hcrc).
  assert (Hbase : String.length base_13 = 13%nat).
  { unfold base_13. rewrite !length_append, fixed_length, Hs1, Ht1. reflexivity. }
  assert (Hcode : code = fixed +:+ serial +:+ tickets +:+ gs1_mod10_check_digit base_13).
  { unfold code, code_of. fold serial tickets base_13. unfold base_13.
    now rewrite !append_assoc. }
  assert (Hcode' : code = base_13 +:+ gs1_mod10_check_digit base_13) by reflexivity.
  assert (Hserial : serial_part code = serial).
  { unfold serial_part. rewrite Hcode, <- fixed_length, substring_skip.
    rewrite <- Hs1 at 1. apply substring_append_l. }
  repeat split.
  - rewrite Hcode', length_append, Hbase, Hcrc. reflexivity.
  - rewrite Hcode, !all_chars_append, fixed_digits, Hs2, Ht2, Hcrc. cbn [Py.all_chars].
    unfold ascii_digit. rewrite ord_chr_digit by assumption.
    replace (48 <=? 48 + d) with true by (symmetry; apply Z.leb_le; lia).
    replace (48 + d <=? 57) with true by (symmetry; apply Z.leb_le; lia).
    reflexivity.
  - unfold fixed_part. rewrite Hcode, <- fixed_length. apply substring_append_l.
  - exact Hserial.
  - unfold ticket_part. rewrite Hcode, <- append_assoc.
    replace 9%nat with (String.length (fixed +:+ serial))
      by (rewrite length_append, fixed_length, Hs1; reflexivity).
    rewrite substring_skip. rewrite <- Ht1 at 1. apply substring_append_l.
  - unfold check_part. rewrite Hcode' at 1. rewrite <- Hbase at 1.
    rewrite substring_skip, Hcrc. cbn [substring].
    rewrite Hcode', <- Hbase, substring_append_l, Hcrc. reflexivity.
  - rewrite Hserial. exact Hs3.
Qed.

End code_shape.

Section generation.

Variables (fixed : string) (start_serial : Z) (out_file : string).

Lemma generate_one_in_range (i : Z) (w : world) :
  start_serial + i <= 999 ->
  generate_one fixed start_serial out_file i w
  = (Ok (code_of fixed (start_serial + i) (next_ticket w)),
     after_code out_file (code_of fixed (start_serial + i) (next_ticket w)) w).
Proof.
  intros Hi. unfold generate_one.
  replace (start_serial + i >? 999) with false by (symmetry; rewrite Z.gtb_ltb; apply Z.ltb_ge; lia).
  reflexivity.
Qed.

Lemma generate_one_out_of_range (i : Z) (w : world) :
  start_serial + i > 999 ->
  generate_one fixed start_serial out_file i w
  = (Raise (mkExn SystemExit (msg_range (start_serial + i))), w).
Proof.
  intros Hi. unfold generate_one.
  replace (start_serial + i >? 999) with true by (symmetry; apply Z.gtb_lt; lia).
  reflexivity.
Qed.

Lemma generate_loop_app (l1 l2 : list Z) :
  forall generated w,
    generate_loop fixed start_serial out_file (l1 ++ l2) generated w
    = match generate_loop fixed start_serial out_file l1 generated w with
      | (Ok generated', w') =>
          generate_loop fixed start_serial out_file l2 generated' w'
      | (Raise e, w') => (Raise e, w')
      end.
Proof.
  induction l1 as [|i l1 IH]; intros generated w; [reflexivity|].
  cbn [app generate_loop]. unfold bind.
  destruct (generate_one fixed start_serial out_file i w) as [[code | e] w1];
    [apply IH | reflexivity].
Qed.

Lemma generate_loop_in_range (n : nat) :
  forall (a : nat) generated w,
    ((0 < n)%nat -> start_serial + Z.of_nat (a + n) <= 1000) ->
    generate_loop fixed start_serial out_file
      (map (fun i => 0 + Z.of_nat i) (seq a n)) generated w
    = (Ok (generated ++ fst (gen_run fixed start_serial out_file n a w)),
       snd (gen_run fixed start_serial out_file n a w)).
Proof.
  induction n as [|n IH]; intros a generated w Hr.
  - cbn [seq map generate_loop gen_run fst snd]. unfold ret. now rewrite app_nil_r.
  - cbn [seq map generate_loop gen_run]. unfold bind.
    rewrite generate_one_in_range by lia.
    rewrite IH by lia.
    replace (0 + Z.of_nat a) with (Z.of_nat a) by lia.
    destruct (gen_run fixed start_serial out_file n (S a)
                (after_code out_file (code_of fixed (start_serial + Z.of_nat a) (next_ticket w)) w))
      as [codes w'].
    cbn [fst snd]. now rewrite <- app_assoc.
Qed.

(** What [n] in-range rounds leave behind. *)
Lemma gen_run_spec (n : nat) :
  forall (a : nat) (w : world),
    let '(codes, w') := gen_run fixed start_serial out_file n a w in
    length codes = n
    /\ net w' = net w /\ nreq w' = nreq w /\ rng w' = rng w
    /\ ndraw w' = (ndraw w + n)%nat
    /\ (forall i code, codes !! i = Some code ->
          code = code_of fixed (start_serial + Z.of_nat (a + i))
                   (rng w (ndraw w + i)%nat (TICKETS_MAX - TICKETS_MIN + 1)
                    + TICKETS_MIN))
    /\ (forall old, fs w !! out_file = Some old ->
          fs w' !! out_file = Some (old ++ lines codes))
    /\ (forall p, p <> out_file -> fs w' !! p = fs w !! p)
    /\ exists new, trace w' = trace w ++ new
                   /\ length new = n /\ forallb is_append new = true.
Proof.
  induction n as [|n IH]; intros a w.
  - cbn [gen_run]. repeat split; try reflexivity; try lia.
    + intros i code Hi. discriminate.
    + intros old ->. cbn. now rewrite app_nil_r.
    + exists []. now rewrite app_nil_r.
  - cbn [gen_run].
    set (code := code_of fixed (start_serial + Z.of_nat a) (next_ticket w)).
    specialize (IH (S a) (after_code out_file code w)).
    destruct (gen_run fixed start_serial out_file n (S a) (after_code out_file code w))
      as [codes w'].
    destruct IH as (Hlen & Hnet & Hnreq & Hrng & Hnd & Hcodes & Hfs & Hframe
                    & new & Htr & Hnew & Happ).
    cbn [after_code set_fs net nreq rng ndraw fs trace] in *.
    repeat split; try assumption.
    + cbn. now rewrite Hlen.
    + rewrite Hnd. lia.
    + intros [|i] c Hc.
      * cbn in Hc. injection Hc as <-. unfold code, next_ticket.
        now rewrite !Nat.add_0_r.
      * cbn in Hc. rewrite (Hcodes i c Hc).
        now replace (S a + i)%nat with (a + S i)%nat by lia;
          replace (S (ndraw w) + i)%nat with (ndraw w + S i)%nat by lia.
    + intros old Hold. rewrite (Hfs (old ++ Py.utf8 (code +:+ newline))).
      * now rewrite <- app_assoc.
      * rewrite Hold. apply lookup_insert_eq.
    + intros p Hp. rewrite Hframe by assumption. now rewrite lookup_insert_ne.
    + eexists (_ :: new). rewrite Htr, <- app_assoc. split; [reflexivity|].
      split; [cbn; now rewrite Hnew | cbn; exact Happ].
Qed.

End generation.

Lemma generate_unfold fixed start_serial out_file qty w :
  generate fixed start_serial out_file qty w
  = generate_loop fixed start_serial out_file
      (map (fun i => 0 + Z.of_nat i) (seq 0 (Z.to_nat qty))) []
      (set_fs (OpOpenW out_file) (<[out_file := []]> (fs w)) w).
Proof.
  unfold generate, bind, open_w, Py.range. now rewrite Z.sub_0_r.
Qed.

(** The generation loop within the serial range. *)
Lemma generate_in_range fixed start_serial qty out_file w :
  String.length fixed = 6%nat ->
  Py.all_chars ascii_digit fixed = true ->
  0 <= start_serial ->
  1 <= qty ->
  start_serial + qty - 1 <= 999 ->
  rng_ok w ->
  exists codes w',
    generate fixed start_serial out_file qty w = (Ok codes, w')
    /\ net w' = net w
    /\ Z.of_nat (length codes) = qty
    /\ fs w' !! out_file = Some (lines codes)
    /\ (forall (i : nat) code,
          codes !! i = Some code ->
          String.length code = 14%nat
          /\ Py.all_chars ascii_digit code = true
          /\ fixed_part code = fixed
          /\ serial_part code = Py.format_0d 3 (start_serial + Z.of_nat i)
          /\ int_of_digits (serial_part code) = start_serial + Z.of_nat i
          /\ (exists t, 116 <= t <= 951 /\ ticket_part code = Py.format_0d 4 t)
          /\ check_part code = gs1_mod10_check_digit (substring 0 13 code))
    /\ (forall (i j : nat) ci cj,
          codes !! i = Some ci -> codes !! j = Some cj -> (i < j)%nat ->
          int_of_digits (serial_part ci) < int_of_digits (serial_part cj)).
Proof.
  intros Hlen Hdig Hstart Hqty Hrange Hrng.
  rewrite generate_unfold.
  rewrite generate_loop_in_range by lia.
  set (w1 := set_fs (OpOpenW out_file) (<[out_file := []]> (fs w)) w).
  pose proof (gen_run_spec fixed start_serial out_file (Z.to_nat qty) 0 w1) as Hspec.
  destruct (gen_run fixed start_serial out_file (Z.to_nat qty) 0 w1) as [codes w'].
  destruct Hspec as (Hn & Hnet & _ & _ & _ & Hcodes & Hfs & _).
  exists codes, w'. cbn [fst snd app].
  assert (Hshape : forall (i : nat) code,
             codes !! i = Some code ->
             String.length code = 14%nat
             /\ Py.all_chars ascii_digit code = true
             /\ fixed_part code = fixed
             /\ serial_part code = Py.format_0d 3 (start_serial + Z.of_nat i)
             /\ int_of_digits (serial_part code) = start_serial + Z.of_nat i
             /\ (exists t, 116 <= t <= 951 /\ ticket_part code = Py.format_0d 4 t)
             /\ check_part code = gs1_mod10_check_digit (substring 0 13 code)).
  { intros i code Hi.
    pose proof (lookup_lt_Some _ _ _ Hi) as Hlt.
    rewrite (Hcodes i code Hi). cbn [Nat.add].
    set (t := rng w1 (ndraw w1 + i)%nat (TICKETS_MAX - TICKETS_MIN + 1) + TICKETS_MIN).
    assert (Ht : 116 <= t <= 951).
    { pose proof (Hrng (ndraw w1 + i)%nat (TICKETS_MAX - TICKETS_MIN + 1)) as Hb.
      unfold t, TICKETS_MAX, TICKETS_MIN in *. cbn [rng w1 set_fs] in *. lia. }
    destruct (code_of_fields fixed (start_serial + Z.of_nat i) t Hlen Hdig) as
      (H1 & H2 & H3 & H4 & H5 & H6 & H7); [lia | exact Ht |].
    repeat split; try assumption. exists t. split; assumption. }
  split; [reflexivity|]. split; [exact Hnet|]. split; [lia|]. split; [|split].
  - rewrite (Hfs []); [reflexivity | apply lookup_insert_eq].
  - exact Hshape.
  - intros i j ci cj Hi Hj Hij.
    destruct (Hshape i ci Hi) as (_ & _ & _ & _ & -> & _).
    destruct (Hshape j cj Hj) as (_ & _ & _ & _ & -> & _). lia.
Qed.

(** C4. For a fixed part of 6 ASCII digits, a start serial [>= 0] and a
    count [>= 1] with [start_serial + qty - 1 <= 999], and a random source
    that keeps the contract of [secrets.randbelow], the generation loop
    ends normally with exactly [qty] codes, all written to the output file
    one per line. The code of index [i] has 14 characters, all ASCII
    digits: the fixed part, the serial [start_serial + i] on 3 digits, a
    ticket in [116, 951] on 4 digits and the check digit of these 13
    characters. The serials increase strictly along the list. *)
Theorem generate_emits_codes fixed start_serial qty out_file w :
  String.length fixed = 6%nat ->
  Py.all_chars ascii_digit fixed = true ->
  0 <= start_serial ->
  1 <= qty ->
  start_serial + qty - 1 <= 999 ->
  rng_ok w ->
  exists codes w',
    generate fixed start_serial out_file qty w = (Ok codes, w')
    /\ Z.of_nat (length codes) = qty
    /\ fs w' !! out_file = Some (lines codes)
    /\ (forall (i : nat) code,
          codes !! i = Some code ->
          String.length code = 14%nat
          /\ Py.all_chars ascii_digit code = true
          /\ fixed_part code = fixed
          /\ serial_part code = Py.format_0d 3 (start_serial + Z.of_nat i)
          /\ int_of_digits (serial_part code) = start_serial + Z.of_nat i
          /\ (exists t, 116 <= t <= 951 /\ ticket_part code = Py.format_0d 4 t)
          /\ check_part code = gs1_mod10_check_digit (substring 0 13 code))
    /\ (forall (i j : nat) ci cj,
          codes !! i = Some ci -> codes !! j = Some cj -> (i < j)%nat ->
          int_of_digits (serial_part ci) < int_of_digits (serial_part cj)).
Proof.
  intros Hlen Hdig Hstart Hqty Hrange Hrng.
  destruct (generate_in_range fixed start_serial qty out_file w Hlen Hdig Hstart Hqty Hrange Hrng)
    as (codes & w' & Hrun & _ & Hcount & Hfile & Hshape & Hincr).
  exists codes, w'. repeat split; try assumption; now apply (Hshape i code).
Qed.

(** Two codes from serial 998 on, with a random source that draws 0. *)
Lemma generate_emits_codes_witness :
  exists codes w',
    generate "100000" 998 "ilusiona_20260101000000.txt" 2 zero_world = (Ok codes, w')
    /\ Z.of_nat (length codes) = 2
    /\ fs w' !! "ilusiona_20260101000000.txt" = Some (lines codes)
    /\ (forall (i : nat) code,
          codes !! i = Some code ->
          String.length code = 14%nat
          /\ Py.all_chars ascii_digit code = true
          /\ fixed_part code = "100000"
          /\ serial_part code = Py.format_0d 3 (998 + Z.of_nat i)
          /\ int_of_digits (serial_part code) = 998 + Z.of_nat i
          /\ (exists t, 116 <= t <= 951 /\ ticket_part code = Py.format_0d 4 t)
          /\ check_part code = gs1_mod10_check_digit (substring 0 13 code))
    /\ (forall (i j : nat) ci cj,
          codes !! i = Some ci -> codes !! j = Some cj -> (i < j)%nat ->
          int_of_digits (serial_part ci) < int_of_digits (serial_part cj)).
Proof.
  apply (generate_emits_codes "100000" 998 2 "ilusiona_20260101000000.txt" zero_world).
  - reflexivity.
  - reflexivity.
  - lia.
  - lia.
  - lia.
  - intros k n Hn. simpl. lia.
Defined.

(** C5. When [start_serial + qty - 1 > 999] (and [qty >= 1]), the
    generation loop raises [SystemExit] with the message naming the first
    serial above 999, before any code for that serial is built. The codes
    for the serials up to 999 (there are [1000 - start_serial] of them, none
    if the start is already above 999) have been written to the output file
    and stay there; nothing more is written, [main] ends with the same
    exception and no download is started. *)
Theorem generate_range_exceeded fixed start_serial qty out_file w :
  1 <= qty ->
  start_serial + qty - 1 > 999 ->
  let offending := Z.max start_serial 1000 in
  exists codes w' m new,
    generate fixed start_serial out_file qty w
    = (Raise (mkExn SystemExit (msg_range offending)), w')
    /\ Z.of_nat (length codes) = offending - start_serial
    /\ (forall (i : nat) code,
          codes !! i = Some code ->
          start_serial + Z.of_nat i <= 999
          /\ exists t, code = code_of fixed (start_serial + Z.of_nat i) t)
    /\ fs w' !! out_file = Some (lines codes)
    /\ trace w' = trace w ++ EvFs (OpOpenW out_file) m :: new
    /\ length new = length codes
    /\ forallb is_append new = true
    /\ nreq w' = nreq w
    /\ (forall ts, out_file = "ilusiona_" +:+ ts +:+ ".txt" ->
          main fixed start_serial qty ts w
          = (Raise (mkExn SystemExit (msg_range offending)), w')).
Proof.
  intros Hqty Hover offending.
  set (n := Z.to_nat (1000 - start_serial)).
  set (k := (Z.to_nat qty - n)%nat).
  assert (Hk : (Z.to_nat qty = n + S (Nat.pred k))%nat) by (unfold k, n; lia).
  assert (Hgen : forall out w0,
             generate_loop fixed start_serial out
               (map (fun i => 0 + Z.of_nat i) (seq 0 (Z.to_nat qty))) [] w0
             = (Raise (mkExn SystemExit (msg_range offending)),
                snd (gen_run fixed start_serial out n 0 w0))).
  { intros out w0. rewrite Hk, seq_app, map_app, generate_loop_app.
    rewrite generate_loop_in_range by (unfold n; lia).
    cbn [seq map generate_loop]. unfold bind.
    rewrite generate_one_out_of_range by (unfold n; lia).
    replace (start_serial + (0 + Z.of_nat (0 + n))) with offending
      by (unfold offending, n; lia).
    reflexivity. }
  set (w1 := set_fs (OpOpenW out_file) (<[out_file := []]> (fs w)) w).
  pose proof (gen_run_spec fixed start_serial out_file n 0 w1) as Hspec.
  destruct (gen_run fixed start_serial out_file n 0 w1) as [codes w'] eqn:Hrun.
  destruct Hspec as (Hn & _ & Hnreq & _ & _ & Hcodes & Hfs & _ & new & Htr & Hnew & Happ).
  exists codes, w', (<[out_file := []]> (fs w)), new.
  assert (Hgenerate : generate fixed start_serial out_file qty w
                      = (Raise (mkExn SystemExit (msg_range offending)), w')).
  { rewrite generate_unfold, Hgen. fold w1. now rewrite Hrun. }
  split; [exact Hgenerate|]. split; [unfold offending, n in *; lia|].
  split; [|split; [|split; [|split; [|split; [|split]]]]].
  - intros i code Hi. pose proof (lookup_lt_Some _ _ _ Hi) as Hlt.
    split; [unfold n in *; lia|]. eexists. exact (Hcodes i code Hi).
  - rewrite (Hfs []); [reflexivity | apply lookup_insert_eq].
  - rewrite Htr. unfold w1, set_fs. cbn [trace]. now rewrite <- app_assoc.
  - congruence.
  - exact Happ.
  - exact Hnreq.
  - intros ts Hout. unfold main, bind. rewrite <- Hout, Hgenerate. reflexivity.
Qed.

(** Two codes asked from serial 999 on: one is written, then the loop stops. *)
Lemma generate_range_exceeded_witness :
  exists codes w' m new,
    generate "100000" 999 "ilusiona_20260101000000.txt" 2 zero_world
    = (Raise (mkExn SystemExit (msg_range (Z.max 999 1000))), w')
    /\ Z.of_nat (length codes) = Z.max 999 1000 - 999
    /\ (forall (i : nat) code,
          codes !! i = Some code ->
          999 + Z.of_nat i <= 999
          /\ exists t, code = code_of "100000" (999 + Z.of_nat i) t)
    /\ fs w' !! "ilusiona_20260101000000.txt" = Some (lines codes)
    /\ trace w' = trace zero_world ++ EvFs (OpOpenW "ilusiona_20260101000000.txt") m :: new
    /\ length new = length codes
    /\ forallb is_append new = true
    /\ nreq w' = nreq zero_world
    /\ (forall ts, "ilusiona_20260101000000.txt" = "ilusiona_" +:+ ts +:+ ".txt" ->
          main "100000" 999 2 ts zero_world
          = (Raise (mkExn SystemExit (msg_range (Z.max 999 1000))), w')).
Proof.
  apply (generate_range_exceeded "100000" 999 2 "ilusiona_20260101000000.txt" zero_world); lia.
Defined.

(** ** The batch loop *)

Lemma count_outcome_cons (o x : option bool) (outcomes : list (option bool)) :
  count_outcome o (x :: outcomes)
  = (if same_outcome o x then 1 else 0) + count_outcome o outcomes.
Proof.
  unfold count_outcome. rewrite filter_cons.
  destruct (same_outcome o x); cbn [decide_rel]; case_decide; try congruence;
    cbn [length]; lia.
Qed.

Lemma batch_loop_outcomes (codes : list string) :
  forall (acc : summary) (w : world),
    let '(outcomes, w') := batch_outcomes codes w in
    batch_loop codes acc w
    = (Ok (mkSummary (total acc + Z.of_nat (length codes))
                     (ok acc + count_outcome (Some true) outcomes)
                     (skip acc + count_outcome None outcomes)
                     (fail acc + count_outcome (Some false) outcomes)),
       w')
    /\ length outcomes = length codes
    /\ (forall (i : nat) code,
          codes !! i = Some code ->
          (Py.isdigit code = false -> outcomes !! i = Some None)
          /\ (Py.isdigit code = true -> exists b, outcomes !! i = Some (Some b))).
Proof.
  induction codes as [|code rest IH]; intros acc w.
  - cbn. split; [|split; [reflexivity | intros i code Hi; discriminate]].
    unfold ret, count_outcome. cbn. destruct acc. now rewrite !Z.add_0_r.
  - cbn [batch_outcomes batch_loop].
    destruct (Py.isdigit code) eqn:Hdig; cbn [negb].
    + unfold bind.
      destruct (download_png_inv code ("./" +:+ code +:+ ".png") 30 2 SLEEP_S w)
        as ([b msg] & w1 & Hrun & _).
      unfold png_path. rewrite Hrun. cbn [fst success].
      destruct b.
      * specialize (IH (mkSummary (total acc + 1) (ok acc + 1) (skip acc) (fail acc)) w1).
        destruct (batch_outcomes rest w1) as [outcomes w2].
        destruct IH as (-> & Hlen & Hidx). split; [|split].
        -- rewrite !count_outcome_cons. cbn [total ok skip fail same_outcome Bool.eqb length].
           do 2 f_equal. f_equal; lia.
        -- cbn. now rewrite Hlen.
        -- intros [|i] c Hc; [|exact (Hidx i c Hc)].
           cbn in Hc. injection Hc as <-. split; [congruence | now exists true].
      * specialize (IH (mkSummary (total acc + 1) (ok acc) (skip acc) (fail acc + 1)) w1).
        destruct (batch_outcomes rest w1) as [outcomes w2].
        destruct IH as (-> & Hlen & Hidx). split; [|split].
        -- rewrite !count_outcome_cons. cbn [total ok skip fail same_outcome Bool.eqb length].
           do 2 f_equal. f_equal; lia.
        -- cbn. now rewrite Hlen.
        -- intros [|i] c Hc; [|exact (Hidx i c Hc)].
           cbn in Hc. injection Hc as <-. split; [congruence | now exists false].
    + specialize (IH (mkSummary (total acc + 1) (ok acc) (skip acc + 1) (fail acc)) w).
      destruct (batch_outcomes rest w) as [outcomes w2].
      destruct IH as (-> & Hlen & Hidx). split; [|split].
      * rewrite !count_outcome_cons. cbn [total ok skip fail same_outcome length].
        do 2 f_equal. f_equal; lia.
      * cbn. now rewrite Hlen.
      * intros [|i] c Hc; [|exact (Hidx i c Hc)].
        cbn in Hc. injection Hc as <-. split; [reflexivity | congruence].
Qed.

(** ** A transport that always answers with a PNG *)

Lemma png_nonempty (data : Py.bytes) : has_png_signature data = true -> data <> [].
Proof. intros H ->. discriminate H. Qed.

Lemma png_path_ne_tmp (a b : string) : png_path a <> tmp_file (png_path b).
Proof.
  unfold png_path, tmp_file. intros H.
  apply (f_equal (fun s => rev (list_ascii_of_string s))) in H.
  rewrite !chars_append, !rev_app_distr in H. discriminate H.
Qed.

Lemma ascii_digit_isdigit (s : string) :
  Py.all_chars ascii_digit s = true -> Py.all_chars Py.isdigit_char s = true.
Proof.
  induction s as [|ch s IH]; cbn [Py.all_chars]; [reflexivity|].
  intros H. apply andb_prop in H as [Hch Hs]. rewrite (IH Hs), andb_true_r.
  unfold ascii_digit in Hch. unfold Py.isdigit_char. now rewrite Hch.
Qed.

Lemma code_isdigit (code : string) :
  String.length code = 14%nat -> Py.all_chars ascii_digit code = true ->
  Py.isdigit code = true.
Proof.
  intros Hlen Hdig. destruct code as [|ch code]; [discriminate Hlen|].
  unfold Py.isdigit. now apply ascii_digit_isdigit.
Qed.

(** No operation on plain names meets an error of the system's own. *)
Lemma plain_op_fault (w : world) (op : fs_op) : plain_op op = true -> op_fault w op = None.
Proof. unfold op_fault. now intros ->. Qed.

Lemma plain_read_fault (w : world) (path : string) :
  plain_path path = true -> read_fault w path = None.
Proof. unfold read_fault. now intros ->. Qed.

Lemma isdigit_name_char (ch : ascii) : Py.isdigit_char ch = true -> name_char ch = true.
Proof.
  intros H. unfold name_char.
  apply andb_true_intro; split; apply negb_true_iff, Z.eqb_neq; intros E;
    unfold Py.isdigit_char in H; rewrite E in H; discriminate H.
Qed.

Lemma isdigit_name_chars (s : string) :
  Py.all_chars Py.isdigit_char s = true -> Py.all_chars name_char s = true.
Proof.
  induction s as [|ch s IH]; cbn [Py.all_chars]; [reflexivity|].
  intros H. apply andb_prop in H as [Hch Hs].
  now rewrite (isdigit_name_char ch Hch), (IH Hs).
Qed.

(** The files of a code made of digits are plain names of the working
    directory. *)
Lemma png_path_plain (code : string) :
  Py.isdigit code = true ->
  plain_path (png_path code) = true /\ plain_path (tmp_file (png_path code)) = true.
Proof.
  intros Hdig.
  assert (Hname : Py.all_chars name_char code = true).
  { apply isdigit_name_chars. destruct code; [discriminate Hdig | exact Hdig]. }
  split.
  - change (png_path code) with (String "." (String "/" (code +:+ ".png"))).
    cbn [plain_path]. unfold plain_name.
    rewrite !all_chars_append, Hname.
    change (Py.all_chars is_dot ".png") with false.
    now rewrite andb_false_r.
  - change (tmp_file (png_path code))
      with (String "." (String "/" ((code +:+ ".png") +:+ ".tmp"))).
    cbn [plain_path]. unfold plain_name.
    rewrite !all_chars_append, Hname.
    change (Py.all_chars is_dot ".tmp") with false.
    now rewrite andb_false_r.
Qed.

Lemma download_png_all_png code out_file timeout_s retries sleep_s w :
  0 <= retries ->
  all_png w ->
  plain_path out_file = true ->
  plain_path (tmp_file out_file) = true ->
  exists msg w',
    download_png code out_file timeout_s retries sleep_s w = (Ok (true, msg), w')
    /\ fetch_inv w out_file w'
    /\ nonempty_at w' out_file.
Proof.
  intros Hr Hpng Hout Htmp.
  assert (Hfetch : not_cached w out_file ->
            exists msg w',
              download_png code out_file timeout_s retries sleep_s w = (Ok (true, msg), w')
              /\ fetch_inv w out_file w' /\ nonempty_at w' out_file).
  { intros Hc.
    destruct (Hpng (nreq w) (the_request code timeout_s)) as (data & Hnet & Hsig).
    exists (msg_ok out_file), (after_png code out_file timeout_s data w).
    split; [|split].
    - rewrite download_png_uncached by assumption.
      rewrite range_cons by lia. cbn [attempt_loop]. unfold bind.
      rewrite (attempt_body_png _ _ _ _ _ _ _ data); try assumption; try reflexivity.
      + apply plain_op_fault. exact Htmp.
      + apply plain_op_fault. exact Htmp.
      + now apply plain_read_fault.
      + apply plain_op_fault. cbn [plain_op]. now rewrite Htmp, Hout.
    - apply fetch_inv_after_png; [assumption | assumption | apply fetch_inv_refl].
    - exists data. split; [apply lookup_insert_eq | now apply png_nonempty]. }
  destruct (fs w !! out_file) as [[|b data]|] eqn:Hfile.
  - apply Hfetch. now right.
  - exists (msg_cached out_file), w.
    split; [apply (download_png_hit _ _ _ _ _ _ (b :: data)); [assumption | cbn; lia]|].
    split; [apply fetch_inv_refl|]. now exists (b :: data).
  - apply Hfetch. now left.
Qed.

Lemma batch_loop_all_png (codes : list string) :
  forall (acc : summary) (w : world),
    all_png w ->
    Forall (fun code => Py.isdigit code = true) codes ->
    exists w',
      batch_loop codes acc w
      = (Ok (mkSummary (total acc + Z.of_nat (length codes))
                       (ok acc + Z.of_nat (length codes)) (skip acc) (fail acc)),
         w')
      /\ (forall code, nonempty_at w (png_path code) -> nonempty_at w' (png_path code))
      /\ Forall (fun code => nonempty_at w' (png_path code)) codes.
Proof.
  induction codes as [|code rest IH]; intros acc w Hpng Hdig.
  - exists w. split; [|split; [tauto | constructor]].
    cbn. unfold ret. destruct acc. cbn. now rewrite !Z.add_0_r.
  - inversion Hdig as [|? ? Hcode Hrest]; subst.
    cbn [batch_loop]. rewrite Hcode. cbn [negb]. unfold bind.
    destruct (png_path_plain code Hcode) as [Hplain Hplain_tmp].
    destruct (download_png_all_png code (png_path code) 30 2 SLEEP_S w)
      as (msg & w1 & -> & Hinv & Hfile); [lia | assumption | assumption | assumption |].
    cbn [fst].
    destruct Hinv as (Hnet & _ & _ & _ & _ & Hframe).
    assert (Hkeep : forall c, nonempty_at w (png_path c) -> nonempty_at w1 (png_path c)).
    { intros c Hc. destruct (decide (png_path c = png_path code)) as [-> | Hne];
        [assumption|].
      destruct Hc as (data & Hd & Hnonempty). exists data. split; [|assumption].
      rewrite Hframe; [assumption | assumption | apply png_path_ne_tmp]. }
    destruct (IH (mkSummary (total acc + 1) (ok acc + 1) (skip acc) (fail acc)) w1)
      as (w' & -> & Hkeep' & Hall).
    { intros n r. rewrite Hnet. apply Hpng. }
    { assumption. }
    exists w'. split; [|split].
    + cbn [total ok skip fail length]. do 2 f_equal. f_equal; lia.
    + intros c Hc. apply Hkeep', Hkeep, Hc.
    + constructor; [apply Hkeep', Hfile | assumption].
Qed.

(** C9. The batch loop never aborts: for every list of codes it ends
    normally, having gone through all of them. It calls [download_png]
    once for each code made of digits, in order, against ["./<code>.png"]
    with the default settings, and not at all for the others. [total]
    counts every code, [ok] the fetches that succeeded (cached or fetched),
    [fail] those that failed, [skip] exactly the codes that are not made of
    digits. In particular, with fixed part ["100000"], start 0, quantity 2
    and a transport that answers every request with a PNG, [main] returns
    2, 2, 0, 0 and leaves a non-empty file at ["./<code>.png"] for each of
    the two distinct 14-digit codes. *)
Theorem batch_loop_summary :
  (forall (codes : list string) (w : world),
      let '(outcomes, w') := batch_outcomes codes w in
      batch_loop codes (mkSummary 0 0 0 0) w
      = (Ok (mkSummary (Z.of_nat (length codes))
                       (count_outcome (Some true) outcomes)
                       (count_outcome None outcomes)
                       (count_outcome (Some false) outcomes)),
         w')
      /\ length outcomes = length codes
      /\ (forall (i : nat) code,
            codes !! i = Some code ->
            (Py.isdigit code = false -> outcomes !! i = Some None)
            /\ (Py.isdigit code = true -> exists b, outcomes !! i = Some (Some b))))
  /\ (forall (w : world) (ts : string),
        rng_ok w ->
        all_png w ->
        exists c1 c2 w1 w',
          generate "100000" 0 ("ilusiona_" +:+ ts +:+ ".txt") 2 w = (Ok [c1; c2], w1)
          /\ main "100000" 0 2 ts w = (Ok (mkSummary 2 2 0 0), w')
          /\ String.length c1 = 14%nat /\ Py.all_chars ascii_digit c1 = true
          /\ String.length c2 = 14%nat /\ Py.all_chars ascii_digit c2 = true
          /\ c1 <> c2
          /\ nonempty_at w' ("./" +:+ c1 +:+ ".png")
          /\ nonempty_at w' ("./" +:+ c2 +:+ ".png")).
Proof.
  split.
  - intros codes w.
    pose proof (batch_loop_outcomes codes (mkSummary 0 0 0 0) w) as H.
    destruct (batch_outcomes codes w) as [outcomes w']. exact H.
  - intros w ts Hrng Hpng.
    destruct (generate_in_range "100000" 0 2 ("ilusiona_" +:+ ts +:+ ".txt") w)
      as (codes & w1 & Hgen & Hnet & Hcount & _ & Hshape & Hincr);
      [reflexivity | reflexivity | lia | lia | lia | assumption |].
    destruct codes as [|c1 [|c2 [|c3 codes]]]; cbn in Hcount; try lia.
    destruct (Hshape 0%nat c1 eq_refl) as (Hl1 & Hd1 & _).
    destruct (Hshape 1%nat c2 eq_refl) as (Hl2 & Hd2 & _).
    destruct (batch_loop_all_png [c1; c2] (mkSummary 0 0 0 0) w1) as (w' & Hrun & _ & Hall).
    { intros n r. rewrite Hnet. apply Hpng. }
    { repeat constructor; now apply code_isdigit. }
    inversion Hall as [|? ? Hf1 Hall']; subst. inversion Hall' as [|? ? Hf2 _]; subst.
    exists c1, c2, w1, w'. repeat split; try assumption.
    + unfold main, bind. rewrite Hgen. exact Hrun.
    + intros ->. pose proof (Hincr 0%nat 1%nat c2 c2 eq_refl eq_refl). lia.
Qed.

(** The end-to-end run on an empty directory. *)
Lemma batch_loop_summary_witness :
  exists c1 c2 w1 w',
    generate "100000" 0 ("ilusiona_" +:+ "20260101000000" +:+ ".txt") 2 png_world
    = (Ok [c1; c2], w1)
    /\ main "100000" 0 2 "20260101000000" png_world = (Ok (mkSummary 2 2 0 0), w')
    /\ String.length c1 = 14%nat /\ Py.all_chars ascii_digit c1 = true
    /\ String.length c2 = 14%nat /\ Py.all_chars ascii_digit c2 = true
    /\ c1 <> c2
    /\ nonempty_at w' ("./" +:+ c1 +:+ ".png")
    /\ nonempty_at w' ("./" +:+ c2 +:+ ".png").
Proof.
  apply (proj2 batch_loop_summary png_world "20260101000000").
  - intros k n Hn. simpl. lia.
  - intros n r. exists png_body. split; reflexivity.
Defined.

(** * Further properties *)

(** ** What the check digit detects *)

Section check_digit_facts.
Import Gs1Spec.

Lemma position_weight_SS (k : nat) : position_weight (S (S k)) = position_weight k.
Proof. unfold position_weight. now rewrite Nat.even_succ_succ. Qed.

Lemma position_weight_cases (k : nat) :
(position_weight k = 3 /\ position_weight (S k) = 1)
\/ (position_weight k = 1 /\ position_weight (S k) = 3).
Proof.
rewrite position_weight_S. unfold position_weight.
destruct (Nat.even k); [left | right]; split; reflexivity.
Qed.

Lemma sum_from_SS (vs : list Z) : forall k, sum_from (S (S k)) vs = sum_from k vs.
Proof.
induction vs as [|v vs IH]; intros k; cbn [sum_from]; [reflexivity|].
now rewrite position_weight_SS, IH.
Qed.

Lemma sum_from_app (l1 l2 : list Z) :
forall k, sum_from k (l1 ++ l2) = sum_from k l1 + sum_from (k + length l1) l2.
Proof.
induction l1 as [|v l1 IH]; intros k; cbn [app sum_from length].
- rewrite Nat.add_0_r. lia.
- rewrite IH. replace (S k + length l1)%nat with (k + S (length l1))%nat by lia. lia.
Qed.

Lemma raw_values_append (a b : string) :
raw_values (a +:+ b) = raw_values a ++ raw_values b.
Proof. unfold raw_values. now rewrite chars_append, map_app. Qed.

Lemma digits_of_append (a b : string) (da db : list Z) :
digits_of a = Some da -> digits_of b = Some db ->
digits_of (a +:+ b) = Some (da ++ db).
Proof.
revert da. induction a as [|ch a IH]; intros da; cbn [digits_of String.append].
- now intros [= <-].
- destruct (digit_value ch) as [d|]; [|discriminate].
  destruct (digits_of a) as [da'|]; [|discriminate].
  intros [= <-] Hb. now rewrite (IH da' eq_refl Hb).
Qed.

Lemma digits_of_split (a b : string) (ds : list Z) :
digits_of (a +:+ b) = Some ds ->
exists da db, digits_of a = Some da /\ digits_of b = Some db /\ ds = da ++ db.
Proof.
revert ds. induction a as [|ch a IH]; intros ds; cbn [digits_of String.append].
- intros H. now exists [], ds.
- destruct (digit_value ch) as [d|]; [|discriminate].
  destruct (digits_of (a +:+ b)) as [ds'|] eqn:E; [|discriminate].
  intros [= <-]. destruct (IH ds' eq_refl) as (da & db & -> & Hb & ->).
  now exists (d :: da), db.
Qed.

Lemma full_weighted_sum_rev (ds : list Z) : full_weighted_sum ds = sum_from 1 (rev ds).
Proof.
induction ds as [|d ds IH]; [reflexivity|].
cbn [rev]. rewrite sum_from_app, length_rev, <- IH. cbn [sum_from].
unfold full_weighted_sum, sumZ. cbn [length seq map fold_right nth].
rewrite Nat.sub_0_r, Z.add_0_r, Z.add_comm. f_equal.
rewrite <- seq_shift, map_map. f_equal.
Qed.

Lemma full_weighted_sum_snoc (ds : list Z) (d : Z) :
full_weighted_sum (ds ++ [d]) = weighted_sum ds + d.
Proof.
rewrite full_weighted_sum_rev, rev_app_distr. cbn [rev app sum_from].
rewrite sum_from_SS, <- weighted_sum_rev. unfold position_weight. cbn. lia.
Qed.

Lemma check_digit_eq_iff (ds ds' : list Z) :
check_digit ds = check_digit ds' <-> (weighted_sum ds - weighted_sum ds') mod 10 = 0.
Proof.
unfold check_digit. generalize (weighted_sum ds) (weighted_sum ds'). intros x y.
split; intros H; Z.to_euclidean_division_equations; lia.
Qed.

Lemma str_digit_inj (d d' : Z) :
0 <= d <= 9 -> 0 <= d' <= 9 -> Py.str d = Py.str d' -> d = d'.
Proof.
intros Hd Hd' H. rewrite !str_digit in H by assumption.
injection H as H. apply (f_equal Py.ord) in H.
rewrite !ord_chr_digit in H by assumption. lia.
Qed.

Lemma gs1_eq_iff (s s' : string) :
gs1_mod10_check_digit s = gs1_mod10_check_digit s'
<-> (weighted_sum (raw_values s) - weighted_sum (raw_values s')) mod 10 = 0.
Proof.
rewrite !gs1_is_check_digit, <- check_digit_eq_iff. split; [|now intros ->].
apply str_digit_inj; apply check_digit_range.
Qed.

(** The value the loop reads off a digit character. *)
Lemma digits_of_single (ch : ascii) (d : Z) :
digits_of (String ch "") = Some [d] -> Py.ord ch - 48 = d /\ 0 <= d <= 9.
Proof.
cbn [digits_of]. destruct (digit_value ch) as [d'|] eqn:E; [|discriminate].
intros [= <-]. now apply digit_value_ord.
Qed.

End check_digit_facts.

Lemma chr_ord (ch : ascii) : Py.chr (Py.ord ch) = ch.
Proof. unfold Py.chr, Py.ord. now rewrite N2Z.id, ascii_N_embedding. Qed.

Lemma ord_inj (a b : ascii) : Py.ord a = Py.ord b -> a = b.
Proof. intros H. rewrite <- (chr_ord a), <- (chr_ord b). now rewrite H. Qed.

Lemma ascii_digit_range (ch : ascii) : ascii_digit ch = true -> 0 <= Py.ord ch - 48 <= 9.
Proof. unfold ascii_digit. intros H. apply andb_prop in H as [H1 H2]. lia. Qed.

Lemma ascii_digit_value (ch : ascii) :
  ascii_digit ch = true -> Gs1Spec.digit_value ch = Some (Py.ord ch - 48).
Proof.
  intros H.
  destruct ch as [[] [] [] [] [] [] [] []]; try discriminate H; reflexivity.
Qed.

Lemma length_chars (s : string) : length (list_ascii_of_string s) = String.length s.
Proof. induction s as [|ch s IH]; cbn; [reflexivity | now rewrite IH]. Qed.

Lemma length_raw_values (s : string) :
  length (Gs1Spec.raw_values s) = String.length s.
Proof. unfold Gs1Spec.raw_values. now rewrite length_map, length_chars. Qed.

(** The weighted sum around one character: what lies to its right, the
    character at its position, what lies to its left. *)
Lemma weighted_sum_around (p q : string) (a : ascii) :
  Gs1Spec.weighted_sum (Gs1Spec.raw_values (p +:+ String a q))
  = sum_from 0 (rev (Gs1Spec.raw_values q))
    + (Py.ord a - 48) * Gs1Spec.position_weight (String.length q)
    + sum_from (S (String.length q)) (rev (Gs1Spec.raw_values p)).
Proof.
  rewrite weighted_sum_rev, raw_values_append.
  change (Gs1Spec.raw_values (String a q))
    with ((Py.ord a - 48) :: Gs1Spec.raw_values q).
  rewrite rev_app_distr. cbn [rev]. rewrite <- app_assoc, !sum_from_app.
  cbn [app sum_from length Nat.add].
  rewrite length_rev, length_raw_values, Nat.add_1_r. lia.
Qed.

(** X1. The check digit closes the code: with it appended, a string of ASCII
    digits passes the GS1 check, and no other final digit does. *)
Theorem check_digit_closes_code (s : string) (ds : list Z) :
  Gs1Spec.digits_of s = Some ds ->
  gs1_valid (s +:+ gs1_mod10_check_digit s) = true
  /\ (forall ch, ascii_digit ch = true ->
        gs1_valid (s +:+ String ch "") = true
        <-> String ch "" = gs1_mod10_check_digit s).
Proof.
  intros Hds.
  assert (Hiff : forall ch, ascii_digit ch = true ->
            gs1_valid (s +:+ String ch "") = true
            <-> String ch "" = gs1_mod10_check_digit s).
  { intros ch Hch.
    pose proof (ascii_digit_range ch Hch) as Hr.
    unfold gs1_valid.
    rewrite (digits_of_append s (String ch "") ds [Py.ord ch - 48] Hds)
      by (cbn [Gs1Spec.digits_of]; now rewrite ascii_digit_value).
    rewrite full_weighted_sum_snoc, Z.eqb_eq.
    rewrite gs1_is_check_digit, (digits_of_raw s ds Hds).
    pose proof (check_digit_range ds) as Hc.
    rewrite str_digit by assumption.
    assert (Hch' : ch = Py.chr (48 + (Py.ord ch - 48)))
      by (rewrite <- (chr_ord ch) at 1; f_equal; lia).
    split.
    - intros H. rewrite Hch'. do 2 f_equal.
      unfold Gs1Spec.check_digit in *. Z.to_euclidean_division_equations. lia.
    - intros [= H]. apply (f_equal Py.ord) in H.
      rewrite ord_chr_digit in H by assumption.
      unfold Gs1Spec.check_digit in *. Z.to_euclidean_division_equations. lia. }
  split; [|exact Hiff].
  destruct (gs1_single_digit s) as (d & Hd & Hcrc).
  rewrite Hcrc at 1. apply Hiff; [|now symmetry].
  unfold ascii_digit. rewrite ord_chr_digit by assumption.
  apply andb_true_intro. split; apply Z.leb_le; lia.
Qed.

(** The twelve data digits of the EAN-13 number 4006381333931. *)
Lemma check_digit_closes_code_witness :
  gs1_valid ("400638133393" +:+ gs1_mod10_check_digit "400638133393") = true
  /\ (forall ch, ascii_digit ch = true ->
        gs1_valid ("400638133393" +:+ String ch "") = true
        <-> String ch "" = gs1_mod10_check_digit "400638133393").
Proof.
  apply (check_digit_closes_code "400638133393" [4;0;0;6;3;8;1;3;3;3;9;3]).
  reflexivity.
Defined.

(** X2. Replacing one digit by another one always changes the check digit,
    whatever stands around it. *)
Theorem single_digit_error_detected (p q : string) (a b : ascii) :
  ascii_digit a = true ->
  ascii_digit b = true ->
  a <> b ->
  gs1_mod10_check_digit (p +:+ String a q) <> gs1_mod10_check_digit (p +:+ String b q).
Proof.
  intros Ha Hb Hab H. apply gs1_eq_iff in H.
  rewrite !weighted_sum_around in H.
  apply ascii_digit_range in Ha, Hb.
  assert (Hne : Py.ord a <> Py.ord b) by (intros E; now apply Hab, ord_inj).
  destruct (position_weight_cases (String.length q)) as [[Hw _] | [Hw _]];
    rewrite Hw in H; Z.to_euclidean_division_equations; lia.
Qed.

Lemma single_digit_error_detected_witness :
  gs1_mod10_check_digit ("1234" +:+ String "5" "61010500")
  <> gs1_mod10_check_digit ("1234" +:+ String "6" "61010500").
Proof.
  apply (single_digit_error_detected "1234" "61010500" "5" "6");
    [reflexivity | reflexivity | discriminate].
Defined.

(** X3. Swapping two neighbouring digits goes unnoticed exactly when they
    differ by a multiple of 5 (equal digits, or pairs such as 0 and 5,
    1 and 6). *)
Theorem adjacent_swap_detected_iff (p q : string) (a b : ascii) :
  ascii_digit a = true ->
  ascii_digit b = true ->
  gs1_mod10_check_digit (p +:+ String a (String b q))
  = gs1_mod10_check_digit (p +:+ String b (String a q))
  <-> (Py.ord a - Py.ord b) mod 5 = 0.
Proof.
  intros Ha Hb. rewrite gs1_eq_iff.
  rewrite !weighted_sum_around.
  change (Gs1Spec.raw_values (String b q)) with ((Py.ord b - 48) :: Gs1Spec.raw_values q).
  change (Gs1Spec.raw_values (String a q)) with ((Py.ord a - 48) :: Gs1Spec.raw_values q).
  cbn [rev String.length]. rewrite !sum_from_app. cbn [sum_from].
  rewrite length_rev, length_raw_values. cbn [Nat.add].
  apply ascii_digit_range in Ha, Hb.
  destruct (position_weight_cases (String.length q)) as [[-> ->] | [-> ->]];
    split; intros H; Z.to_euclidean_division_equations; lia.
Qed.

Lemma adjacent_swap_detected_iff_witness :
  gs1_mod10_check_digit ("1234561010" +:+ String "5" (String "0" "0"))
  = gs1_mod10_check_digit ("1234561010" +:+ String "0" (String "5" "0"))
  <-> (Py.ord "5" - Py.ord "0") mod 5 = 0.
Proof.
  apply (adjacent_swap_detected_iff "1234561010" "0" "5" "0"); reflexivity.
Defined.

(** ** The request URL *)

Lemma quote_plus_safe (s : string) :
  Py.all_chars Url.always_safe s = true -> Url.quote_plus s = s.
Proof.
  induction s as [|ch s IH]; cbn [Py.all_chars Url.quote_plus]; [reflexivity|].
  intros H. apply andb_prop in H as [Hch Hs]. rewrite (IH Hs).
  unfold Url.quote_plus_char. rewrite Hch.
  replace (Py.ord ch =? 32) with false; [reflexivity|].
  symmetry. apply Z.eqb_neq. intros E.
  unfold Url.always_safe in Hch. rewrite E in Hch. discriminate Hch.
Qed.

Lemma ascii_digit_safe (s : string) :
  Py.all_chars ascii_digit s = true -> Py.all_chars Url.always_safe s = true.
Proof.
  induction s as [|ch s IH]; cbn [Py.all_chars]; [reflexivity|].
  intros H. apply andb_prop in H as [Hch Hs]. rewrite (IH Hs), andb_true_r.
  unfold ascii_digit in Hch. unfold Url.always_safe. now rewrite Hch.
Qed.

Lemma build_barcode_url_unfold (code : string) :
  build_barcode_url code = URL_PREFIX +:+ Url.quote_plus code +:+ URL_OPTIONS.
Proof.
  unfold build_barcode_url, URL_PREFIX, URL_OPTIONS. cbn [Url.urlencode].
  rewrite !(quote_plus_safe "bc1"), !(quote_plus_safe "bc2"), !(quote_plus_safe "bc3"),
    !(quote_plus_safe "bc4"), !(quote_plus_safe "bc5"), !(quote_plus_safe "bc6"),
    !(quote_plus_safe "bc7"), !(quote_plus_safe "bc8"), !(quote_plus_safe "bc9"),
    !(quote_plus_safe "17"), !(quote_plus_safe "3"), !(quote_plus_safe "1.05"),
    !(quote_plus_safe "1"), !(quote_plus_safe "Arial"), !(quote_plus_safe "15")
    by reflexivity.
  reflexivity.
Qed.

(** X4. A code made of letters, digits and [_.-~] (so every code of ASCII
    digits) goes into the URL as it is, between the address of the service
    and the fixed rendering options. *)
Theorem build_barcode_url_safe (code : string) :
  Py.all_chars Url.always_safe code = true ->
  build_barcode_url code = URL_PREFIX +:+ code +:+ URL_OPTIONS.
Proof. intros H. now rewrite build_barcode_url_unfold, quote_plus_safe. Qed.

Lemma build_barcode_url_safe_witness :
  build_barcode_url "12345610105000"
  = URL_PREFIX +:+ "12345610105000" +:+ URL_OPTIONS.
Proof. apply (build_barcode_url_safe "12345610105000"). reflexivity. Defined.

Lemma in_all_ascii (ch : ascii) : In ch all_ascii.
Proof.
  unfold all_ascii. apply in_map_iff. exists (nat_of_ascii ch).
  split; [apply ascii_nat_embedding|]. apply in_seq.
  pose proof (nat_ascii_bounded ch). lia.
Qed.

Lemma quoting_prefix_free_true : quoting_prefix_free = true.
Proof. vm_compute. reflexivity. Qed.

Lemma quote_plus_char_nonempty (a : ascii) : Url.quote_plus_char a <> "".
Proof.
  pose proof quoting_prefix_free_true as H. unfold quoting_prefix_free in H.
  rewrite forallb_forall in H. specialize (H a (in_all_ascii a)).
  apply andb_prop in H as [H _]. intros E. rewrite E in H. discriminate H.
Qed.

Lemma quote_plus_char_prefix (a b : ascii) :
  String.prefix (Url.quote_plus_char a) (Url.quote_plus_char b) = true -> a = b.
Proof.
  intros Hp.
  pose proof quoting_prefix_free_true as H. unfold quoting_prefix_free in H.
  rewrite forallb_forall in H. specialize (H a (in_all_ascii a)).
  apply andb_prop in H as [_ H].
  rewrite forallb_forall in H. specialize (H b (in_all_ascii b)).
  rewrite Hp in H. cbn [negb] in H. rewrite orb_false_r in H. destruct (Stdlib.Strings.Ascii.eqb_spec a b) as [E | E]; [exact E | discriminate H].
Qed.

Lemma append_eq_prefix (s1 s2 x y : string) :
  s1 +:+ x = s2 +:+ y -> String.prefix s1 s2 = true \/ String.prefix s2 s1 = true.
Proof.
  revert s2. induction s1 as [|a s1 IH]; intros [|b s2] H;
    [left; reflexivity | left; reflexivity | right; reflexivity |].
  cbn [String.append] in H. injection H as -> H.
  cbn [String.prefix]. destruct (ascii_dec b b) as [_|Hne]; [|congruence].
  now apply IH.
Qed.

Lemma append_inv_head (s x y : string) : s +:+ x = s +:+ y -> x = y.
Proof.
  induction s as [|a s IH]; cbn [String.append]; [trivial|].
  intros [= H]. now apply IH.
Qed.

Lemma append_inv_tail (x y t : string) : x +:+ t = y +:+ t -> x = y.
Proof.
  intros H. apply (f_equal list_ascii_of_string) in H.
  rewrite !chars_append in H. apply app_inv_tail in H.
  rewrite <- (string_of_list_ascii_of_string x), <- (string_of_list_ascii_of_string y).
  now rewrite H.
Qed.

Lemma quote_plus_inj (s s' : string) : Url.quote_plus s = Url.quote_plus s' -> s = s'.
Proof.
  revert s'. induction s as [|a s IH]; intros [|b s']; cbn [Url.quote_plus]; intros H.
  - reflexivity.
  - symmetry in H. destruct (Url.quote_plus_char b) eqn:E;
      [now apply quote_plus_char_nonempty in E | discriminate H].
  - destruct (Url.quote_plus_char a) eqn:E;
      [now apply quote_plus_char_nonempty in E | discriminate H].
  - assert (a = b) as <-.
    { destruct (append_eq_prefix _ _ _ _ H) as [Hp | Hp];
        [|symmetry]; now apply quote_plus_char_prefix. }
    f_equal. apply IH. now apply append_inv_head in H.
Qed.

(** X5. Different codes never give the same URL, whatever characters they are
    made of. *)
Theorem build_barcode_url_inj (code code' : string) :
  build_barcode_url code = build_barcode_url code' -> code = code'.
Proof.
  rewrite !build_barcode_url_unfold. intros H.
  apply append_inv_head in H. apply append_inv_tail in H.
  now apply quote_plus_inj.
Qed.

Lemma build_barcode_url_inj_witness : "a b" = "a b".
Proof. apply (build_barcode_url_inj "a b" "a b"). reflexivity. Defined.

(** ** Reading the signature *)

Lemma bytes_eqb_eq (a b : Py.bytes) : bytes_eqb a b = true <-> a = b.
Proof.
  revert b. induction a as [|x a IH]; intros [|y b]; cbn [bytes_eqb];
    try (split; [discriminate | discriminate]); [tauto|].
  rewrite andb_true_iff, IH. split.
  - intros [Hx ->]. f_equal. now apply Byte.byte_dec_bl.
  - intros [= -> ->]. split; [now apply Byte.byte_dec_lb | reflexivity].
Qed.

(** X6. On a path without NUL character, [is_png_file] never raises and
    changes nothing. It answers [True] exactly when the file exists, can be
    opened for reading and its first 8 bytes are the PNG signature; a
    missing file gives [False], as do a file that cannot be opened and a
    file shorter than the signature. *)
Theorem is_png_file_spec (path : string) (w : world) :
  no_nul path = true ->
  exists b,
    is_png_file path w = (Ok b, w)
    /\ (b = true <->
        read_fault w path = None
        /\ exists data, fs w !! path = Some data /\ take 8 data = PNG_SIGNATURE)
    /\ (fs w !! path = None -> b = false)
    /\ (read_fault w path <> None -> b = false)
    /\ (forall data, fs w !! path = Some data -> (length data < 8)%nat -> b = false).
Proof.
  intros _.
  unfold is_png_file, try_except, bind, read_prefix, ret.
  destruct (fs w !! path) as [data|] eqn:E.
  - destruct (read_fault w path) as [msg|] eqn:F.
    + exists false. cbn. split; [reflexivity|]. split; [|now repeat split].
      split; [discriminate | now intros [? _]].
    + exists (bytes_eqb (take 8 data) PNG_SIGNATURE). split; [reflexivity|].
      split; [|split; [|split]].
      * rewrite bytes_eqb_eq. split.
        -- intros H. split; [reflexivity | now exists data].
        -- now intros (_ & d & [= <-] & H).
      * discriminate.
      * congruence.
      * intros d [= <-] Hlen. apply not_true_is_false. rewrite bytes_eqb_eq. intros H.
        apply (f_equal length) in H. rewrite length_take in H.
        unfold PNG_SIGNATURE in H. cbn [length] in H. lia.
  - exists false. cbn. split; [reflexivity|]. split; [|now repeat split].
    split; [discriminate | now intros (_ & d & H & _)].
Qed.

(** A file that holds an HTML page, in a directory that lets it be read. *)
Lemma is_png_file_spec_witness :
  exists b,
    is_png_file "pages/x.png" html_dir_world = (Ok b, html_dir_world)
    /\ (b = true <->
        read_fault html_dir_world "pages/x.png" = None
        /\ exists data, fs html_dir_world !! "pages/x.png" = Some data
                        /\ take 8 data = PNG_SIGNATURE)
    /\ (fs html_dir_world !! "pages/x.png" = None -> b = false)
    /\ (read_fault html_dir_world "pages/x.png" <> None -> b = false)
    /\ (forall data, fs html_dir_world !! "pages/x.png" = Some data ->
                     (length data < 8)%nat -> b = false).
Proof.
  apply (is_png_file_spec "pages/x.png" html_dir_world).
  reflexivity.
Defined.

(** ** What a call of [download_png] leaves *)

Section outcome.

Variables (code out_file : string) (timeout_s retries : Z) (sleep_s : Q).

Let tmp_ne : tmp_file out_file <> out_file := tmp_file_ne out_file.


Lemma nreq_after_not_png data w :
nreq (after_not_png code out_file timeout_s data w) = S (nreq w).
Proof.
unfold after_not_png.
now rewrite (proj1 (proj2 (remove_tmp_same out_file _))).
Qed.

Lemma fs_after_png data w :
fs (after_png code out_file timeout_s data w)
= <[out_file := data]>
    (delete (tmp_file out_file)
       (<[tmp_file out_file := data]> (<[tmp_file out_file := []]> (fs w)))).
Proof. reflexivity. Qed.

(** One round, whatever the transport and the file system do. *)
Lemma attempt_outcome_facts (a : Z) (w : world) :
let o := attempt_outcome code out_file timeout_s retries sleep_s a w in
net (snd o) = net w /\ fault (snd o) = fault w /\ nreq (snd o) = S (nreq w)
/\ (forall msg, fst o = inl (true, msg) ->
    exists data, fs (snd o) !! out_file = Some data /\ has_png_signature data = true)
/\ ((forall msg, fst o <> inl (true, msg)) -> fs (snd o) !! out_file = fs w !! out_file)
/\ (op_fault w (OpRemove (tmp_file out_file)) = None ->
    fs (snd o) !! tmp_file out_file = None).
Proof.
assert (Hhandled : forall w1,
          net w1 = net w -> fault w1 = fault w -> nreq w1 = S (nreq w) ->
          fs w1 !! out_file = fs w !! out_file ->
          let w2 := after_handler out_file retries sleep_s a w1 in
          net w2 = net w /\ fault w2 = fault w /\ nreq w2 = S (nreq w)
          /\ fs w2 !! out_file = fs w !! out_file
          /\ (op_fault w (OpRemove (tmp_file out_file)) = None ->
              fs w2 !! tmp_file out_file = None)).
{ intros w1 Hn Hf Hq Ho w2.
  destruct (after_handler_same out_file retries sleep_s a w1)
    as (Hn2 & Hq2 & _ & _ & Hf2 & Hfs2).
  fold w2 in Hn2, Hq2, Hf2, Hfs2.
  rewrite Hn2, Hq2, Hf2, Hfs2. repeat split; try assumption.
  - rewrite remove_tmp_other by auto. exact Ho.
  - intros Hrm. apply remove_tmp_gone. now rewrite (op_fault_same w w1). }
assert (Hcarried : forall msg w1,
          net w1 = net w -> fault w1 = fault w -> nreq w1 = S (nreq w) ->
          fs w1 !! out_file = fs w !! out_file ->
          let o := (inr msg : (bool * string) + string,
                    after_handler out_file retries sleep_s a w1) in
          net (snd o) = net w /\ fault (snd o) = fault w /\ nreq (snd o) = S (nreq w)
          /\ (forall msg, fst o = inl (true, msg) ->
              exists data, fs (snd o) !! out_file = Some data
                           /\ has_png_signature data = true)
          /\ ((forall msg, fst o <> inl (true, msg)) ->
              fs (snd o) !! out_file = fs w !! out_file)
          /\ (op_fault w (OpRemove (tmp_file out_file)) = None ->
              fs (snd o) !! tmp_file out_file = None)).
{ intros msg w1 Hn Hf Hq Ho. cbn [fst snd].
  destruct (Hhandled w1 Hn Hf Hq Ho) as (H1 & H2 & H3 & H4 & H5).
  split; [exact H1|]. split; [exact H2|]. split; [exact H3|].
  split; [discriminate|]. split; [intros _; exact H4 | exact H5]. }
unfold attempt_outcome.
destruct (net w (nreq w) (the_request code timeout_s)) as [data | msg] eqn:Hnet;
  [|now apply Hcarried].
destruct (op_fault w (OpOpenW (tmp_file out_file))); [now apply Hcarried|].
destruct (op_fault w (OpWrite (tmp_file out_file) data)).
{ apply Hcarried; try reflexivity.
  unfold after_short_write, after_open. cbn [fs set_fs].
  now rewrite !lookup_insert_ne. }
assert (Hout : fs (after_write code out_file timeout_s data w) !! out_file
               = fs w !! out_file).
{ unfold after_write, after_open. cbn [fs set_fs]. now rewrite !lookup_insert_ne. }
destruct (seen_as_png w (tmp_file out_file) data) eqn:Hseen.
- assert (Hpng : has_png_signature data = true).
  { unfold seen_as_png in Hseen. now destruct (read_fault w (tmp_file out_file)). }
  destruct (op_fault w (OpReplace (tmp_file out_file) out_file));
    [now apply Hcarried|].
  cbn [fst snd]. rewrite fs_after_png.
  split; [reflexivity|]. split; [reflexivity|]. split; [reflexivity|].
  split; [|split].
  + intros _ _. exists data. split; [apply lookup_insert_eq | assumption].
  + intros H. now destruct (H (msg_ok out_file)).
  + intros _. rewrite lookup_insert_ne by auto. apply lookup_delete_eq.
- cbn [fst snd]. unfold after_not_png.
  set (w3 := after_write code out_file timeout_s data w) in *.
  destruct (remove_tmp_same out_file w3) as (H1 & H2 & _ & _ & H5 & _).
  rewrite H1, H2, H5.
  split; [reflexivity|]. split; [reflexivity|]. split; [reflexivity|].
  split; [|split].
  + discriminate.
  + intros _. rewrite remove_tmp_other by auto. exact Hout.
  + intros Hrm. now apply remove_tmp_gone.
Qed.

(** The loop, whatever the transport and the file system do. *)
Lemma attempt_loop_outcome (attempts : list Z) :
forall (last_err : string) (w : world),
  exists r w',
    attempt_loop code out_file timeout_s retries sleep_s attempts last_err w = (Ok r, w')
    /\ (nreq w <= nreq w' <= nreq w + length attempts)%nat
    /\ (fst r = true ->
        exists data, fs w' !! out_file = Some data /\ has_png_signature data = true)
    /\ (fst r = false -> fs w' !! out_file = fs w !! out_file)
    /\ (attempts <> [] -> op_fault w (OpRemove (tmp_file out_file)) = None ->
        fs w' !! tmp_file out_file = None).
Proof.
induction attempts as [|a rest IH]; intros last_err w.
- exists (false, msg_exhausted code last_err), w.
  split; [reflexivity|]. split; [cbn; lia|]. split; [discriminate|].
  split; [reflexivity | congruence].
- cbn [attempt_loop]. unfold bind. rewrite attempt_body_eq.
  destruct (attempt_outcome_facts a w) as (Hnet & Hfault & Hn1 & Hgot & Hkept & Hgone).
  destruct (attempt_outcome code out_file timeout_s retries sleep_s a w)
    as [[[b msg] | err] w1]; cbn [fst snd] in *.
  + exists (b, msg), w1. split; [reflexivity|]. split; [cbn [length]; lia|].
    cbn [fst]. split; [|split].
    * intros ->. now apply (Hgot msg).
    * intros ->. apply Hkept. discriminate.
    * intros _. exact Hgone.
  + destruct (IH err w1) as (r & w' & Hrun & Hn & Htrue & Hfalse & Htmp).
    exists r, w'. split; [exact Hrun|].
    split; [cbn [length]; lia|]. split; [exact Htrue|]. split.
    * intros Hr. rewrite (Hfalse Hr). apply Hkept. discriminate.
    * intros _ Hrm. destruct rest as [|b rest].
      -- cbn in Hrun. injection Hrun as _ <-. now apply Hgone.
      -- apply Htmp; [discriminate|]. now rewrite (op_fault_same w w1).
Qed.

End outcome.

Lemma download_png_outcome code out_file timeout_s retries sleep_s w :
  exists r w',
    download_png code out_file timeout_s retries sleep_s w = (Ok r, w')
    /\ (nreq w <= nreq w' <= nreq w + Z.to_nat (retries + 1))%nat
    /\ (fst r = true -> nonempty_at w' out_file)
    /\ (fst r = false -> fs w' !! out_file = fs w !! out_file)
    /\ (not_cached w out_file -> 0 <= retries ->
        op_fault w (OpRemove (tmp_file out_file)) = None ->
        fs w' !! tmp_file out_file = None).
Proof.
  assert (Hloop : not_cached w out_file ->
            exists r w',
              download_png code out_file timeout_s retries sleep_s w = (Ok r, w')
              /\ (nreq w <= nreq w' <= nreq w + Z.to_nat (retries + 1))%nat
              /\ (fst r = true -> nonempty_at w' out_file)
              /\ (fst r = false -> fs w' !! out_file = fs w !! out_file)
              /\ (not_cached w out_file -> 0 <= retries ->
                  op_fault w (OpRemove (tmp_file out_file)) = None ->
                  fs w' !! tmp_file out_file = None)).
  { intros Hc. rewrite download_png_uncached by assumption.
    destruct (attempt_loop_outcome code out_file timeout_s retries sleep_s
                (Py.range 1 (retries + 2)) "" w)
      as (r & w' & Hrun & Hn & Htrue & Hfalse & Htmp).
    exists r, w'. split; [exact Hrun|].
    rewrite range_length in Hn.
    split; [replace (Z.to_nat (retries + 1)) with (Z.to_nat (retries + 2 - 1)) by (f_equal; lia);
            exact Hn|].
    split; [|split; [exact Hfalse|]].
    - intros Hr. destruct (Htrue Hr) as (data & Hd & Hpng).
      exists data. split; [exact Hd | now apply png_nonempty].
    - intros _ Hr. apply Htmp. rewrite range_cons by lia. discriminate. }
  destruct (fs w !! out_file) as [[|b data]|] eqn:Hfile.
  - apply Hloop. now right.
  - exists (true, msg_cached out_file), w.
    split; [apply (download_png_hit _ _ _ _ _ _ (b :: data)); [assumption | cbn; lia]|].
    split; [lia|]. split; [intros _; now exists (b :: data)|].
    split; [discriminate|]. intros [Hc | Hc]; congruence.
  - apply Hloop. now left.
Qed.





(** X9. A call touches no file other than the destination and its temporary
    file, draws no random number and leaves the transport as it was. *)
Theorem download_png_frame code out_file timeout_s retries sleep_s w :
  exists r w',
    download_png code out_file timeout_s retries sleep_s w = (Ok r, w')
    /\ (forall p, p <> out_file -> p <> tmp_file out_file -> fs w' !! p = fs w !! p)
    /\ net w' = net w /\ rng w' = rng w /\ ndraw w' = ndraw w.
Proof.
  destruct (download_png_inv code out_file timeout_s retries sleep_s w)
    as (r & w' & Hrun & Hnet & Hrng & Hnd & _ & _ & Hframe).
  now exists r, w'.
Qed.

(** X10. Fetching is idempotent: once a call has returned [True], any further
    call for the same destination is a cache hit that makes no request and
    changes nothing. *)
Theorem download_png_idempotent code out_file timeout_s retries sleep_s w msg w' :
  download_png code out_file timeout_s retries sleep_s w = (Ok (true, msg), w') ->
  forall code2 timeout2 retries2 sleep2,
    download_png code2 out_file timeout2 retries2 sleep2 w'
    = (Ok (true, msg_cached out_file), w').
Proof.
  intros Hrun code2 timeout2 retries2 sleep2.
  destruct (download_png_outcome code out_file timeout_s retries sleep_s w)
    as (r & w1 & Hrun1 & _ & Htrue & _).
  rewrite Hrun in Hrun1. injection Hrun1 as <- <-.
  destruct (Htrue eq_refl) as (data & Hfile & Hne).
  apply (download_png_hit _ _ _ _ _ _ data); [assumption|].
  destruct data; [congruence | cbn; lia].
Qed.

(** A PNG fetched into an empty directory, then asked for again with other
    settings. *)
Lemma download_png_idempotent_witness :
  download_png "12345610105000" "./x.png" 5 0 SLEEP_S
    (snd (download_png "12345610105000" "./x.png" 30 2 SLEEP_S png_world))
  = (Ok (true, msg_cached "./x.png"),
     snd (download_png "12345610105000" "./x.png" 30 2 SLEEP_S png_world)).
Proof.
  apply (download_png_idempotent "12345610105000" "./x.png" 30 2 SLEEP_S png_world
           (msg_ok "./x.png")).
  vm_compute. reflexivity.
Defined.

Lemma range_nil (lo hi : Z) : hi <= lo -> Py.range lo hi = [].
Proof. intros H. unfold Py.range. now replace (Z.to_nat (hi - lo)) with 0%nat by lia. Qed.

(** X11. With a negative retry budget the loop has no round: when the cache
    check does not hit, the call fails at once with an empty last error,
    without any request and without touching anything. *)
Theorem download_png_no_attempt code out_file timeout_s retries sleep_s w :
  retries < 0 ->
  not_cached w out_file ->
  download_png code out_file timeout_s retries sleep_s w
  = (Ok (false, msg_exhausted code ""), w).
Proof.
  intros Hr Hc. rewrite download_png_uncached by assumption.
  rewrite range_nil by lia. reflexivity.
Qed.

Lemma download_png_no_attempt_witness :
  download_png "12345610105000" "./x.png" 30 (-1) SLEEP_S png_world
  = (Ok (false, msg_exhausted "12345610105000" ""), png_world).
Proof.
  apply (download_png_no_attempt "12345610105000" "./x.png" 30 (-1) SLEEP_S png_world).
  - lia.
  - left. reflexivity.
Defined.

(** ** A temporary file that cannot be created *)

(** When the directory of the destination does not exist, every attempt
    fetches the image and then fails at [open]: the error is handled like
    one of the transport, with a sleep after each of the three attempts,
    and the call reports the last error. *)
Example download_png_no_directory :
  let '(r, w') := download_png "12345610105000" "nodir/x.png" 30 2 SLEEP_S nodir_world in
  r = Ok (false,
          msg_exhausted "12345610105000"
            "[Errno 2] No such file or directory: 'nodir/x.png.tmp'")
  /\ nreq w' = 3%nat
  /\ trace w'
     = [EvRequest (the_request "12345610105000" 30); EvSleep SLEEP_S;
        EvRequest (the_request "12345610105000" 30); EvSleep SLEEP_S;
        EvRequest (the_request "12345610105000" 30); EvSleep SLEEP_S]
  /\ fs w' = fs nodir_world.
Proof. vm_compute. repeat split. Qed.

(** When the write fails and the removal is refused, the call fails
    and leaves the temporary file, with what was written of the image. *)
Example download_png_leftover :
  let '(r, w') :=
    download_png "12345610105000" "out/x.png" 30 0 SLEEP_S full_disk_world in
  r = Ok (false,
          msg_exhausted "12345610105000" "[Errno 28] No space left on device")
  /\ nreq w' = 1%nat
  /\ fs w' !! "out/x.png.tmp" = Some (take 3 png_body)
  /\ fs w' !! "out/x.png" = None.
Proof. vm_compute. repeat split. Qed.

(** ** Failures followed by a PNG *)

Section retry.

Variables (code out_file : string) (timeout_s retries : Z) (sleep_s : Q).


End retry.



(** ** More on the generated codes *)

Lemma isdigit_char_append (a b : string) :
  Py.all_chars Py.isdigit_char a = true -> Py.all_chars Py.isdigit_char b = true ->
  Py.all_chars Py.isdigit_char (a +:+ b) = true.
Proof. intros Ha Hb. now rewrite all_chars_append, Ha, Hb. Qed.

Lemma isdigit_all_chars (s : string) :
  Py.isdigit s = true -> Py.all_chars Py.isdigit_char s = true.
Proof. destruct s; [discriminate | trivial]. Qed.

(** A code built on a fixed part that [str.isdigit] accepts is accepted by
    [str.isdigit] too. *)
Lemma code_of_isdigit (fixed : string) (serial_val tickets_val : Z) :
  Py.isdigit fixed = true ->
  0 <= serial_val <= 999 ->
  116 <= tickets_val <= 951 ->
  Py.isdigit (code_of fixed serial_val tickets_val) = true.
Proof.
  intros Hfixed Hs Ht.
  destruct (field_ok_elim 3 serial_val (serial_field_ok _ Hs)) as (_ & Hs2 & _).
  destruct (field_ok_elim 4 tickets_val (ticket_field_ok _ Ht)) as (_ & Ht2 & _).
  set (base := fixed +:+ Py.format_0d 3 serial_val +:+ Py.format_0d 4 tickets_val).
  assert (Hall : Py.all_chars Py.isdigit_char (code_of fixed serial_val tickets_val) = true).
  { unfold code_of. fold base. apply isdigit_char_append.
    - unfold base. apply isdigit_char_append; [now apply isdigit_all_chars|].
      apply isdigit_char_append; now apply ascii_digit_isdigit.
    - destruct (gs1_single_digit base) as (d & Hd & ->). cbn [Py.all_chars].
      unfold Py.isdigit_char. rewrite ord_chr_digit by assumption.
      replace (48 <=? 48 + d) with true by (symmetry; apply Z.leb_le; lia).
      replace (48 + d <=? 57) with true by (symmetry; apply Z.leb_le; lia).
      reflexivity. }
  unfold code_of in *. fold base in Hall |- *.
  destruct fixed as [|ch fixed]; [discriminate Hfixed|].
  exact Hall.
Qed.

(** The generation loop within the serial range, for any fixed part. *)
Lemma generate_run fixed start_serial qty out_file w :
  0 <= start_serial -> 1 <= qty -> start_serial + qty - 1 <= 999 -> rng_ok w ->
  exists codes w',
    generate fixed start_serial out_file qty w = (Ok codes, w')
    /\ Z.of_nat (length codes) = qty
    /\ net w' = net w /\ nreq w' = nreq w /\ rng w' = rng w
    /\ ndraw w' = (ndraw w + Z.to_nat qty)%nat
    /\ (forall (i : nat) code,
          codes !! i = Some code ->
          exists t, t = rng w (ndraw w + i)%nat (TICKETS_MAX - TICKETS_MIN + 1) + TICKETS_MIN
                    /\ 116 <= t <= 951
                    /\ 0 <= start_serial + Z.of_nat i <= 999
                    /\ code = code_of fixed (start_serial + Z.of_nat i) t).
Proof.
  intros Hstart Hqty Hrange Hrng.
  rewrite generate_unfold, generate_loop_in_range by lia.
  set (w1 := set_fs (OpOpenW out_file) (<[out_file := []]> (fs w)) w).
  pose proof (gen_run_spec fixed start_serial out_file (Z.to_nat qty) 0 w1) as Hspec.
  destruct (gen_run fixed start_serial out_file (Z.to_nat qty) 0 w1) as [codes w'].
  destruct Hspec as (Hn & Hnet & Hnreq & Hr & Hnd & Hcodes & _).
  exists codes, w'. cbn [fst snd app].
  split; [reflexivity|]. split; [lia|].
  split; [exact Hnet|]. split; [exact Hnreq|]. split; [exact Hr|]. split; [exact Hnd|].
  intros i code Hi. pose proof (lookup_lt_Some _ _ _ Hi) as Hlt.
  eexists. split; [reflexivity|].
  split; [|split; [lia | exact (Hcodes i code Hi)]].
  pose proof (Hrng (ndraw w + i)%nat (TICKETS_MAX - TICKETS_MIN + 1)) as Hb.
  unfold TICKETS_MAX, TICKETS_MIN in *. lia.
Qed.

(** X13. Each code uses exactly one draw of the random source, and its ticket
    field reads back as that draw plus 116, a number in [116, 951]. *)
Theorem generate_tickets fixed start_serial qty out_file w :
  String.length fixed = 6%nat ->
  Py.all_chars ascii_digit fixed = true ->
  0 <= start_serial ->
  1 <= qty ->
  start_serial + qty - 1 <= 999 ->
  rng_ok w ->
  exists codes w',
    generate fixed start_serial out_file qty w = (Ok codes, w')
    /\ ndraw w' = (ndraw w + Z.to_nat qty)%nat
    /\ (forall (i : nat) code,
          codes !! i = Some code ->
          int_of_digits (ticket_part code) = rng w (ndraw w + i)%nat 836 + 116
          /\ 116 <= int_of_digits (ticket_part code) <= 951).
Proof.
  intros Hlen Hdig Hstart Hqty Hrange Hrng.
  destruct (generate_run fixed start_serial qty out_file w Hstart Hqty Hrange Hrng)
    as (codes & w' & Hrun & _ & _ & _ & _ & Hnd & Hcodes).
  exists codes, w'. split; [exact Hrun|]. split; [exact Hnd|].
  intros i code Hi. destruct (Hcodes i code Hi) as (t & Ht & Htr & Hsr & ->).
  destruct (code_of_fields fixed (start_serial + Z.of_nat i) t Hlen Hdig Hsr Htr)
    as (_ & _ & _ & _ & -> & _).
  destruct (field_ok_elim 4 t (ticket_field_ok _ Htr)) as (_ & _ & ->).
  split; [exact Ht | exact Htr].
Qed.

Lemma generate_tickets_witness :
  exists codes w',
    generate "100000" 998 "ilusiona_20260101000000.txt" 2 zero_world = (Ok codes, w')
    /\ ndraw w' = (ndraw zero_world + Z.to_nat 2)%nat
    /\ (forall (i : nat) code,
          codes !! i = Some code ->
          int_of_digits (ticket_part code) = rng zero_world (ndraw zero_world + i)%nat 836 + 116
          /\ 116 <= int_of_digits (ticket_part code) <= 951).
Proof.
  apply (generate_tickets "100000" 998 2 "ilusiona_20260101000000.txt" zero_world);
    [reflexivity | reflexivity | lia | lia | lia |].
  intros k n Hn. simpl. lia.
Defined.

(** X14. No code comes twice in a batch, whatever the random source draws. *)
Theorem generate_no_duplicates fixed start_serial qty out_file w :
  String.length fixed = 6%nat ->
  Py.all_chars ascii_digit fixed = true ->
  0 <= start_serial ->
  1 <= qty ->
  start_serial + qty - 1 <= 999 ->
  rng_ok w ->
  exists codes w',
    generate fixed start_serial out_file qty w = (Ok codes, w')
    /\ NoDup codes.
Proof.
  intros Hlen Hdig Hstart Hqty Hrange Hrng.
  destruct (generate_in_range fixed start_serial qty out_file w Hlen Hdig Hstart Hqty Hrange Hrng)
    as (codes & w' & Hrun & _ & _ & _ & _ & Hincr).
  exists codes, w'. split; [exact Hrun|].
  apply NoDup_alt. intros i j code Hi Hj.
  destruct (Nat.lt_trichotomy i j) as [Hlt | [Heq | Hgt]]; [|exact Heq|].
  - pose proof (Hincr i j code code Hi Hj Hlt). lia.
  - pose proof (Hincr j i code code Hj Hi Hgt). lia.
Qed.

Lemma generate_no_duplicates_witness :
  exists codes w',
    generate "100000" 998 "ilusiona_20260101000000.txt" 2 zero_world = (Ok codes, w')
    /\ NoDup codes.
Proof.
  apply (generate_no_duplicates "100000" 998 2 "ilusiona_20260101000000.txt" zero_world);
    [reflexivity | reflexivity | lia | lia | lia |].
  intros k n Hn. simpl. lia.
Defined.

(** ** The whole run *)

Lemma batch_loop_digits (codes : list string) :
  forall (acc : summary) (w : world),
    Forall (fun code => Py.isdigit code = true) codes ->
    exists s w',
      batch_loop codes acc w = (Ok s, w')
      /\ total s = total acc + Z.of_nat (length codes)
      /\ skip s = skip acc
      /\ ok s + fail s = ok acc + fail acc + Z.of_nat (length codes)
      /\ ok acc <= ok s /\ fail acc <= fail s
      /\ (nreq w <= nreq w' <= nreq w + 3 * length codes)%nat.
Proof.
  induction codes as [|code rest IH]; intros acc w Hdig.
  - exists acc, w. cbn. repeat split; lia.
  - inversion Hdig as [|? ? Hcode Hrest]; subst.
    cbn [batch_loop]. rewrite Hcode. cbn [negb]. unfold bind.
    destruct (download_png_outcome code (png_path code) 30 2 SLEEP_S w)
      as ([b msg] & w1 & -> & Hn & _).
    cbn [fst]. cbn in Hn.
    destruct b.
    + destruct (IH (mkSummary (total acc + 1) (ok acc + 1) (skip acc) (fail acc)) w1 Hrest)
        as (s & w' & -> & Ht & Hs & Hof & Hok & Hfail & Hn').
      exists s, w'. cbn [total ok skip fail length] in *. repeat split; lia.
    + destruct (IH (mkSummary (total acc + 1) (ok acc) (skip acc) (fail acc + 1)) w1 Hrest)
        as (s & w' & -> & Ht & Hs & Hof & Hok & Hfail & Hn').
      exists s, w'. cbn [total ok skip fail length] in *. repeat split; lia.
Qed.

(** The run of [main] on a configuration within the serial range. *)
Lemma main_run fixed start_serial qty ts w :
  Py.isdigit fixed = true ->
  0 <= start_serial ->
  1 <= qty ->
  start_serial + qty - 1 <= 999 ->
  rng_ok w ->
  exists s w',
    main fixed start_serial qty ts w = (Ok s, w')
    /\ total s = qty
    /\ skip s = 0
    /\ ok s + fail s = qty
    /\ 0 <= ok s /\ 0 <= fail s
    /\ (nreq w <= nreq w' <= nreq w + 3 * Z.to_nat qty)%nat.
Proof.
  intros Hfixed Hstart Hqty Hrange Hrng.
  destruct (generate_run fixed start_serial qty ("ilusiona_" +:+ ts +:+ ".txt") w
              Hstart Hqty Hrange Hrng)
    as (codes & w1 & Hgen & Hlen & _ & Hnreq & _ & _ & Hcodes).
  assert (Hdig : Forall (fun code => Py.isdigit code = true) codes).
  { apply Forall_lookup. intros i code Hi.
    destruct (Hcodes i code Hi) as (t & _ & Htr & Hsr & ->).
    now apply code_of_isdigit. }
  destruct (batch_loop_digits codes (mkSummary 0 0 0 0) w1 Hdig)
    as (s & w' & Hrun & Ht & Hs & Hof & Hok & Hfail & Hn).
  exists s, w'. unfold main, bind. rewrite Hgen, Hrun.
  cbn [total ok skip fail] in *. repeat split; lia.
Qed.

(** X15. With a configuration as the prompts deliver it (a fixed part accepted
    by [str.isdigit], a start serial [>= 0], a quantity [>= 1]) that stays
    within the serials up to 999, [main] ends normally whatever the
    transport does and whatever files exist: every code is counted, none is
    skipped, each one is either OK or failed, and at most three requests
    per code are made. *)
Theorem main_summary fixed start_serial qty ts w :
  Py.isdigit fixed = true ->
  0 <= start_serial ->
  1 <= qty ->
  start_serial + qty - 1 <= 999 ->
  rng_ok w ->
  exists s w',
    main fixed start_serial qty ts w = (Ok s, w')
    /\ total s = qty
    /\ skip s = 0
    /\ ok s + fail s = qty
    /\ 0 <= ok s /\ 0 <= fail s
    /\ (nreq w <= nreq w' <= nreq w + 3 * Z.to_nat qty)%nat.
Proof. apply main_run. Qed.

(** A fixed part of superscript digits, which [str.isdigit] accepts, over a
    transport that always fails. *)
Lemma main_summary_witness :
  exists s w',
    main (String (Py.chr 178) "12345") 0 3 "20260101000000" timeout_world = (Ok s, w')
    /\ total s = 3
    /\ skip s = 0
    /\ ok s + fail s = 3
    /\ 0 <= ok s /\ 0 <= fail s
    /\ (nreq timeout_world <= nreq w' <= nreq timeout_world + 3 * Z.to_nat 3)%nat.
Proof.
  apply (main_summary (String (Py.chr 178) "12345") 0 3 "20260101000000" timeout_world);
    [reflexivity | lia | lia | lia |].
  intros k n Hn. simpl. lia.
Defined.

(** ** Files of the codes counted OK *)

Lemma batch_outcomes_keeps (codes : list string) :
  forall (w : world) (c : string),
    nonempty_at w (png_path c) ->
    nonempty_at (snd (batch_outcomes codes w)) (png_path c).
Proof.
  induction codes as [|code rest IH]; intros w c Hc; [exact Hc|].
  cbn [batch_outcomes]. fold (png_path code).
  destruct (Py.isdigit code).
  - destruct (download_png code (png_path code) 30 2 SLEEP_S w) as [r w1] eqn:Hrun.
    assert (Hc1 : nonempty_at w1 (png_path c)).
    { destruct (decide (png_path c = png_path code)) as [Heq | Hne].
      - destruct Hc as (data & Hd & Hnonempty).
        rewrite Heq in Hd.
        rewrite (download_png_hit _ _ _ _ _ _ data Hd) in Hrun
          by (destruct data; [congruence | cbn; lia]).
        injection Hrun as _ <-. rewrite Heq. now exists data.
      - destruct (download_png_inv code (png_path code) 30 2 SLEEP_S w)
          as (r' & w1' & Hrun' & _ & _ & _ & _ & _ & Hframe).
        rewrite Hrun in Hrun'. injection Hrun' as _ <-.
        destruct Hc as (data & Hd & Hnonempty). exists data. split; [|assumption].
        rewrite Hframe; [assumption | assumption | apply png_path_ne_tmp]. }
    specialize (IH w1 c Hc1).
    destruct (batch_outcomes rest w1) as [outcomes w2]. exact IH.
  - specialize (IH w c Hc).
    destruct (batch_outcomes rest w) as [outcomes w2]. exact IH.
Qed.

(** X16. At the end of the batch, every code whose fetch was counted OK has a
    non-empty file at ["./<code>.png"]: later fetches never remove or
    empty the file of an earlier code, even when codes repeat. *)
Theorem batch_ok_files (codes : list string) (w : world) :
  let '(outcomes, w') := batch_outcomes codes w in
  snd (batch_loop codes (mkSummary 0 0 0 0) w) = w'
  /\ forall (i : nat) code,
       codes !! i = Some code ->
       outcomes !! i = Some (Some true) ->
       nonempty_at w' ("./" +:+ code +:+ ".png").
Proof.
  pose proof (batch_loop_outcomes codes (mkSummary 0 0 0 0) w) as Hloop.
  assert (Hfiles : forall (i : nat) code,
             codes !! i = Some code ->
             fst (batch_outcomes codes w) !! i = Some (Some true) ->
             nonempty_at (snd (batch_outcomes codes w)) (png_path code)).
  { clear Hloop. revert w. induction codes as [|c rest IH]; intros w i code Hi Ho;
      [discriminate Hi|].
    cbn [batch_outcomes] in *. fold (png_path c) in *.
    destruct (Py.isdigit c).
    - destruct (download_png_outcome c (png_path c) 30 2 SLEEP_S w)
        as (r & w1 & Hrun & _ & Htrue & _).
      rewrite Hrun in *.
      pose proof (IH w1) as IH1. pose proof (batch_outcomes_keeps rest w1) as Hkeep.
      destruct (batch_outcomes rest w1) as [outcomes w2]. cbn [fst snd] in *.
      destruct i as [|i].
      + cbn in Hi, Ho. injection Hi as <-. injection Ho as Ho.
        apply Hkeep, Htrue. destruct r as [b msg]. exact Ho.
      + now apply (IH1 i).
    - pose proof (IH w) as IH1.
      destruct (batch_outcomes rest w) as [outcomes w2]. cbn [fst snd] in *.
      destruct i as [|i]; [discriminate Ho | now apply (IH1 i)]. }
  destruct (batch_outcomes codes w) as [outcomes w'].
  destruct Hloop as (-> & _). split; [reflexivity | exact Hfiles].
Qed.

(** ** The prompts *)

Lemma ask_digits_from_spec (prompt : string) (length : Z) (lines : list string) :
  forall out : list string,
    match ask_digits_from prompt length lines out with
    | (Answer s, c') =>
        py_len s = length /\ Py.isdigit s = true
        /\ exists rejected line,
             lines = rejected ++ line :: stdin c'
             /\ s = strip line
             /\ Forall (fun l => digits_line length l = false) rejected
             /\ stdout c'
                = out ++ flat_map (fun _ => [prompt; printed (msg_digits length)]) rejected
                      ++ [prompt]
    | (EOFError, c') =>
        Forall (fun l => digits_line length l = false) lines /\ stdin c' = []
    | (ValueError, _) => False
    end.
Proof.
  induction lines as [|line rest IH]; intros out; cbn [ask_digits_from].
  - split; [constructor | reflexivity].
  - destruct ((py_len (strip line) =? length) && Py.isdigit (strip line)) eqn:Hok.
    + apply andb_prop in Hok as [Hlen Hdig]. apply Z.eqb_eq in Hlen.
      split; [exact Hlen|]. split; [exact Hdig|].
      exists [], line. cbn. repeat split; constructor.
    + specialize (IH (out ++ [prompt; printed (msg_digits length)])).
      destruct (ask_digits_from prompt length rest
                  (out ++ [prompt; printed (msg_digits length)])) as [[s| |] c'];
        [|split; [constructor; [exact Hok | apply IH] | apply IH] | exact IH].
      destruct IH as (Hl & Hd & rejected & good & Hlines & Hs & Hrej & Hout).
      split; [exact Hl|]. split; [exact Hd|].
      exists (line :: rejected), good. split; [cbn; now rewrite Hlines|].
      split; [exact Hs|]. split; [constructor; assumption|].
      rewrite Hout. cbn [flat_map]. now rewrite <- !app_assoc.
Qed.

(** X17. [ask_digits] asks again until a line, stripped of surrounding blanks,
    has the asked length and is accepted by [str.isdigit]; it answers that
    stripped line, having consumed the lines before it and printed the
    error once for each of them. It fails only with [EOFError], when no
    line left on standard input is acceptable. *)
Theorem ask_digits_spec (prompt : string) (length : Z) (c : console) :
  match ask_digits prompt length c with
  | (Answer s, c') =>
      py_len s = length /\ Py.isdigit s = true
      /\ exists rejected line,
           stdin c = rejected ++ line :: stdin c'
           /\ s = strip line
           /\ Forall (fun l => digits_line length l = false) rejected
           /\ stdout c'
              = stdout c ++ flat_map (fun _ => [prompt; printed (msg_digits length)]) rejected
                         ++ [prompt]
  | (EOFError, c') =>
      Forall (fun l => digits_line length l = false) (stdin c) /\ stdin c' = []
  | (ValueError, _) => False
  end.
Proof. apply ask_digits_from_spec. Qed.

Lemma int_of_digits_fold_nonneg (chars : list ascii) :
  forall acc, 0 <= acc ->
    Forall (fun ch => ascii_digit ch = true) chars ->
    0 <= fold_left (fun acc ch => 10 * acc + (Py.ord ch - 48)) chars acc.
Proof.
  induction chars as [|ch chars IH]; intros acc Hacc Hall; cbn [fold_left]; [exact Hacc|].
  inversion Hall as [|? ? Hch Hrest]; subst.
  apply IH; [|exact Hrest]. apply ascii_digit_range in Hch. lia.
Qed.

Lemma all_chars_Forall (p : ascii -> bool) (s : string) :
  Py.all_chars p s = true -> Forall (fun ch => p ch = true) (list_ascii_of_string s).
Proof.
  induction s as [|ch s IH]; cbn [Py.all_chars list_ascii_of_string]; [constructor|].
  intros H. apply andb_prop in H as [Hch Hs]. constructor; [exact Hch | now apply IH].
Qed.

Lemma py_int_some (limit : nat) (s : string) (v : Z) :
  py_int limit s = Some v ->
  nonempty_ascii_digits s = true /\ v = int_of_digits s /\ 0 <= v.
Proof.
  unfold py_int. destruct (nonempty_ascii_digits s) eqn:Hd; [|discriminate].
  destruct ((640 <? String.length s)%nat && (0 <? limit)%nat && (limit <? String.length s)%nat);
    [discriminate|].
  intros [= <-]. split; [reflexivity|]. split; [reflexivity|].
  unfold int_of_digits. apply int_of_digits_fold_nonneg; [lia|].
  apply all_chars_Forall. destruct s; [discriminate Hd | exact Hd].
Qed.

Lemma under_none (min_v : option Z) (v : Z) :
  under min_v v = None -> forall m, min_v = Some m -> m <= v.
Proof.
  unfold under. intros H m ->. destruct (v <? m) eqn:E; [discriminate|].
  apply Z.ltb_ge in E. exact E.
Qed.

Lemma over_none (max_v : option Z) (v : Z) :
  over max_v v = None -> forall m, max_v = Some m -> v <= m.
Proof.
  unfold over. intros H m ->. destruct (v >? m) eqn:E; [discriminate|].
  rewrite Z.gtb_ltb in E. apply Z.ltb_ge in E. exact E.
Qed.

Lemma ask_int_from_spec (limit : nat) (prompt : string) (min_v max_v : option Z)
    (lines : list string) :
  forall out : list string,
    match ask_int_from limit prompt min_v max_v lines out with
    | (Answer v, c') =>
        (forall m, min_v = Some m -> m <= v)
        /\ (forall m, max_v = Some m -> v <= m)
        /\ 0 <= v
        /\ exists rejected line,
             lines = rejected ++ line :: stdin c'
             /\ Py.isdigit (strip line) = true
             /\ py_int limit (strip line) = Some v
    | (EOFError, c') => stdin c' = []
    | (ValueError, c') =>
        exists rejected line,
          lines = rejected ++ line :: stdin c'
          /\ Py.isdigit (strip line) = true
          /\ py_int limit (strip line) = None
    end.
Proof.
  induction lines as [|line rest IH]; intros out; cbn [ask_int_from]; [reflexivity|].
  assert (Hnext : forall out',
            match ask_int_from limit prompt min_v max_v rest out' with
            | (Answer v, c') =>
                (forall m, min_v = Some m -> m <= v)
                /\ (forall m, max_v = Some m -> v <= m)
                /\ 0 <= v
                /\ exists rejected line0,
                     line :: rest = rejected ++ line0 :: stdin c'
                     /\ Py.isdigit (strip line0) = true
                     /\ py_int limit (strip line0) = Some v
            | (EOFError, c') => stdin c' = []
            | (ValueError, c') =>
                exists rejected line0,
                  line :: rest = rejected ++ line0 :: stdin c'
                  /\ Py.isdigit (strip line0) = true
                  /\ py_int limit (strip line0) = None
            end).
  { intros out'. specialize (IH out').
    destruct (ask_int_from limit prompt min_v max_v rest out') as [[v| |] c'].
    - destruct IH as (Hmin & Hmax & Hv & rejected & good & Hl & Hd & Hval).
      repeat split; try assumption.
      exists (line :: rejected), good. cbn. now rewrite Hl.
    - exact IH.
    - destruct IH as (rejected & bad & Hl & Hd & Hint).
      exists (line :: rejected), bad. cbn. now rewrite Hl. }
  destruct (Py.isdigit (strip line)) eqn:Hdig; cbn [negb]; [|apply Hnext].
  destruct (py_int limit (strip line)) as [v|] eqn:Hint.
  - destruct (under min_v v) as [m|] eqn:Hu; [apply Hnext|].
    destruct (over max_v v) as [m|] eqn:Ho; [apply Hnext|].
    destruct (py_int_some _ _ _ Hint) as (Had & Hval & Hv).
    split; [now apply under_none|]. split; [now apply over_none|]. split; [exact Hv|].
    exists [], line. now cbn.
  - exists [], line. now cbn.
Qed.

(** X18. When [ask_int] answers, the answer is what [int] makes of an input
    line, stripped of surrounding blanks, that [str.isdigit] accepts; it is
    a number [>= 0] within the bounds that were given. [ask_int] ends with
    [ValueError] only on a line that [str.isdigit] accepts but [int]
    rejects, and with [EOFError] only when standard input is exhausted. *)
Theorem ask_int_spec (limit : nat) (prompt : string) (min_v max_v : option Z) (c : console) :
  match ask_int limit prompt min_v max_v c with
  | (Answer v, c') =>
      (forall m, min_v = Some m -> m <= v)
      /\ (forall m, max_v = Some m -> v <= m)
      /\ 0 <= v
      /\ exists rejected line,
           stdin c = rejected ++ line :: stdin c'
           /\ Py.isdigit (strip line) = true
           /\ py_int limit (strip line) = Some v
  | (EOFError, c') => stdin c' = []
  | (ValueError, c') =>
      exists rejected line,
        stdin c = rejected ++ line :: stdin c'
        /\ Py.isdigit (strip line) = true
        /\ py_int limit (strip line) = None
  end.
Proof. apply ask_int_from_spec. Qed.

(** X19. A line of digits that holds a superscript digit (U+00B2, U+00B3 or
    U+00B9), which [str.isdigit] accepts and [int] does not, ends [ask_int]
    with [ValueError] instead of a new prompt. *)
Theorem ask_int_value_error (limit : nat) (prompt : string) (min_v max_v : option Z)
    (line : string) (rest out : list string) :
  Py.isdigit (strip line) = true ->
  nonempty_ascii_digits (strip line) = false ->
  ask_int limit prompt min_v max_v (mkConsole (line :: rest) out)
  = (ValueError, mkConsole rest (out ++ [prompt])).
Proof.
  intros Hdig Hascii. unfold ask_int. cbn [stdin stdout ask_int_from].
  rewrite Hdig. cbn [negb]. unfold py_int. now rewrite Hascii.
Qed.

(** The line "12" followed by a superscript two. *)
Lemma ask_int_value_error_witness :
  ask_int 4300 PROMPT_QTY (Some 1) None
    (mkConsole [" 12" +:+ String (Py.chr 178) ""; "5"] [])
  = (ValueError, mkConsole ["5"] ([] ++ [PROMPT_QTY])).
Proof.
  apply (ask_int_value_error 4300 PROMPT_QTY (Some 1) None
           (" 12" +:+ String (Py.chr 178) "") ["5"] []); reflexivity.
Defined.

(** What the three prompts guarantee. *)
Lemma prompts_valid_config (limit : nat) (c c' : console) (fixed : string) (start_serial qty : Z) :
  prompts limit c = (Answer (fixed, start_serial, qty), c') ->
  py_len fixed = 6 /\ Py.isdigit fixed = true
  /\ 0 <= start_serial <= 999
  /\ 1 <= qty.
Proof.
  unfold prompts. intros H.
  pose proof (ask_digits_from_spec PROMPT_FIXED 6 (stdin c) (stdout c)) as H1.
  fold (ask_digits PROMPT_FIXED 6 c) in H1.
  destruct (ask_digits PROMPT_FIXED 6 c) as [[f| |] c1]; try discriminate H.
  pose proof (ask_int_from_spec limit PROMPT_SERIAL (Some 0) (Some 999) (stdin c1) (stdout c1))
    as H2.
  fold (ask_int limit PROMPT_SERIAL (Some 0) (Some 999) c1) in H2.
  destruct (ask_int limit PROMPT_SERIAL (Some 0) (Some 999) c1) as [[s| |] c2];
    try discriminate H.
  pose proof (ask_int_from_spec limit PROMPT_QTY (Some 1) None (stdin c2) (stdout c2)) as H3.
  fold (ask_int limit PROMPT_QTY (Some 1) None c2) in H3.
  destruct (ask_int limit PROMPT_QTY (Some 1) None c2) as [[q| |] c3];
    try discriminate H.
  injection H as <- <- <- <-.
  destruct H1 as (Hlen & Hdig & _).
  destruct H2 as (Hmin & Hmax & _). destruct H3 as (Hmin' & _).
  split; [exact Hlen|]. split; [exact Hdig|].
  split; [split; [now apply Hmin | now apply Hmax] | now apply Hmin'].
Qed.

(** X20. Whatever is typed, a configuration that comes out of the three prompts
    has a fixed part of 6 characters accepted by [str.isdigit], a start
    serial in [0, 999] and a quantity [>= 1]. *)
Theorem prompts_valid (limit : nat) (c c' : console) (fixed : string) (start_serial qty : Z) :
  prompts limit c = (Answer (fixed, start_serial, qty), c') ->
  py_len fixed = 6 /\ Py.isdigit fixed = true
  /\ 0 <= start_serial <= 999
  /\ 1 <= qty.
Proof. apply prompts_valid_config. Qed.

(** A mistyped fixed part and an out-of-range serial, then good answers. *)
Lemma prompts_valid_witness :
  py_len "100000" = 6 /\ Py.isdigit "100000" = true
  /\ 0 <= 7 <= 999
  /\ 1 <= 2.
Proof.
  apply (prompts_valid 4300
           (mkConsole ["10000"; " 100000 "; "1000"; "7"; "0"; "2"] [])
           (snd (prompts 4300 (mkConsole ["10000"; " 100000 "; "1000"; "7"; "0"; "2"] [])))
           "100000" 7 2).
  vm_compute. reflexivity.
Defined.

(** ** From the prompts to the summary *)

Lemma generate_raises fixed start_serial qty out_file w :
  0 <= start_serial <= 999 ->
  1 <= qty ->
  start_serial + qty - 1 > 999 ->
  exists w',
    generate fixed start_serial out_file qty w
    = (Raise (mkExn SystemExit (msg_range 1000)), w')
    /\ nreq w' = nreq w.
Proof.
  intros Hstart Hqty Hover.
  set (n := Z.to_nat (1000 - start_serial)).
  assert (Hk : (Z.to_nat qty = n + S (Nat.pred (Z.to_nat qty - n)))%nat)
    by (unfold n; lia).
  set (w1 := set_fs (OpOpenW out_file) (<[out_file := []]> (fs w)) w).
  pose proof (gen_run_spec fixed start_serial out_file n 0 w1) as Hspec.
  exists (snd (gen_run fixed start_serial out_file n 0 w1)). split.
  - rewrite generate_unfold. fold w1.
    rewrite Hk, seq_app, map_app, generate_loop_app.
    rewrite generate_loop_in_range by (unfold n; lia).
    cbn [seq map generate_loop]. unfold bind.
    rewrite generate_one_out_of_range by (unfold n; lia).
    replace (start_serial + (0 + Z.of_nat (0 + n))) with 1000 by (unfold n; lia).
    reflexivity.
  - destruct (gen_run fixed start_serial out_file n 0 w1) as [codes w'].
    destruct Hspec as (_ & _ & Hnreq & _). exact Hnreq.
Qed.

(** X21. Whatever is typed at the prompts, once they have answered the run can
    end in two ways only. If the serials asked for stay within 999, [main]
    ends normally: every code is counted, none is skipped, each is OK or
    failed. Otherwise it ends with [SystemExit] naming serial 1000, and no
    request has been made. *)
Theorem run_outcomes (limit : nat) (c c' : console) (fixed : string) (start_serial qty : Z)
    (ts : string) (w : world) :
  prompts limit c = (Answer (fixed, start_serial, qty), c') ->
  rng_ok w ->
  (start_serial + qty <= 1000
   /\ exists s w',
        main fixed start_serial qty ts w = (Ok s, w')
        /\ total s = qty /\ skip s = 0 /\ ok s + fail s = qty)
  \/ (start_serial + qty > 1000
      /\ exists w',
           main fixed start_serial qty ts w
           = (Raise (mkExn SystemExit (msg_range 1000)), w')
           /\ nreq w' = nreq w).
Proof.
  intros Hp Hrng.
  destruct (prompts_valid_config limit c c' fixed start_serial qty Hp)
    as (_ & Hdig & Hstart & Hqty).
  destruct (Z_le_gt_dec (start_serial + qty) 1000) as [Hin | Hout].
  - left. split; [exact Hin|].
    destruct (main_run fixed start_serial qty ts w Hdig) as (s & w' & Hrun & Ht & Hs & Hof & _);
      [lia | lia | lia | assumption |].
    now exists s, w'.
  - right. split; [exact Hout|].
    destruct (generate_raises fixed start_serial qty ("ilusiona_" +:+ ts +:+ ".txt") w)
      as (w' & Hgen & Hnreq); [lia | lia | lia |].
    exists w'. split; [|exact Hnreq].
    unfold main, bind. now rewrite Hgen.
Qed.

(** Serial 999 and two codes asked: the run stops at serial 1000. *)
Lemma run_outcomes_witness :
  (999 + 2 <= 1000
   /\ exists s w',
        main "100000" 999 2 "20260101000000" zero_world = (Ok s, w')
        /\ total s = 2 /\ skip s = 0 /\ ok s + fail s = 2)
  \/ (999 + 2 > 1000
      /\ exists w',
           main "100000" 999 2 "20260101000000" zero_world
           = (Raise (mkExn SystemExit (msg_range 1000)), w')
           /\ nreq w' = nreq zero_world).
Proof.
  apply (run_outcomes 4300
           (mkConsole ["100000"; "999"; "2"] [])
           (snd (prompts 4300 (mkConsole ["100000"; "999"; "2"] [])))
           "100000" 999 2 "20260101000000" zero_world).
  - vm_compute. reflexivity.
  - intros k n Hn. simpl. lia.
Defined.
